(** * Advanced-Text-Engine: the world model, embedded and verified

    A shallow embedding of the stores of the story engine (entity store,
    relationship graph, world parameters and calendar), of the validation
    rules, of the creation pipeline and of saving and loading, followed by
    the properties proved about them.

    Conventions of the embedding.
    - A JavaScript object used as a dictionary is a [gmap string _]; a
      [Map] is an insertion-ordered association list ([JsMap]); an array
      is a [list].
    - Free-form data (entity attributes, parsed JSON) is a [JsVal].
    - A property read is an own-property read: keys that name members of
      [Object.prototype] are outside the model.
    - Text is ASCII; numbers stored by the engine are integers ([Z]),
      numbers it derives by division are exact rationals ([Q]).
    - [new Date().toISOString()] is an argument [now] of every operation
      that reads the clock (one reading per call).
    - A call that can throw returns a [completion]; the state after the
      call is returned beside it, also when the call throws. *)

From Stdlib Require Import ZArith QArith List String Ascii Bool Lia.
From stdpp Require Import gmap strings list fin_maps pretty.
Import ListNotations.

Set Warnings "-register-all".
Open Scope Z_scope.
Open Scope string_scope.

(* ===================================================================== *)
(** * Part I: definitions *)
(* ===================================================================== *)

(** ** JavaScript values and errors *)

Module Js.

Inductive JsVal :=
| VUndef
| VNull
| VBool (b : bool)
| VNum (n : Z)
| VStr (s : string)
| VArr (xs : list JsVal)
| VObj (props : list (string * JsVal)).

(** A plain object as a property list, in insertion order. *)
Abbreviation Obj := (list (string * JsVal)) (only parsing).

(** [o[k]]: the value of own property [k], [undefined] when absent. *)
Fixpoint get (o : Obj) (k : string) : JsVal :=
  match o with
  | [] => VUndef
  | (k', v) :: rest => if String.eqb k' k then v else get rest k
  end.

(** [ToBoolean]. *)
Definition truthy (v : JsVal) : bool :=
  match v with
  | VUndef | VNull => false
  | VBool b => b
  | VNum n => negb (n =? 0)%Z
  | VStr s => negb (String.eqb s "")
  | VArr _ | VObj _ => true
  end.

(** [a || b]. *)
Definition or (a b : JsVal) : JsVal := if truthy a then a else b.

(** [a === b] on primitives.  Objects and arrays are compared by
    reference in JavaScript; the model holds their contents, not their
    identity, and answers [false] for them. *)
Definition strict_eq (a b : JsVal) : bool :=
  match a, b with
  | VUndef, VUndef | VNull, VNull => true
  | VBool x, VBool y => Bool.eqb x y
  | VNum x, VNum y => (x =? y)%Z
  | VStr x, VStr y => String.eqb x y
  | _, _ => false
  end.

(** [a < b] and [a > b] between numbers; any other operand makes the
    model answer [false], as a comparison with [NaN] does. *)
Definition lt (a b : JsVal) : bool :=
  match a, b with VNum x, VNum y => (x <? y)%Z | _, _ => false end.
Definition gt (a b : JsVal) : bool := lt b a.

(** [`${v}`]: the text a template literal inserts for [v]. *)
Fixpoint to_string (v : JsVal) : string :=
  match v with
  | VUndef => "undefined"
  | VNull => "null"
  | VBool true => "true"
  | VBool false => "false"
  | VNum n => pretty n
  | VStr s => s
  | VArr xs =>
      String.concat ","
        (List.map (fun x => match x with
                            | VUndef | VNull => ""
                            | _ => to_string x
                            end) xs)
  | VObj _ => "[object Object]"
  end.

(** [o || d] for a text field: missing and the empty text are falsy. *)
Definition or_str (o : option string) (d : string) : string :=
  match o with
  | Some s => if String.eqb s "" then d else s
  | None => d
  end.

(** [o || d] for a number field: missing and 0 are falsy. *)
Definition or_num (o : option Z) (d : Z) : Z :=
  match o with
  | Some n => if (n =? 0)%Z then d else n
  | None => d
  end.

(** [o || d] for an array or object field: only missing is falsy. *)
Definition or_ref {A} (o : option A) (d : A) : A :=
  match o with
  | Some a => a
  | None => d
  end.

(** What a [throw] carries. *)
Inductive Thrown :=
| TypeError (message : string)
| Error (message : string)
| AppError (message : string) (statusCode : Z).

Definition message_of (e : Thrown) : string :=
  match e with
  | TypeError m | Error m | AppError m _ => m
  end.

(** How a call ends. *)
Inductive completion (A : Type) :=
| Normal (a : A)
| Throw (e : Thrown).
Arguments Normal {A} a.
Arguments Throw {A} e.

(** [String.prototype.toUpperCase] on ASCII text. *)
Definition upper_ascii (c : ascii) : ascii :=
  let n := nat_of_ascii c in
  if ((97 <=? n)%nat && (n <=? 122)%nat)%bool then ascii_of_nat (n - 32) else c.

Fixpoint toUpperCase (s : string) : string :=
  match s with
  | EmptyString => EmptyString
  | String c rest => String (upper_ascii c) (toUpperCase rest)
  end.

(** The white space [String.prototype.trim] removes, among ASCII. *)
Definition is_space (c : ascii) : bool :=
  let n := nat_of_ascii c in
  ((9 <=? n)%nat && (n <=? 13)%nat)%bool || (n =? 32)%nat.

(** [!s.trim()]: the text is empty once trimmed. *)
Fixpoint blank (s : string) : bool :=
  match s with
  | EmptyString => true
  | String c rest => is_space c && blank rest
  end.

(** *** [Map]: an association list in insertion order, keys unique *)

Abbreviation JsMap V := (list (string * V)) (only parsing).

Fixpoint Map_get {V} (m : JsMap V) (k : string) : option V :=
  match m with
  | [] => None
  | (k', v) :: rest => if String.eqb k' k then Some v else Map_get rest k
  end.

Definition Map_has {V} (m : JsMap V) (k : string) : bool :=
  match Map_get m k with Some _ => true | None => false end.

(** [m.set(k, v)]: an existing key keeps its place, a new one goes last. *)
Fixpoint Map_set {V} (m : JsMap V) (k : string) (v : V) : JsMap V :=
  match m with
  | [] => [(k, v)]
  | (k', v') :: rest =>
      if String.eqb k' k then (k', v) :: rest else (k', v') :: Map_set rest k v
  end.

Fixpoint Map_delete {V} (m : JsMap V) (k : string) : JsMap V :=
  match m with
  | [] => []
  | (k', v') :: rest =>
      if String.eqb k' k then rest else (k', v') :: Map_delete rest k
  end.

(** [new Map(entries)]. *)
Definition Map_of_entries {V} (entries : list (string * V)) : JsMap V :=
  fold_left (fun m kv => Map_set m (fst kv) (snd kv)) entries [].

(** [Object.fromEntries(entries)]: a later entry overwrites an earlier one. *)
Definition Object_fromEntries {V} (entries : list (string * V)) : gmap string V :=
  fold_left (fun o kv => <[fst kv := snd kv]> o) entries ∅.

(** [Object.entries(o)], in the order the dictionary lists its keys. *)
Definition Object_entries {V} (o : gmap string V) : list (string * V) :=
  map_to_list o.

(** [Object.values(o)]. *)
Definition Object_values {V} (o : gmap string V) : list V :=
  (map_to_list o).*2.

(** [xs.slice(-n)]: the last [n] elements. *)
Definition slice_last {A} (n : nat) (xs : list A) : list A :=
  skipn (length xs - n) xs.

(** The invariant of a [Map]: no key twice. *)
Definition Map_wf {V} (m : JsMap V) : Prop := NoDup (m.*1).

End Js.

(** ** utils/Constants.js *)

Module Constants.

Record Bounds := { min : Z; max : Z; default : Z }.

Definition RELATIONSHIP_TYPES : list (string * Bounds) :=
  [ ("TRUST",    {| min := 0; max := 100; default := 50 |});
    ("FEAR",     {| min := 0; max := 100; default := 10 |});
    ("RESPECT",  {| min := 0; max := 100; default := 50 |});
    ("LOVE",     {| min := 0; max := 100; default := 0 |});
    ("RIVALRY",  {| min := 0; max := 100; default := 0 |});
    ("ALLIANCE", {| min := 0; max := 100; default := 0 |}) ].

Definition NPC := "npc".
Definition FACTION := "faction".
Definition LOCATION := "location".
Definition ITEM := "item".
Definition EVENT := "event".

(** [Object.values(ENTITY_TYPES)]. *)
Definition ENTITY_TYPES : list string := [NPC; FACTION; LOCATION; ITEM; EVENT].

Definition MAX_NPCS_PER_LOCATION := 15.
Definition MAX_FACTIONS_PER_TERRITORY := 3.
Definition MIN_TRUST_FOR_ALLIANCE := 70.
Definition MAX_ITEMS_IN_INVENTORY := 25.
Definition MAX_ACTIVE_EVENTS := 10.
Definition MAX_RUMORS := 15.

Definition WORLD_PARAMETERS : list (string * Bounds) :=
  [ ("GLOBAL_TENSION",      {| min := 0; max := 100; default := 30 |});
    ("POLITICAL_STABILITY", {| min := 0; max := 100; default := 80 |});
    ("ECONOMIC_STATE",      {| min := 0; max := 100; default := 50 |});
    ("MAGICAL_ACTIVITY",    {| min := 0; max := 100; default := 20 |}) ].

(** [table[key]] on one of the tables above. *)
Definition lookup_table (table : list (string * Bounds)) (key : string) : option Bounds :=
  Js.Map_get table key.

End Constants.

(** ** core/RelationshipGraph.js

    The graph of [src/advanced-story-engine/src/core/RelationshipGraph.js],
    the one the unit tests exercise.  [relationshipData], [changes] and
    [standing] are objects whose fields may be missing ([None]). *)

Module RelationshipGraph.
Import Js.

(** The [changes] argument of [updateRelationship]. *)
Record Changes := {
  chg_type : option string;
  chg_strength : option Z;
  chg_reason : option string;
  chg_established : option string
}.

(** What [{ ...relationship }] copies by value.  The copy also shares the
    [history] array with the relationship it is taken from; that reference
    is not part of the model. *)
Record Snapshot := {
  snap_type : string;
  snap_strength : Z;
  snap_reason : string;
  snap_established : string;
  snap_lastModified : string
}.

Record HistoryEntry := {
  change : Changes;
  previousState : Snapshot;
  h_timestamp : string
}.

Record Relationship := {
  type : string;
  strength : Z;
  reason : string;
  established : string;
  lastModified : string;
  history : list HistoryEntry
}.

Record RelationshipData := {
  data_type : option string;
  data_strength : option Z;
  data_reason : option string;
  data_established : option string;
  data_history : option (list HistoryEntry)
}.

(** An entry of [this.relationshipHistory]. *)
Record LedgerEntry := {
  entity1 : string;
  entity2 : string;
  action : string;
  relationship : option Relationship;
  changes : option Changes;
  l_timestamp : string
}.

Record StandingChange := {
  amount : Z;
  sc_reason : string;
  sc_timestamp : string;
  previousValue : Z
}.

Record Standing := {
  value : Z;
  s_history : list StandingChange;
  lastChange : option StandingChange;
  s_established : string
}.

Record StandingData := {
  sd_value : option Z;
  sd_history : option (list StandingChange);
  sd_lastChange : option StandingChange;
  sd_established : option string
}.

Record Graph := {
  relationships : JsMap (JsMap Relationship);
  playerStandings : JsMap Standing;
  relationshipHistory : list LedgerEntry
}.

(** [constructor()]. *)
Definition new : Graph :=
  {| relationships := []; playerStandings := []; relationshipHistory := [] |}.

(** [setRelationship(entity1Id, entity2Id, relationshipData)]. *)
Definition setRelationship (now : string) (g : Graph) (entity1Id entity2Id : string)
    (relationshipData : RelationshipData) : Graph * Relationship :=
  let rels :=
    if Map_has (relationships g) entity1Id then relationships g
    else Map_set (relationships g) entity1Id [] in
  let r :=
    {| type := or_str (data_type relationshipData) "neutral";
       strength := or_num (data_strength relationshipData) 50;
       reason := or_str (data_reason relationshipData) "";
       established := or_str (data_established relationshipData) now;
       lastModified := now;
       history := or_ref (data_history relationshipData) [] |} in
  let targets := or_ref (Map_get rels entity1Id) [] in
  ({| relationships := Map_set rels entity1Id (Map_set targets entity2Id r);
      playerStandings := playerStandings g;
      relationshipHistory :=
        relationshipHistory g ++
        [ {| entity1 := entity1Id; entity2 := entity2Id;
             action := "established";
             relationship := Some r; changes := None;
             l_timestamp := now |} ] |},
   r).

(** [getRelationship(entity1Id, entity2Id)]; [None] is [null]. *)
Definition getRelationship (g : Graph) (entity1Id entity2Id : string) : option Relationship :=
  match Map_get (relationships g) entity1Id with
  | Some targets => Map_get targets entity2Id
  | None => None
  end.

(** [Object.assign(relationship, changes)], then the new [lastModified]. *)
Definition assign (r : Relationship) (c : Changes) (now : string) : Relationship :=
  {| type := or_ref (chg_type c) (type r);
     strength := or_ref (chg_strength c) (strength r);
     reason := or_ref (chg_reason c) (reason r);
     established := or_ref (chg_established c) (established r);
     lastModified := now;
     history := history r |}.

Definition snapshot (r : Relationship) : Snapshot :=
  {| snap_type := type r; snap_strength := strength r; snap_reason := reason r;
     snap_established := established r; snap_lastModified := lastModified r |}.

(** [updateRelationship(entity1Id, entity2Id, changes)]. *)
Definition updateRelationship (now : string) (g : Graph) (entity1Id entity2Id : string)
    (c : Changes) : Graph * completion Relationship :=
  match Map_get (relationships g) entity1Id with
  | None =>
      (g, Throw (Error ("Relationship between " ++ entity1Id ++ " and " ++ entity2Id
                        ++ " does not exist")))
  | Some targets =>
      match Map_get targets entity2Id with
      | None =>
          (g, Throw (Error ("Relationship between " ++ entity1Id ++ " and " ++ entity2Id
                            ++ " does not exist")))
      | Some r =>
          let oldRelationship := snapshot r in
          let r1 := assign r c now in
          let r2 :=
            {| type := type r1; strength := strength r1; reason := reason r1;
               established := established r1; lastModified := lastModified r1;
               history := history r1 ++
                 [ {| change := c; previousState := oldRelationship;
                      h_timestamp := now |} ] |} in
          ({| relationships :=
                Map_set (relationships g) entity1Id (Map_set targets entity2Id r2);
              playerStandings := playerStandings g;
              relationshipHistory :=
                relationshipHistory g ++
                [ {| entity1 := entity1Id; entity2 := entity2Id;
                     action := "updated";
                     relationship := None; changes := Some c;
                     l_timestamp := now |} ] |},
           Normal r2)
      end
  end.

(** [setPlayerStanding(entityId, standing)]. *)
Definition setPlayerStanding (now : string) (g : Graph) (entityId : string)
    (standing : StandingData) : Graph :=
  {| relationships := relationships g;
     playerStandings :=
       Map_set (playerStandings g) entityId
         {| value := or_num (sd_value standing) 0;
            s_history := or_ref (sd_history standing) [];
            lastChange := sd_lastChange standing;
            s_established := or_str (sd_established standing) now |};
     relationshipHistory := relationshipHistory g |}.

(** [updatePlayerStanding(entityId, change, reason)]. *)
Definition updatePlayerStanding (now : string) (g : Graph) (entityId : string)
    (change_ : Z) (reason_ : string) : Graph * Standing :=
  let g1 :=
    if Map_has (playerStandings g) entityId then g
    else setPlayerStanding now g entityId
           {| sd_value := Some 0; sd_history := None; sd_lastChange := None;
              sd_established := None |} in
  let standing :=
    or_ref (Map_get (playerStandings g1) entityId)
      {| value := 0; s_history := []; lastChange := None; s_established := now |} in
  let oldValue := value standing in
  let last := {| amount := change_; sc_reason := reason_; sc_timestamp := now;
                 previousValue := oldValue |} in
  let pushed := (s_history standing ++ [last])%list in
  let standing' :=
    {| value := oldValue + change_;
       s_history := if (50 <? length pushed)%nat then slice_last 50 pushed else pushed;
       lastChange := Some last;
       s_established := s_established standing |} in
  ({| relationships := relationships g1;
      playerStandings := Map_set (playerStandings g1) entityId standing';
      relationshipHistory := relationshipHistory g1 |},
   standing').

(** One turn of the loop of [calculateRelationshipStrength], on the
    running sum [indirectStrength] and the counter [connectionCount]. *)
Definition two_hop_step (g : Graph) (entity2Id : string) (acc : Q * nat)
    (entry : string * Relationship) : Q * nat :=
  match getRelationship g (fst entry) entity2Id with
  | Some relationship2 =>
      ((fst acc +
        inject_Z (strength (snd entry)) * inject_Z (strength relationship2)
        / inject_Z 100)%Q,
       S (snd acc))
  | None => acc
  end.

(** [calculateRelationshipStrength(entity1Id, entity2Id)]. *)
Definition calculateRelationshipStrength (g : Graph) (entity1Id entity2Id : string) : Q :=
  match getRelationship g entity1Id entity2Id with
  | Some directRelationship => inject_Z (strength directRelationship)
  | None =>
      let acc :=
        match Map_get (relationships g) entity1Id with
        | Some targets => fold_left (two_hop_step g entity2Id) targets (0%Q, 0%nat)
        | None => (0%Q, 0%nat)
        end in
      if (0 <? snd acc)%nat then (fst acc / inject_Z (Z.of_nat (snd acc)))%Q else 0%Q
  end.

(** The reading of the specification: the two-hop paths from [a] to [b],
    each with the product of its two strengths over 100, and their mean. *)
Definition two_hop_strengths (g : Graph) (a b : string) : list Q :=
  flat_map
    (fun (entry : string * Relationship) =>
       match getRelationship g (fst entry) b with
       | Some r2 => [(inject_Z (strength (snd entry)) * inject_Z (strength r2)
                      / inject_Z 100)%Q]
       | None => []
       end)
    (or_ref (Map_get (relationships g) a) []).

Definition Qsum (l : list Q) : Q := fold_right Qplus 0%Q l.

Definition average (l : list Q) : Q :=
  match l with
  | [] => 0%Q
  | _ => (Qsum l / inject_Z (Z.of_nat (length l)))%Q
  end.

(** The object [exportRelationships] returns and [importRelationships]
    reads; a property that is not there is [None]. *)
Record Exported := {
  exp_relationships : option (gmap string (gmap string Relationship));
  exp_playerStandings : option (gmap string Standing);
  exp_relationshipHistory : option (list LedgerEntry);
  exp_timestamp : option string
}.

(** [exportRelationships()]. *)
Definition exportRelationships (now : string) (g : Graph) : Exported :=
  {| exp_relationships :=
       Some (Object_fromEntries
               (List.map (fun kv => (fst kv, Object_fromEntries (snd kv)))
                         (relationships g)));
     exp_playerStandings := Some (Object_fromEntries (playerStandings g));
     exp_relationshipHistory := Some (slice_last 100 (relationshipHistory g));
     exp_timestamp := Some now |}.

(** [importRelationships(data)]. *)
Definition importRelationships (g : Graph) (data : Exported) : Graph :=
  {| relationships :=
       match exp_relationships data with
       | Some o =>
           fold_left
             (fun m kv => Map_set m (fst kv) (Map_of_entries (Object_entries (snd kv))))
             (Object_entries o) []
       | None => []
       end;
     playerStandings := Map_of_entries (Object_entries (or_ref (exp_playerStandings data) ∅));
     relationshipHistory := or_ref (exp_relationshipHistory data) [] |}.

(** The invariant of the graph: each of its [Map]s has its keys once. *)
Definition wf (g : Graph) : Prop :=
  Map_wf (relationships g) /\
  Forall (fun entry : string * list (string * Relationship) => Map_wf (snd entry))
         (relationships g) /\
  Map_wf (playerStandings g).

(** The graphs the operations above can produce from a new one. *)
Inductive reachable : Graph -> Prop :=
| reach_new : reachable new
| reach_set now g a b d :
    reachable g -> reachable (fst (setRelationship now g a b d))
| reach_update now g a b c :
    reachable g -> reachable (fst (updateRelationship now g a b c))
| reach_setStanding now g id sd :
    reachable g -> reachable (setPlayerStanding now g id sd)
| reach_updateStanding now g id n why :
    reachable g -> reachable (fst (updatePlayerStanding now g id n why))
| reach_import g data :
    reachable (importRelationships g data).

(** [getPlayerStanding(entityId)]: a standing that is not stored reads as
    [{ value: 0, history: [], lastChange: null }], which has no
    [established]. *)
Definition getPlayerStanding (g : Graph) (entityId : string)
    : Z * list StandingChange * option StandingChange :=
  match Map_get (playerStandings g) entityId with
  | Some standing => (value standing, s_history standing, lastChange standing)
  | None => (0, [], None)
  end.

(** [findAllies(entityId, minimumStrength)] and
    [findEnemies(entityId, minimumHostility)]: the pairs
    [{ entityId, relationship }], in the order of the [Map]. *)
Definition findAllies (g : Graph) (entityId : string) (minimumStrength : Z)
    : list (string * Relationship) :=
  match Map_get (relationships g) entityId with
  | Some targets =>
      List.filter (fun entry : string * Relationship =>
                     String.eqb (type (snd entry)) "ally"
                     && (minimumStrength <=? strength (snd entry))%Z)
                  targets
  | None => []
  end.

Definition findEnemies (g : Graph) (entityId : string) (minimumHostility : Z)
    : list (string * Relationship) :=
  match Map_get (relationships g) entityId with
  | Some targets =>
      List.filter (fun entry : string * Relationship =>
                     String.eqb (type (snd entry)) "enemy"
                     && (minimumHostility <=? strength (snd entry))%Z)
                  targets
  | None => []
  end.

(** The object [analyzeRelationshipNetwork] returns. *)
Record Analysis := {
  directConnections : nat;
  allies : nat;
  enemies : nat;
  neutral : nat;
  averageStrength : Q;
  mostTrusted : option string;
  mostFeared : option string;
  networkInfluence : Z
}.

(** The variables of the loop of [analyzeRelationshipNetwork]. *)
Record Tally := {
  totalStrength : Z;
  maxTrust : Z;
  maxFear : Z;
  t_allies : nat;
  t_enemies : nat;
  t_neutral : nat;
  t_mostTrusted : option string;
  t_mostFeared : option string
}.

Definition tally_start : Tally :=
  {| totalStrength := 0; maxTrust := 0; maxFear := 0;
     t_allies := 0; t_enemies := 0; t_neutral := 0;
     t_mostTrusted := None; t_mostFeared := None |}.

(** One turn of the loop. *)
Definition tally_step (t : Tally) (entry : string * Relationship) : Tally :=
  let targetId := fst entry in
  let relationship := snd entry in
  let is_ally := String.eqb (type relationship) "ally" in
  let is_enemy := String.eqb (type relationship) "enemy" in
  let trusted := ((maxTrust t <? strength relationship)%Z && is_ally)%bool in
  let feared := ((maxFear t <? strength relationship)%Z && is_enemy)%bool in
  {| totalStrength := totalStrength t + strength relationship;
     maxTrust := if trusted then strength relationship else maxTrust t;
     maxFear := if feared then strength relationship else maxFear t;
     t_allies := if is_ally then S (t_allies t) else t_allies t;
     t_enemies := if is_ally then t_enemies t
                  else if is_enemy then S (t_enemies t) else t_enemies t;
     t_neutral := if is_ally then t_neutral t
                  else if is_enemy then t_neutral t else S (t_neutral t);
     t_mostTrusted := if trusted then Some targetId else t_mostTrusted t;
     t_mostFeared := if feared then Some targetId else t_mostFeared t |}.

(** [analyzeRelationshipNetwork(entityId)]. *)
Definition analyzeRelationshipNetwork (g : Graph) (entityId : string) : Analysis :=
  match Map_get (relationships g) entityId with
  | None =>
      {| directConnections := 0; allies := 0; enemies := 0; neutral := 0;
         averageStrength := 0%Q; mostTrusted := None; mostFeared := None;
         networkInfluence := 0 |}
  | Some targets =>
      let t := fold_left tally_step targets tally_start in
      {| directConnections := length targets;
         allies := t_allies t;
         enemies := t_enemies t;
         neutral := t_neutral t;
         averageStrength :=
           if (0 <? length targets)%nat
           then (inject_Z (totalStrength t) / inject_Z (Z.of_nat (length targets)))%Q
           else 0%Q;
         mostTrusted := t_mostTrusted t;
         mostFeared := t_mostFeared t;
         networkInfluence :=
           Z.of_nat (t_allies t) * 2 - Z.of_nat (t_enemies t) + Z.of_nat (t_neutral t) |}
  end.

End RelationshipGraph.

(** ** The validating relationship graph (src/unnamed/part_004)

    A second [RelationshipGraph] class of the repository: it validates its
    arguments, keeps the history of an edge across writes and bounds the
    ledger.  The model covers [setRelationship], [getRelationship],
    [removeRelationship], [getEntityRelationships] and
    [getRelationshipHistory]. *)

Module RelationshipGraphChecked.
Import Js.

(** The [type] a caller supplies: a text, or (a reference to) one of the
    objects stored in [Constants.RELATIONSHIP_TYPES], named by its key. *)
Inductive TypeValue :=
| TypeText (s : string)
| TypeEntry (key : string).

(** [Object.values(RELATIONSHIP_TYPES).includes(type)]: [includes]
    compares with SameValueZero, and the values of the table are objects,
    so no text is ever included. *)
Definition includes_type (t : TypeValue) : bool :=
  match t with
  | TypeText _ => false
  | TypeEntry key => Map_has Constants.RELATIONSHIP_TYPES key
  end.

Definition type_text (t : TypeValue) : string :=
  match t with
  | TypeText s => s
  | TypeEntry _ => "[object Object]"
  end.

Record HistoryEntry := {
  h_timestamp : string;
  h_type : TypeValue;
  h_strength : Z;
  h_reason : string
}.

Record Relationship := {
  type : TypeValue;
  strength : Z;
  reason : string;
  established : string;
  lastModified : string;
  history : list HistoryEntry
}.

Record RelationshipData := {
  data_type : option TypeValue;
  data_strength : option Z;
  data_reason : option string;
  data_established : option string
}.

Record LedgerEntry := {
  entity1 : string;
  entity2 : string;
  action : string;
  relationship : Relationship;
  l_timestamp : string
}.

Record Graph := {
  relationships : JsMap (JsMap Relationship);
  playerStandings : JsMap JsVal;
  relationshipHistory : list LedgerEntry
}.

Definition new : Graph :=
  {| relationships := []; playerStandings := []; relationshipHistory := [] |}.

Definition invalid_type_message (t : TypeValue) : string :=
  "Invalid relationship type: " ++ type_text t ++ ". Must be one of: "
  ++ String.concat ", "
       (List.map (fun _ : string * Constants.Bounds => "[object Object]")
                 Constants.RELATIONSHIP_TYPES).

(** [setRelationship(entity1Id, entity2Id, relationshipData = {})].  The
    destructuring defaults apply to a missing field only. *)
Definition setRelationship (now : string) (g : Graph) (entity1Id entity2Id : string)
    (relationshipData : RelationshipData) : Graph * completion Relationship :=
  if blank entity1Id then
    (g, Throw (AppError "entity1Id must be a non-empty string" 400))
  else if blank entity2Id then
    (g, Throw (AppError "entity2Id must be a non-empty string" 400))
  else if String.eqb entity1Id entity2Id then
    (g, Throw (AppError "Cannot create a relationship between an entity and itself" 400))
  else
    let type_ := or_ref (data_type relationshipData) (TypeText "neutral") in
    let strength_ := or_ref (data_strength relationshipData) 50 in
    let reason_ := or_ref (data_reason relationshipData) "" in
    if negb (includes_type type_) then
      (g, Throw (AppError (invalid_type_message type_) 400))
    else if ((strength_ <? 0)%Z || (100 <? strength_)%Z)%bool then
      (g, Throw (AppError "Relationship strength must be a number between 0 and 100" 400))
    else
      let rels :=
        if Map_has (relationships g) entity1Id then relationships g
        else Map_set (relationships g) entity1Id [] in
      let targets := or_ref (Map_get rels entity1Id) [] in
      let existingRelationship := Map_get targets entity2Id in
      let r :=
        {| type := type_;
           strength := Z.max 0 (Z.min 100 strength_);
           reason := reason_;
           established := or_str (data_established relationshipData) now;
           lastModified := now;
           history :=
             (match existingRelationship with
              | Some existing => history existing
              | None => []
              end ++
              [ {| h_timestamp := now; h_type := type_; h_strength := strength_;
                   h_reason := or_str (Some reason_) "Relationship updated" |} ])%list
        |} in
      let rels1 := Map_set rels entity1Id (Map_set targets entity2Id r) in
      let rels2 := if Map_has rels1 entity2Id then rels1 else Map_set rels1 entity2Id [] in
      let ledger :=
        (relationshipHistory g ++
         [ {| entity1 := entity1Id; entity2 := entity2Id;
              action := match existingRelationship with
                        | Some _ => "updated"
                        | None => "established"
                        end;
              relationship := r;
              l_timestamp := now |} ])%list in
      ({| relationships := rels2;
          playerStandings := playerStandings g;
          relationshipHistory :=
            if (1000 <? length ledger)%nat then slice_last 1000 ledger else ledger |},
       Normal r).

(** [getRelationship(entity1Id, entity2Id)]; [None] is [null]. *)
Definition getRelationship (g : Graph) (entity1Id entity2Id : string) : option Relationship :=
  match Map_get (relationships g) entity1Id with
  | Some targets => Map_get targets entity2Id
  | None => None
  end.

(** [removeRelationship(entity1Id, entity2Id)]. *)
Definition removeRelationship (now : string) (g : Graph) (entity1Id entity2Id : string)
    : Graph * bool :=
  let '(rels1, ledger1, removed1) :=
    match Map_get (relationships g) entity1Id with
    | Some targets =>
        match Map_get targets entity2Id with
        | Some r =>
            (Map_set (relationships g) entity1Id (Map_delete targets entity2Id),
             (relationshipHistory g ++
              [ {| entity1 := entity1Id; entity2 := entity2Id; action := "removed";
                   relationship := r; l_timestamp := now |} ])%list,
             true)
        | None => (relationships g, relationshipHistory g, false)
        end
    | None => (relationships g, relationshipHistory g, false)
    end in
  let '(rels2, removed2) :=
    match Map_get rels1 entity2Id with
    | Some targets =>
        if Map_has targets entity1Id
        then (Map_set rels1 entity2Id (Map_delete targets entity1Id), true)
        else (rels1, removed1)
    | None => (rels1, removed1)
    end in
  ({| relationships := rels2;
      playerStandings := playerStandings g;
      relationshipHistory := ledger1 |},
   removed2).

(** The invariant of the graph: each of its [Map]s has its keys once. *)
Definition wf (g : Graph) : Prop :=
  Map_wf (relationships g) /\
  Forall (fun entry : string * list (string * Relationship) => Map_wf (snd entry))
         (relationships g).

(** [getEntityRelationships(entityId)]: the edges that leave the entity,
    by target, then the edges that reach it, by source, written on the
    same result object. *)
Definition getEntityRelationships (g : Graph) (entityId : string) : gmap string Relationship :=
  let outgoing :=
    match Map_get (relationships g) entityId with
    | Some targets =>
        fold_left (fun result (entry : string * Relationship) =>
                     <[fst entry := snd entry]> result)
                  targets ∅
    | None => ∅
    end in
  fold_left
    (fun result (entry : string * JsMap Relationship) =>
       match Map_get (snd entry) entityId with
       | Some r => <[fst entry := r]> result
       | None => result
       end)
    (relationships g) outgoing.

(** [getRelationshipHistory(entity1Id, entity2Id)]; a second id that is
    missing or empty is falsy. *)
Definition getRelationshipHistory (g : Graph) (entity1Id : string)
    (entity2Id : option string) : list LedgerEntry :=
  if truthy (match entity2Id with Some s => VStr s | None => VUndef end) then
    List.filter
      (fun entry =>
         (String.eqb (entity1 entry) entity1Id
          && String.eqb (entity2 entry) (or_ref entity2Id ""))
         || (String.eqb (entity1 entry) (or_ref entity2Id "")
             && String.eqb (entity2 entry) entity1Id))
      (relationshipHistory g)
  else
    List.filter
      (fun entry =>
         String.eqb (entity1 entry) entity1Id || String.eqb (entity2 entry) entity1Id)
      (relationshipHistory g).

End RelationshipGraphChecked.

(** ** core/WorldState.js (src/unnamed/part_006)

    The world-parameter store the creation pipeline and the validation
    rules are written against ([addRumor], [addNews], [events.current]). *)

Module WorldState.
Import Js.

Record Temporal := {
  timeOfDay : string;
  season : string;
  weather : string;
  day : Z;
  month : string;
  year : Z
}.

Record Events := {
  current : list Obj;
  completed : list Obj;
  failed : list Obj;
  scheduled : list JsVal
}.

Record Rumor := {
  content : JsVal;
  spread : Z;
  accuracy : Q;
  r_timestamp : string
}.

Record NewsItem := {
  n_content : JsVal;
  importance : string;
  n_timestamp : string
}.

Record Information := {
  rumorMill : list Rumor;
  news : list NewsItem;
  secrets : list JsVal;
  prophecies : list JsVal
}.

(** The records [recordWorldChange] receives from the operations modelled
    here. *)
Inductive WorldChange :=
| parameter_change (parameter : string) (oldValue newValue change : Z)
    (reason timestamp : string)
| event_added (event : Obj) (timestamp : string).

Record History := {
  majorEvents : list JsVal;
  decisiveChoices : list JsVal;
  worldChanges : list WorldChange
}.

Record World := {
  globalParameters : gmap string Z;
  temporal : Temporal;
  events : Events;
  information : Information;
  history : History
}.

Definition default_of (key : string) : Z :=
  match Constants.lookup_table Constants.WORLD_PARAMETERS key with
  | Some b => Constants.default b
  | None => 0
  end.

(** [constructor()]. *)
Definition new : World :=
  {| globalParameters :=
       <["magicalActivity" := default_of "MAGICAL_ACTIVITY"]>
       (<["economicState" := default_of "ECONOMIC_STATE"]>
       (<["politicalStability" := default_of "POLITICAL_STABILITY"]>
       (<["tension" := default_of "GLOBAL_TENSION"]> ∅)));
     temporal :=
       {| timeOfDay := "morning"; season := "spring"; weather := "clear";
          day := 1; month := "firstmonth"; year := 1000 |};
     events := {| current := []; completed := []; failed := []; scheduled := [] |};
     information := {| rumorMill := []; news := []; secrets := []; prophecies := [] |};
     history := {| majorEvents := []; decisiveChoices := []; worldChanges := [] |} |}.

(** [recordWorldChange(change)]. *)
Definition recordWorldChange (w : World) (c : WorldChange) : World :=
  let pushed := (worldChanges (history w) ++ [c])%list in
  {| globalParameters := globalParameters w;
     temporal := temporal w;
     events := events w;
     information := information w;
     history :=
       {| majorEvents := majorEvents (history w);
          decisiveChoices := decisiveChoices (history w);
          worldChanges :=
            if (100 <? length pushed)%nat then slice_last 100 pushed else pushed |} |}.

Definition set_parameter (w : World) (parameter : string) (v : Z) : World :=
  {| globalParameters := <[parameter := v]> (globalParameters w);
     temporal := temporal w;
     events := events w;
     information := information w;
     history := history w |}.

(** [updateGlobalParameter(parameter, change, reason)].  The bounds are
    read from [WORLD_PARAMETERS[parameter.toUpperCase()]]; when the table
    has no such key, [bounds] is [undefined] and reading [bounds.min]
    throws before anything is written. *)
Definition updateGlobalParameter (now : string) (w : World) (parameter : string)
    (change : Z) (reason : string) : World * completion Z :=
  match globalParameters w !! parameter with
  | Some oldValue =>
      match Constants.lookup_table Constants.WORLD_PARAMETERS (toUpperCase parameter) with
      | None =>
          (w, Throw (TypeError "Cannot read properties of undefined (reading 'min')"))
      | Some bounds =>
          let newValue :=
            Z.max (Constants.min bounds) (Z.min (Constants.max bounds) (oldValue + change)) in
          (recordWorldChange (set_parameter w parameter newValue)
             (parameter_change parameter oldValue newValue change reason now),
           Normal newValue)
      end
  | None => (w, Throw (Error ("Unknown global parameter: " ++ parameter)))
  end.

(** [addEvent(eventData)]; [stamp] is the text of [Date.now()]. *)
Definition addEvent (now stamp : string) (w : World) (eventData : Obj) : World * Obj :=
  let event : Obj :=
    [ ("id", or (get eventData "id") (VStr ("event_" ++ stamp)));
      ("name", get eventData "name");
      ("type", or (get eventData "type") (VStr "social"));
      ("scope", or (get eventData "scope") (VStr "local"));
      ("duration", or (get eventData "duration") (VStr "ongoing"));
      ("startTime", or (get eventData "startTime") (VStr now));
      ("endTime", or (get eventData "endTime") VNull);
      ("participants", or (get eventData "participants") (VArr []));
      ("consequences", or (get eventData "consequences") (VArr []));
      ("description", or (get eventData "description") (VStr ""));
      ("status", VStr "active") ] in
  (recordWorldChange
     {| globalParameters := globalParameters w;
        temporal := temporal w;
        events :=
          {| current := (current (events w) ++ [event])%list;
             completed := completed (events w);
             failed := failed (events w);
             scheduled := scheduled (events w) |};
        information := information w;
        history := history w |}
     (event_added event now),
   event).

Definition set_information (w : World) (i : Information) : World :=
  {| globalParameters := globalParameters w;
     temporal := temporal w;
     events := events w;
     information := i;
     history := history w |}.

(** [addRumor(rumor)]; [random] is the draw of [Math.random()]. *)
Definition addRumor (now : string) (random : Q) (w : World) (rumor : JsVal) : World :=
  let pushed :=
    (rumorMill (information w) ++
     [ {| content := rumor; spread := 1; accuracy := (random * inject_Z 100)%Q;
          r_timestamp := now |} ])%list in
  set_information w
    {| rumorMill := if (15 <? length pushed)%nat then slice_last 15 pushed else pushed;
       news := news (information w);
       secrets := secrets (information w);
       prophecies := prophecies (information w) |}.

(** [addNews(newsItem)]. *)
Definition addNews (now : string) (w : World) (newsItem : JsVal) : World :=
  let unshifted :=
    {| n_content := newsItem; importance := "medium"; n_timestamp := now |}
    :: news (information w) in
  set_information w
    {| rumorMill := rumorMill (information w);
       news := if (20 <? length unshifted)%nat then firstn 20 unshifted else unshifted;
       secrets := secrets (information w);
       prophecies := prophecies (information w) |}.

(** The object [exportWorldState] returns and [importWorldState] reads. *)
Record Exported := {
  exp_globalParameters : option (gmap string Z);
  exp_temporal : option Temporal;
  exp_events : option Events;
  exp_information : option Information;
  exp_history : option History;
  exp_timestamp : option string
}.

(** [exportWorldState()]. *)
Definition exportWorldState (now : string) (w : World) : Exported :=
  {| exp_globalParameters := Some (globalParameters w);
     exp_temporal := Some (temporal w);
     exp_events := Some (events w);
     exp_information := Some (information w);
     exp_history :=
       Some {| majorEvents := majorEvents (history w);
               decisiveChoices := slice_last 20 (decisiveChoices (history w));
               worldChanges := slice_last 50 (worldChanges (history w)) |};
     exp_timestamp := Some now |}.

(** [importWorldState(data)]. *)
Definition importWorldState (w : World) (data : Exported) : World :=
  {| globalParameters := or_ref (exp_globalParameters data) (globalParameters w);
     temporal := or_ref (exp_temporal data) (temporal w);
     events := or_ref (exp_events data) (events w);
     information := or_ref (exp_information data) (information w);
     history := or_ref (exp_history data) (history w) |}.

(** *** The calendar

    [advanceYears], [advanceMonths], [advanceDays] and [advanceHours]
    work on [this.temporal] alone.  An amount is a whole number; a [for]
    loop up to it runs [Z.to_nat] of it times. *)

Definition timeOfDayMap : list string :=
  ["dawn"; "morning"; "midday"; "afternoon"; "evening"; "night"].
Definition monthMap : list string :=
  ["firstmonth"; "secondmonth"; "thirdmonth"; "fourthmonth"].
Definition seasonMap : list string := ["spring"; "summer"; "autumn"; "winter"].

(** [xs.indexOf(x)]. *)
Fixpoint indexOf_from (xs : list string) (x : string) (i : Z) : Z :=
  match xs with
  | [] => -1
  | y :: rest => if String.eqb y x then i else indexOf_from rest x (i + 1)
  end.
Definition indexOf (xs : list string) (x : string) : Z := indexOf_from xs x 0.

(** [xs[i]]; [None] is [undefined]. *)
Definition at_index (xs : list string) (i : Z) : option string :=
  if (i <? 0)%Z then None else nth_error xs (Z.to_nat i).

Definition set_day (t : Temporal) (d : Z) : Temporal :=
  {| timeOfDay := timeOfDay t; season := season t; weather := weather t;
     day := d; month := month t; year := year t |}.

(** [advanceYears(years)]. *)
Definition advanceYears (t : Temporal) (years : Z) : Temporal :=
  {| timeOfDay := timeOfDay t; season := season t; weather := weather t;
     day := day t; month := month t; year := year t + years |}.

(** One turn of the loop of [advanceMonths], on [currentMonthIndex] and
    the calendar. *)
Definition month_turn (acc : Z * Temporal) : Z * Temporal :=
  let currentMonthIndex := (fst acc + 1) mod Z.of_nat (length monthMap) in
  (currentMonthIndex,
   if (currentMonthIndex =? 0)%Z then advanceYears (snd acc) 1 else snd acc).

(** [advanceMonths(months)].  [None]: the month was not one of the four
    and no turn was made, so the code stores [undefined] as the month and
    the season, which the text fields of [Temporal] cannot hold. *)
Definition advanceMonths (t : Temporal) (months : Z) : option Temporal :=
  let '(currentMonthIndex, t1) :=
    Nat.iter (Z.to_nat months) month_turn (indexOf monthMap (month t), t) in
  match at_index monthMap currentMonthIndex, at_index seasonMap currentMonthIndex with
  | Some m, Some s =>
      Some {| timeOfDay := timeOfDay t1; season := s; weather := weather t1;
              day := day t1; month := m; year := year t1 |}
  | _, _ => None
  end.

(** The [while] loop of [advanceDays]; [None] also when the turns
    allowed by [fuel] do not end it. *)
Fixpoint advanceDays_loop (fuel : nat) (t : Temporal) : option Temporal :=
  if (30 <? day t)%Z then
    match fuel with
    | O => None
    | S fuel' =>
        match advanceMonths (set_day t (day t - 30)) 1 with
        | Some t' => advanceDays_loop fuel' t'
        | None => None
        end
    end
  else Some t.

(** [advanceDays(days)]; each turn of the loop takes 30 off a day count
    above 30, so as many turns as the count are enough. *)
Definition advanceDays (t : Temporal) (days : Z) : option Temporal :=
  advanceDays_loop (Z.to_nat (day t + days)) (set_day t (day t + days)).

(** One turn of the loop of [advanceHours]. *)
Definition hour_turn (acc : option (Z * Temporal)) : option (Z * Temporal) :=
  match acc with
  | None => None
  | Some (index, t) =>
      let currentIndex := (index + 1) mod Z.of_nat (length timeOfDayMap) in
      if (currentIndex =? 0)%Z then
        match advanceDays t 1 with
        | Some t' => Some (currentIndex, t')
        | None => None
        end
      else Some (currentIndex, t)
  end.

(** [advanceHours(hours)]; [None] as for [advanceMonths], when the time
    of day was not one of the six and no turn was made. *)
Definition advanceHours (t : Temporal) (hours : Z) : option Temporal :=
  match Nat.iter (Z.to_nat hours) hour_turn (Some (indexOf timeOfDayMap (timeOfDay t), t)) with
  | Some (currentIndex, t1) =>
      match at_index timeOfDayMap currentIndex with
      | Some tod =>
          Some {| timeOfDay := tod; season := season t1; weather := weather t1;
                  day := day t1; month := month t1; year := year t1 |}
      | None => None
      end
  | None => None
  end.

(** The days since the start of year 0, and the periods of the day since
    then: a year has four months of 30 days, a day six periods. *)
Definition days_since_epoch (t : Temporal) : Z :=
  (year t * 4 + indexOf monthMap (month t)) * 30 + day t.

Definition periods_since_epoch (t : Temporal) : Z :=
  days_since_epoch t * 6 + indexOf timeOfDayMap (timeOfDay t).

(** The calendars the operations keep: a known time of day, a known
    month with its season, a day from 1 to 30. *)
Definition calendar_ok (t : Temporal) : Prop :=
  0 <= indexOf timeOfDayMap (timeOfDay t) /\
  0 <= indexOf monthMap (month t) /\
  at_index seasonMap (indexOf monthMap (month t)) = Some (season t) /\
  1 <= day t <= 30.

End WorldState.

(** ** utils/DataStructures.js (src/unnamed/part_000)

    An entity is the property list its constructor builds from the
    free-form [data]. *)

Module DataStructures.
Import Js.

(** [o[k] = v]: an existing property keeps its place. *)
Fixpoint Obj_set (o : Obj) (k : string) (v : JsVal) : Obj :=
  match o with
  | [] => [(k, v)]
  | (k', v') :: rest =>
      if String.eqb k' k then (k', v) :: rest else (k', v') :: Obj_set rest k v
  end.

(** [class Entity]: [constructor(id, type, data = {})]. *)
Definition Entity (now : string) (id : JsVal) (type : string) (data : Obj) : Obj :=
  [ ("id", id);
    ("type", VStr type);
    ("created", VStr now);
    ("lastModified", VStr now);
    ("metadata", or (get data "metadata") (VObj [])) ].

Definition bounds_default (key : string) : Z :=
  match Constants.lookup_table Constants.RELATIONSHIP_TYPES key with
  | Some b => Constants.default b
  | None => 0
  end.

(** [class NPC extends Entity]. *)
Definition NPC (now : string) (id : JsVal) (data : Obj) : Obj :=
  let name := or (get data "name") (VStr "Unknown") in
  (Entity now id Constants.NPC data ++
   [ ("name", name);
     ("displayName", or (get data "displayName") name);
     ("occupation", or (get data "occupation") (VStr "unknown"));
     ("age", or (get data "age") (VNum 30));
     ("location", or (get data "location") VNull);
     ("traits", or (get data "traits") (VArr []));
     ("backstory", or (get data "backstory") (VStr ""));
     ("goals", or (get data "goals") (VArr []));
     ("secrets", or (get data "secrets") (VArr []));
     ("mood", or (get data "mood") (VStr "neutral"));
     ("importance", or (get data "importance") (VStr "medium"));
     ("trust", or (get data "trust") (VNum (bounds_default "TRUST")));
     ("fear", or (get data "fear") (VNum (bounds_default "FEAR")));
     ("respect", or (get data "respect") (VNum (bounds_default "RESPECT")));
     ("love", or (get data "love") (VNum (bounds_default "LOVE")));
     ("met", or (get data "met") (VBool false));
     ("alive", VBool (negb (strict_eq (get data "alive") (VBool false))));
     ("health", or (get data "health") (VNum 100));
     ("lastSeen", or (get data "lastSeen") VNull);
     ("relationships", or (get data "relationships") (VObj [])) ])%list.

(** [class Faction extends Entity]; [this.type] is assigned again. *)
Definition Faction (now : string) (id : JsVal) (data : Obj) : Obj :=
  let name := or (get data "name") (VStr "Unknown Faction") in
  (Obj_set (Entity now id Constants.FACTION data) "type"
     (or (get data "type") (VStr "political")) ++
   [ ("name", name);
     ("displayName", or (get data "displayName") name);
     ("influence", or (get data "influence") (VNum 40));
     ("wealth", or (get data "wealth") (VNum 50));
     ("militaryPower", or (get data "militaryPower") (VNum 30));
     ("attitude", or (get data "attitude") (VStr "neutral"));
     ("territory", or (get data "territory") (VArr []));
     ("goals", or (get data "goals") (VArr []));
     ("allies", or (get data "allies") (VArr []));
     ("enemies", or (get data "enemies") (VArr []));
     ("secrets", or (get data "secrets") (VArr []));
     ("leadership", or (get data "leadership") (VArr []));
     ("foundedYear", or (get data "foundedYear") (VStr "unknown"));
     ("reputation", or (get data "reputation") (VStr "unknown")) ])%list.

(** [class Location extends Entity]. *)
Definition Location (now : string) (id : JsVal) (data : Obj) : Obj :=
  let name := or (get data "name") (VStr "Unknown Location") in
  (Obj_set (Entity now id Constants.LOCATION data) "type"
     (or (get data "type") (VStr "settlement")) ++
   [ ("name", name);
     ("displayName", or (get data "displayName") name);
     ("visited", or (get data "visited") (VBool false));
     ("safety", or (get data "safety") (VNum 70));
     ("description", or (get data "description") (VStr ""));
     ("atmosphere", or (get data "atmosphere") (VStr "neutral"));
     ("connectedTo", or (get data "connectedTo") (VArr []));
     ("controlledBy", or (get data "controlledBy") VNull);
     ("events", or (get data "events") (VArr []));
     ("secrets", or (get data "secrets") (VArr []));
     ("resources", or (get data "resources") (VArr []));
     ("population", or (get data "population") (VNum 0));
     ("wealth", or (get data "wealth") (VStr "poor")) ])%list.

(** [class Item extends Entity]. *)
Definition Item (now : string) (id : JsVal) (data : Obj) : Obj :=
  let name := or (get data "name") (VStr "Unknown Item") in
  (Obj_set (Entity now id Constants.ITEM data) "type"
     (or (get data "type") (VStr "misc")) ++
   [ ("name", name);
     ("displayName", or (get data "displayName") name);
     ("subtype", or (get data "subtype") (VStr ""));
     ("value", or (get data "value") (VNum 50));
     ("weight", or (get data "weight") (VNum 1));
     ("durability", or (get data "durability") (VNum 100));
     ("description", or (get data "description") (VStr ""));
     ("enchantments", or (get data "enchantments") (VArr []));
     ("history", or (get data "history") (VStr "unknown"));
     ("location", or (get data "location") (VStr "world"));
     ("rarity", or (get data "rarity") (VStr "common"));
     ("properties", or (get data "properties") (VArr [])) ])%list.

(** [class GameEvent extends Entity]. *)
Definition GameEvent (now : string) (id : JsVal) (data : Obj) : Obj :=
  let name := or (get data "name") (VStr "Unknown Event") in
  (Obj_set (Entity now id Constants.EVENT data) "type"
     (or (get data "type") (VStr "social")) ++
   [ ("name", name);
     ("displayName", or (get data "displayName") name);
     ("scope", or (get data "scope") (VStr "local"));
     ("duration", or (get data "duration") (VStr "ongoing"));
     ("consequences", or (get data "consequences") (VArr []));
     ("startTime", or (get data "startTime") (VStr now));
     ("participants", or (get data "participants") (VArr []));
     ("completed", or (get data "completed") (VBool false)) ])%list.

(** [Object.assign(target, source)]: the properties of [source], in
    order, written on [target]. *)
Definition Obj_assign (target source : Obj) : Obj :=
  fold_left (fun o kv => Obj_set o (fst kv) (snd kv)) source target.

(** [Entity.update(data)]. *)
Definition update (now : string) (this data : Obj) : Obj :=
  Obj_assign (Obj_set this "lastModified" (VStr now)) data.

End DataStructures.

(** ** core/EntityManager.js *)

Module EntityManager.
Import Js.

Record CreationRecord := {
  id : JsVal;
  created : string;
  data : Obj
}.

Record Manager := {
  entities : gmap string (gmap string Obj);
  creationHistory : gmap string (list CreationRecord)
}.

(** [constructor()]. *)
Definition new : Manager :=
  {| entities :=
       list_to_map (List.map (fun t => (t, (∅ : gmap string Obj))) Constants.ENTITY_TYPES);
     creationHistory :=
       list_to_map (List.map (fun t => (t, ([] : list CreationRecord))) Constants.ENTITY_TYPES) |}.

(** The [switch (type)] of [createEntity]; [None] is its [default]. *)
Definition construct (now : string) (type : string) (id : JsVal) (data : Obj) : option Obj :=
  if String.eqb type Constants.NPC then Some (DataStructures.NPC now id data)
  else if String.eqb type Constants.FACTION then Some (DataStructures.Faction now id data)
  else if String.eqb type Constants.LOCATION then Some (DataStructures.Location now id data)
  else if String.eqb type Constants.ITEM then Some (DataStructures.Item now id data)
  else if String.eqb type Constants.EVENT then Some (DataStructures.GameEvent now id data)
  else None.

Definition already_exists (type : string) (id : JsVal) : Thrown :=
  Error ("Entity " ++ to_string id ++ " of type " ++ type ++ " already exists").

(** [createEntity(type, id, data)].  The id is used as a property key,
    that is through its text. *)
Definition createEntity (now : string) (em : Manager) (type : string) (id : JsVal)
    (data : Obj) : Manager * completion Obj :=
  match entities em !! type with
  | None =>
      (em, Throw (TypeError ("Cannot read properties of undefined (reading '"
                             ++ to_string id ++ "')")))
  | Some ofType =>
      match ofType !! to_string id with
      | Some _ => (em, Throw (already_exists type id))
      | None =>
          match construct now type id data with
          | None => (em, Throw (Error ("Unknown entity type: " ++ type)))
          | Some entity =>
              let stored :=
                {| entities := <[type := <[to_string id := entity]> ofType]> (entities em);
                   creationHistory := creationHistory em |} in
              match creationHistory em !! type with
              | None =>
                  (stored,
                   Throw (TypeError "Cannot read properties of undefined (reading 'push')"))
              | Some records =>
                  ({| entities := entities stored;
                      creationHistory :=
                        <[type := (records ++
                                   [ {| id := id; created := now; data := data |} ])%list]>
                          (creationHistory em) |},
                   Normal entity)
              end
          end
      end
  end.

(** [getEntity(type, id)]; [None] is [null]. *)
Definition getEntity (em : Manager) (type : string) (id : JsVal) : completion (option Obj) :=
  match entities em !! type with
  | None =>
      Throw (TypeError ("Cannot read properties of undefined (reading '"
                        ++ to_string id ++ "')"))
  | Some ofType => Normal (ofType !! to_string id)
  end.

(** [getAllEntities(type)]. *)
Definition getAllEntities (em : Manager) (type : string) : completion (list Obj) :=
  match entities em !! type with
  | None => Throw (TypeError "Cannot convert undefined or null to object")
  | Some ofType => Normal (Object_values ofType)
  end.

(** [deleteEntity(type, id)]. *)
Definition deleteEntity (em : Manager) (type : string) (id : JsVal)
    : Manager * completion bool :=
  match entities em !! type with
  | None =>
      (em, Throw (TypeError ("Cannot read properties of undefined (reading '"
                             ++ to_string id ++ "')")))
  | Some ofType =>
      match ofType !! to_string id with
      | Some _ =>
          ({| entities := <[type := delete (to_string id) ofType]> (entities em);
              creationHistory := creationHistory em |},
           Normal true)
      | None => (em, Normal false)
      end
  end.

(** The object [exportEntities] returns and [importEntities] reads. *)
Record Exported := {
  exp_entities : option (gmap string (gmap string Obj));
  exp_creationHistory : option (gmap string (list CreationRecord));
  exp_timestamp : option string
}.

(** [exportEntities()]. *)
Definition exportEntities (now : string) (em : Manager) : Exported :=
  {| exp_entities := Some (entities em);
     exp_creationHistory := Some (creationHistory em);
     exp_timestamp := Some now |}.

(** [importEntities(data)]. *)
Definition importEntities (em : Manager) (d : Exported) : Manager :=
  {| entities := or_ref (exp_entities d) (entities em);
     creationHistory := or_ref (exp_creationHistory d) (creationHistory em) |}.

(** [updateEntity(type, id, data)]: the stored object itself is updated.
    The stored objects are instances of the classes of DataStructures, as
    [createEntity] leaves them. *)
Definition updateEntity (now : string) (em : Manager) (type : string) (id : JsVal)
    (data : Obj) : Manager * completion (option Obj) :=
  match entities em !! type with
  | None =>
      (em, Throw (TypeError ("Cannot read properties of undefined (reading '"
                             ++ to_string id ++ "')")))
  | Some ofType =>
      match ofType !! to_string id with
      | Some entity =>
          let entity' := DataStructures.update now entity data in
          ({| entities := <[type := <[to_string id := entity']> ofType]> (entities em);
              creationHistory := creationHistory em |},
           Normal (Some entity'))
      | None => (em, Normal None)
      end
  end.

(** The stores that [createEntity], [updateEntity] and [deleteEntity]
    produce from a new one. *)
Inductive reachable : Manager -> Prop :=
| reach_new : reachable new
| reach_create now em type id data :
    reachable em -> reachable (fst (createEntity now em type id data))
| reach_update now em type id data :
    reachable em -> reachable (fst (updateEntity now em type id data))
| reach_delete em type id :
    reachable em -> reachable (fst (deleteEntity em type id)).



End EntityManager.

(** ** systems/ValidationSystem.js (src/unnamed/part_007)

    The rule for NPC proposals.  No custom validator is registered: the
    constructor starts with none and nothing in the repository adds one,
    so [runCustomValidators] does nothing. *)

Module ValidationSystem.
Import Js.

(** The character [34], for the quoted names in the warnings. *)
Definition quote : string := String (ascii_of_nat 34) EmptyString.

(** [{ valid: true, warnings: [], requirements: [] }]. *)
Definition validation_new : Obj :=
  [ ("valid", VBool true); ("warnings", VArr []); ("requirements", VArr []) ].

(** [validation.warnings.push(w)]. *)
Definition push_warning (validation : Obj) (w : string) : Obj :=
  DataStructures.Obj_set validation "warnings"
    (match get validation "warnings" with
     | VArr ws => VArr (ws ++ [VStr w])
     | other => other
     end).

(** [validation.valid = false]. *)
Definition set_invalid (validation : Obj) : Obj :=
  DataStructures.Obj_set validation "valid" (VBool false).

Definition compatibilityMap : list (string * list string) :=
  [ ("merchant", ["settlement"; "structure"]);
    ("guard", ["settlement"; "structure"]);
    ("farmer", ["settlement"; "wilderness"]);
    ("bandit", ["wilderness"]);
    ("scholar", ["settlement"; "structure"]);
    ("noble", ["settlement"; "structure"]);
    ("priest", ["settlement"; "structure"]);
    ("hermit", ["wilderness"; "landmark"]);
    ("blacksmith", ["settlement"]);
    ("tavern_keeper", ["settlement"]);
    ("soldier", ["settlement"; "structure"]);
    ("mage", ["settlement"; "structure"; "landmark"]);
    ("thief", ["settlement"; "wilderness"]) ].

(** [checkOccupationLocationCompatibility(occupation, locationData)]:
    [None] is [{ compatible: true }], [Some reason] the other answer. *)
Definition checkOccupationLocationCompatibility (occupation : JsVal) (locationData : Obj)
    : option string :=
  let compatibleTypes :=
    or_ref (Map_get compatibilityMap (to_string occupation))
           ["settlement"; "wilderness"; "structure"; "landmark"] in
  if existsb (fun t => strict_eq (VStr t) (get locationData "type")) compatibleTypes
  then None
  else Some ("Occupation " ++ quote ++ to_string occupation ++ quote
             ++ " may not be suitable for location type " ++ quote
             ++ to_string (get locationData "type") ++ quote).

(** [validateNPCCreation(npcData, gameState)], on [gameState.entities]. *)
Definition validateNPCCreation (npcData : Obj) (entities : gmap string (gmap string Obj))
    : Obj :=
  let npcs := Object_values (or_ref (entities !! Constants.NPC) ∅) in
  let validation := validation_new in
  if (truthy (get npcData "location") &&
      (Z.to_nat Constants.MAX_NPCS_PER_LOCATION <=?
       length (List.filter
                 (fun npc => strict_eq (get npc "location") (get npcData "location"))
                 npcs))%nat)%bool
  then
    push_warning (set_invalid validation)
      ("Location " ++ to_string (get npcData "location")
       ++ " has reached maximum NPC capacity ("
       ++ pretty Constants.MAX_NPCS_PER_LOCATION ++ ")")
  else
    let validation1 :=
      if existsb (fun npc => strict_eq (get npc "name") (get npcData "name")) npcs
      then push_warning validation
             ("NPC with name " ++ quote ++ to_string (get npcData "name") ++ quote
              ++ " already exists")
      else validation in
    if (negb (strict_eq (get npcData "age") VUndef) &&
        (lt (get npcData "age") (VNum 1) || gt (get npcData "age") (VNum 1000)))%bool
    then
      push_warning (set_invalid validation1) "NPC age must be between 1 and 1000"
    else
      if (truthy (get npcData "occupation") && truthy (get npcData "location"))%bool
      then
        match or_ref (entities !! Constants.LOCATION) ∅
              !! to_string (get npcData "location") with
        | Some locationData =>
            match checkOccupationLocationCompatibility
                    (get npcData "occupation") locationData with
            | Some reason => push_warning validation1 reason
            | None => validation1
            end
        | None => validation1
        end
      else validation1.

End ValidationSystem.

(** ** systems/CreationSystem.js

    The pipeline, for detection payloads that propose NPCs, relationships
    and world updates.  The loops over proposed factions, locations, items
    and events are guarded by [if (detection.entities.factions)] and the
    like; the payloads modelled here carry no such list, so those loops
    are skipped and their buckets stay empty. *)

Module CreationSystem.
Import Js.

Record EntitiesPayload := {
  npcs : option (list Obj)
}.

Record Proposal := {
  entity1 : string;
  entity2 : string;
  type : option string;
  strength : option Z;
  reason : option string
}.

Record WorldUpdates := {
  tension : option Z;
  politicalStability : option Z;
  economicState : option Z;
  magicalActivity : option Z;
  rumors : option (list JsVal);
  news : option (list JsVal)
}.

Record Detection := {
  entities : option EntitiesPayload;
  relationships : option (list Proposal);
  worldUpdates : option WorldUpdates
}.

Record Failure := {
  data : Obj;
  f_reason : JsVal
}.

Record Buckets (A : Type) := {
  b_npcs : list A;
  b_factions : list A;
  b_locations : list A;
  b_items : list A;
  b_events : list A
}.
Arguments b_npcs {A} _.
Arguments b_factions {A} _.
Arguments b_locations {A} _.
Arguments b_items {A} _.
Arguments b_events {A} _.

Record Results := {
  created : Buckets Obj;
  failed : Buckets Failure;
  warnings : list string
}.

Record System := {
  entityManager : EntityManager.Manager;
  relationshipGraph : RelationshipGraph.Graph;
  worldState : WorldState.World;
  creationQueue : list Detection;
  processingLock : bool
}.

(** [constructor(entityManager, relationshipGraph, worldState, validationSystem)]. *)
Definition new (em : EntityManager.Manager) (g : RelationshipGraph.Graph)
    (w : WorldState.World) : System :=
  {| entityManager := em; relationshipGraph := g; worldState := w;
     creationQueue := []; processingLock := false |}.

Definition empty_buckets {A} : Buckets A :=
  {| b_npcs := []; b_factions := []; b_locations := []; b_items := []; b_events := [] |}.

Definition empty_results : Results :=
  {| created := empty_buckets; failed := empty_buckets; warnings := [] |}.

Definition push_npc {A} (b : Buckets A) (a : A) : Buckets A :=
  {| b_npcs := b_npcs b ++ [a]; b_factions := b_factions b;
     b_locations := b_locations b; b_items := b_items b; b_events := b_events b |}.

(** One turn of the loop over [detection.entities.npcs]: the body of its
    [try], and its [catch]. *)
Definition create_npc (now : string) (acc : EntityManager.Manager * Results) (npcData : Obj)
    : EntityManager.Manager * Results :=
  let '(em, results) := acc in
  let validation :=
    ValidationSystem.validateNPCCreation npcData (EntityManager.entities em) in
  if truthy (get validation "valid") then
    match EntityManager.createEntity now em Constants.NPC (get npcData "id") npcData with
    | (em', Normal npc) =>
        (em', {| created := push_npc (created results) npc;
                 failed := failed results;
                 warnings := warnings results |})
    | (em', Throw error) =>
        (em', {| created := created results;
                 failed := push_npc (failed results)
                             {| data := npcData; f_reason := VStr (message_of error) |};
                 warnings := warnings results |})
    end
  else
    (em, {| created := created results;
            failed := push_npc (failed results)
                        {| data := npcData; f_reason := get validation "reason" |};
            warnings := warnings results ++
              [ "Failed to create NPC " ++ to_string (get npcData "name") ++ ": "
                ++ to_string (get validation "reason") ] |}).

Definition set_entityManager (s : System) (em : EntityManager.Manager) : System :=
  {| entityManager := em; relationshipGraph := relationshipGraph s;
     worldState := worldState s; creationQueue := creationQueue s;
     processingLock := processingLock s |}.

(** [createEntitiesFromDetection(detection)]. *)
Definition createEntitiesFromDetection (now : string) (s : System) (detection : Detection)
    : System * Results :=
  match entities detection with
  | None => (s, empty_results)
  | Some payload =>
      match npcs payload with
      | None => (s, empty_results)
      | Some proposals =>
          let '(em, results) :=
            fold_left (create_npc now) proposals (entityManager s, empty_results) in
          (set_entityManager s em, results)
      end
  end.

(** [findEntity(entityId)]: the first kind that knows the id. *)
Fixpoint findEntity_among (em : EntityManager.Manager) (types : list string) (entityId : string)
    : completion (option Obj) :=
  match types with
  | [] => Normal None
  | entityType :: rest =>
      match EntityManager.getEntity em entityType (VStr entityId) with
      | Throw e => Throw e
      | Normal (Some entity) => Normal (Some entity)
      | Normal None => findEntity_among em rest entityId
      end
  end.

Definition findEntity (s : System) (entityId : string) : completion (option Obj) :=
  findEntity_among (entityManager s) Constants.ENTITY_TYPES entityId.

Definition set_relationshipGraph (s : System) (g : RelationshipGraph.Graph) : System :=
  {| entityManager := entityManager s; relationshipGraph := g;
     worldState := worldState s; creationQueue := creationQueue s;
     processingLock := processingLock s |}.

(** One turn of the loop of [processRelationships]; a throw is caught and
    logged, and the loop goes on. *)
Definition process_relationship (now : string) (s : System) (rel : Proposal) : System :=
  match findEntity s (entity1 rel), findEntity s (entity2 rel) with
  | Normal (Some _), Normal (Some _) =>
      set_relationshipGraph s
        (fst (RelationshipGraph.setRelationship now (relationshipGraph s)
                (entity1 rel) (entity2 rel)
                {| RelationshipGraph.data_type := type rel;
                   RelationshipGraph.data_strength := strength rel;
                   RelationshipGraph.data_reason := reason rel;
                   RelationshipGraph.data_established := Some now;
                   RelationshipGraph.data_history := None |}))
  | _, _ => s
  end.

(** [processRelationships(relationships)]. *)
Definition processRelationships (now : string) (s : System) (rels : list Proposal) : System :=
  fold_left (process_relationship now) rels s.

Definition set_worldState (s : System) (w : WorldState.World) : System :=
  {| entityManager := entityManager s; relationshipGraph := relationshipGraph s;
     worldState := w; creationQueue := creationQueue s;
     processingLock := processingLock s |}.

(** [if (updates.p) this.worldState.updateGlobalParameter(p, updates.p, ...)];
    a throw of the update ends [applyWorldUpdates]. *)
Definition apply_parameter (now : string) (parameter : string) (delta : option Z)
    (acc : System * completion unit) : System * completion unit :=
  match acc with
  | (s, Throw e) => (s, Throw e)
  | (s, Normal _) =>
      if (or_num delta 0 =? 0)%Z then (s, Normal tt)
      else
        match WorldState.updateGlobalParameter now (worldState s) parameter
                (or_num delta 0) "AI-generated consequence" with
        | (w, Normal _) => (set_worldState s w, Normal tt)
        | (w, Throw e) => (set_worldState s w, Throw e)
        end
  end.

(** [applyWorldUpdates(updates)]; [random] stands for the draws of
    [Math.random()]. *)
Definition applyWorldUpdates (now : string) (random : Q) (s : System) (updates : WorldUpdates)
    : System * completion unit :=
  match
    apply_parameter now "magicalActivity" (magicalActivity updates)
      (apply_parameter now "economicState" (economicState updates)
         (apply_parameter now "politicalStability" (politicalStability updates)
            (apply_parameter now "tension" (tension updates) (s, Normal tt))))
  with
  | (s1, Throw e) => (s1, Throw e)
  | (s1, Normal _) =>
      let w1 :=
        fold_left (WorldState.addRumor now random) (or_ref (rumors updates) [])
                  (worldState s1) in
      let w2 := fold_left (WorldState.addNews now) (or_ref (news updates) []) w1 in
      (set_worldState s1 w2, Normal tt)
  end.

Definition no_updates : WorldUpdates :=
  {| tension := None; politicalStability := None; economicState := None;
     magicalActivity := None; rumors := None; news := None |}.

Definition set_queue (s : System) (q : list Detection) : System :=
  {| entityManager := entityManager s; relationshipGraph := relationshipGraph s;
     worldState := worldState s; creationQueue := q;
     processingLock := processingLock s |}.

Definition set_lock (s : System) (b : bool) : System :=
  {| entityManager := entityManager s; relationshipGraph := relationshipGraph s;
     worldState := worldState s; creationQueue := creationQueue s;
     processingLock := b |}.

(** How a call of [processEntityCreation] begins (lines 15 to 20): behind
    a held lock the payload is queued and the call returns; otherwise the
    lock is taken and the body runs. *)
Inductive Entry :=
| Queued (s : System)
| Started (s : System).

Definition processEntityCreation_enter (s : System) (detectionResult : Detection) : Entry :=
  if processingLock s
  then Queued (set_queue s (creationQueue s ++ [detectionResult]))
  else Started (set_lock s true).

(** The [while] loop over the queue: each queued payload is shifted off
    and handed to [createEntitiesFromDetection]. *)
Fixpoint drain (now : string) (queue : list Detection) (s : System) : System :=
  match queue with
  | [] => set_queue s []
  | queuedResult :: rest =>
      drain now rest
        (fst (createEntitiesFromDetection now (set_queue s rest) queuedResult))
  end.

(** The body of [processEntityCreation] under the lock (lines 22 to 36),
    on the state [s] that holds what other calls queued while this one was
    suspended at its [await]s; the [finally] releases the lock. *)
Definition processEntityCreation_body (now : string) (random : Q) (s : System)
    (detectionResult : Detection) : System * completion Results :=
  let '(s1, results) := createEntitiesFromDetection now s detectionResult in
  let s2 := processRelationships now s1 (or_ref (relationships detectionResult) []) in
  match applyWorldUpdates now random s2 (or_ref (worldUpdates detectionResult) no_updates) with
  | (s3, Throw e) => (set_lock s3 false, Throw e)
  | (s3, Normal _) =>
      (set_lock (drain now (creationQueue s3) s3) false, Normal results)
  end.

(** For stating what a run commits: the NPC proposals of a payload, and
    the entity store after the payloads of a list have been handled one
    after the other, first to last. *)
Definition proposals_of (detection : Detection) : list Obj :=
  match entities detection with
  | Some payload => or_ref (npcs payload) []
  | None => []
  end.

Definition handled_in_order (now : string) (em : EntityManager.Manager)
    (payloads : list Detection) : EntityManager.Manager :=
  fold_left
    (fun em detection => fst (fold_left (create_npc now) (proposals_of detection)
                                        (em, empty_results)))
    payloads em.

(** A payload asks for a change of one of the four world parameters. *)
Definition asks_parameter_change (updates : WorldUpdates) : bool :=
  negb (or_num (tension updates) 0 =? 0)%Z
  || negb (or_num (politicalStability updates) 0 =? 0)%Z
  || negb (or_num (economicState updates) 0 =? 0)%Z
  || negb (or_num (magicalActivity updates) 0 =? 0)%Z.

End CreationSystem.

(** ** core/StoryEngine.js (src/unnamed/part_002): loading a save

    [loadGame] from the point where the file has been read and parsed.  A
    save document is the parsed JSON object; a section it does not have
    is [None], so [gameState.hasOwnProperty(section)] is [is_Some]. *)

Module StoryEngine.
Import Js.

Record RelationshipsSection := {
  sec_playerStandings : option (gmap string RelationshipGraph.StandingData);
  sec_entityRelationships : option RelationshipGraph.Exported
}.

Record SaveDocument := {
  doc_player : option JsVal;
  doc_entities : option (gmap string (gmap string Obj));
  doc_relationships : option RelationshipsSection;
  doc_worldState : option WorldState.Exported;
  doc_storyContext : option JsVal;
  doc_meta : option JsVal
}.

Record Engine := {
  player : JsVal;
  entityManager : EntityManager.Manager;
  relationshipGraph : RelationshipGraph.Graph;
  worldState : WorldState.World;
  storyContext : JsVal;
  meta : JsVal
}.

(** [gameState.hasOwnProperty(section)]. *)
Definition hasOwnProperty (gameState : SaveDocument) (section : string) : bool :=
  if String.eqb section "player" then bool_decide (is_Some (doc_player gameState))
  else if String.eqb section "entities" then bool_decide (is_Some (doc_entities gameState))
  else if String.eqb section "relationships"
       then bool_decide (is_Some (doc_relationships gameState))
  else if String.eqb section "worldState"
       then bool_decide (is_Some (doc_worldState gameState))
  else if String.eqb section "storyContext"
       then bool_decide (is_Some (doc_storyContext gameState))
  else if String.eqb section "meta" then bool_decide (is_Some (doc_meta gameState))
  else false.

Definition requiredSections : list string :=
  ["player"; "entities"; "worldState"; "meta"].

(** [validateSaveFile(gameState)]. *)
Definition validateSaveFile (gameState : SaveDocument) : bool :=
  forallb (hasOwnProperty gameState) requiredSections.

Definition undefined_or (o : option JsVal) : JsVal :=
  match o with Some v => v | None => VUndef end.

(** The [if (gameState.relationships)] block of [restoreGameState]:
    reading a property of a missing [entityRelationships], or the entries
    of a missing [playerStandings], throws. *)
Definition restore_relationships (now : string) (g : RelationshipGraph.Graph)
    (section : RelationshipsSection) : RelationshipGraph.Graph * completion unit :=
  match sec_entityRelationships section with
  | None =>
      (g, Throw (TypeError "Cannot read properties of undefined (reading 'relationships')"))
  | Some exported =>
      let g1 := RelationshipGraph.importRelationships g exported in
      match sec_playerStandings section with
      | None => (g1, Throw (TypeError "Cannot convert undefined or null to object"))
      | Some standings =>
          (fold_left
             (fun acc kv => RelationshipGraph.setPlayerStanding now acc (fst kv) (snd kv))
             (Object_entries standings) g1,
           Normal tt)
      end
  end.

(** [restoreGameState(gameState)]. *)
Definition restoreGameState (now : string) (e : Engine) (gameState : SaveDocument)
    : Engine * completion unit :=
  let player1 := undefined_or (doc_player gameState) in
  let em1 :=
    EntityManager.importEntities (entityManager e)
      {| EntityManager.exp_entities := doc_entities gameState;
         EntityManager.exp_creationHistory := None;
         EntityManager.exp_timestamp := None |} in
  let '(g1, relationships_done) :=
    match doc_relationships gameState with
    | Some section => restore_relationships now (relationshipGraph e) section
    | None => (relationshipGraph e, Normal tt)
    end in
  match relationships_done with
  | Throw err =>
      ({| player := player1; entityManager := em1; relationshipGraph := g1;
          worldState := worldState e; storyContext := storyContext e; meta := meta e |},
       Throw err)
  | Normal _ =>
      match doc_worldState gameState with
      | None =>
          ({| player := player1; entityManager := em1; relationshipGraph := g1;
              worldState := worldState e; storyContext := storyContext e;
              meta := meta e |},
           Throw (TypeError
                    "Cannot read properties of undefined (reading 'globalParameters')"))
      | Some w =>
          ({| player := player1; entityManager := em1; relationshipGraph := g1;
              worldState := WorldState.importWorldState (worldState e) w;
              storyContext := undefined_or (doc_storyContext gameState);
              meta := undefined_or (doc_meta gameState) |},
           Normal tt)
      end
  end.

(** What [loadGame] reports: it returns [true] after a restore, [false]
    after printing that the validation failed, and [false] from its [catch]. *)
Inductive Outcome :=
| Loaded
| ValidationFailed
| LoadError (e : Thrown).

Definition returned (o : Outcome) : bool :=
  match o with
  | Loaded => true
  | ValidationFailed | LoadError _ => false
  end.

(** [loadGame(filename)], given the parsed content [gameState] of the
    file.  After the restore the last save time is printed, which reads
    [gameState.meta.lastSave]. *)
Definition loadGame (now : string) (e : Engine) (gameState : SaveDocument)
    : Engine * Outcome :=
  if validateSaveFile gameState then
    match restoreGameState now e gameState with
    | (e', Throw err) => (e', LoadError err)
    | (e', Normal _) =>
        match doc_meta gameState with
        | Some VNull | Some VUndef | None =>
            (e', LoadError (TypeError
                              "Cannot read properties of null (reading 'lastSave')"))
        | Some _ => (e', Loaded)
        end
    end
  else (e, ValidationFailed).

(** A stored standing, as the [standing] argument of [setPlayerStanding]
    reads it. *)
Definition standing_data (s : RelationshipGraph.Standing) : RelationshipGraph.StandingData :=
  {| RelationshipGraph.sd_value := Some (RelationshipGraph.value s);
     RelationshipGraph.sd_history := Some (RelationshipGraph.s_history s);
     RelationshipGraph.sd_lastChange := RelationshipGraph.lastChange s;
     RelationshipGraph.sd_established := Some (RelationshipGraph.s_established s) |}.

(** [{ npcs: entities.npc, factions: entities.faction, locations:
    entities.location, items: entities.item }]; a kind the store does not
    have gives an [undefined] property, which is left out here as it is
    from the JSON text. *)
Definition compiled_entities (em : EntityManager.Manager) : gmap string (gmap string Obj) :=
  fold_left
    (fun (o : gmap string (gmap string Obj)) (names : string * string) =>
       match EntityManager.entities em !! snd names with
       | Some ofKind => <[fst names := ofKind]> o
       | None => o
       end)
    [ ("npcs", Constants.NPC); ("factions", Constants.FACTION);
      ("locations", Constants.LOCATION); ("items", Constants.ITEM) ]
    ∅.

(** [compileGameState()]; [worldState] is the world object itself, whose
    own properties are the five that [importWorldState] reads. *)
Definition compileGameState (now : string) (e : Engine) : SaveDocument :=
  {| doc_player := Some (player e);
     doc_entities := Some (compiled_entities (entityManager e));
     doc_relationships :=
       Some {| sec_playerStandings :=
                 Some (standing_data <$>
                       Object_fromEntries
                         (RelationshipGraph.playerStandings (relationshipGraph e)));
               sec_entityRelationships :=
                 Some (RelationshipGraph.exportRelationships now (relationshipGraph e)) |};
     doc_worldState :=
       Some {| WorldState.exp_globalParameters :=
                 Some (WorldState.globalParameters (worldState e));
               WorldState.exp_temporal := Some (WorldState.temporal (worldState e));
               WorldState.exp_events := Some (WorldState.events (worldState e));
               WorldState.exp_information := Some (WorldState.information (worldState e));
               WorldState.exp_history := Some (WorldState.history (worldState e));
               WorldState.exp_timestamp := None |};
     doc_storyContext := Some (storyContext e);
     doc_meta := Some (meta e) |}.

End StoryEngine.

(** ** The validating world state (src/unnamed/part_003)

    A second [WorldState] class of the repository, whose
    [updateGlobalParameter] looks its parameter up without regard to case.
    The model has the two parts of the state that [updateGlobalParameter]
    and [recordWorldChange] read and write. *)

Module WorldStateChecked.
Import Js.

(** [String.prototype.toLowerCase] on ASCII text. *)
Definition lower_ascii (c : ascii) : ascii :=
  let n := nat_of_ascii c in
  if ((65 <=? n)%nat && (n <=? 90)%nat)%bool then ascii_of_nat (n + 32) else c.

Fixpoint toLowerCase (s : string) : string :=
  match s with
  | EmptyString => EmptyString
  | String c rest => String (lower_ascii c) (toLowerCase rest)
  end.

(** The class [[a-z]]. *)
Definition is_lower (c : ascii) : bool :=
  let n := nat_of_ascii c in ((97 <=? n)%nat && (n <=? 122)%nat)%bool.

(** [s.replace(/_([a-z])/g, (match, letter) => letter.toUpperCase())]. *)
Fixpoint camel (s : string) : string :=
  match s with
  | EmptyString => EmptyString
  | String c tail =>
      if Ascii.eqb c "_" then
        match tail with
        | String letter rest =>
            if is_lower letter then String (upper_ascii letter) (camel rest)
            else String c (camel tail)
        | EmptyString => String c EmptyString
        end
      else String c (camel tail)
  end.

(** The object [updateGlobalParameter] hands to [recordWorldChange]. *)
Record ParameterChange := {
  parameter : string;
  oldValue : Z;
  newValue : Z;
  change : Z;
  reason : string;
  timestamp : string
}.

Record World := {
  globalParameters : gmap string Z;
  worldChanges : list ParameterChange
}.

(** [recordWorldChange(change)] on such an object: none of the required
    fields is missing; the list is cut to its last 1000 entries. *)
Definition recordWorldChange (now : string) (w : World) (c : ParameterChange) : World :=
  let stamped :=
    {| parameter := parameter c; oldValue := oldValue c; newValue := newValue c;
       change := change c; reason := reason c;
       timestamp := or_str (Some (timestamp c)) now |} in
  let pushed := (worldChanges w ++ [stamped])%list in
  {| globalParameters := globalParameters w;
     worldChanges := if (1000 <? length pushed)%nat then slice_last 1000 pushed else pushed |}.

Definition parameter_keys : list string := List.map fst Constants.WORLD_PARAMETERS.

(** [updateGlobalParameter(parameter, change, reason)], for a text and a
    number.  Its [catch] passes an [AppError] on and wraps any other
    error in an [AppError] with status 500. *)
Definition updateGlobalParameter (now : string) (w : World) (parameter_ : string)
    (change_ : Z) (reason_ : string) : World * completion Z :=
  if blank parameter_ then
    (w, Throw (AppError "Parameter name must be a non-empty string" 400))
  else
    match List.find (fun k => String.eqb (toLowerCase k) (toUpperCase parameter_))
                    parameter_keys with
    | None =>
        (w, Throw (AppError ("Unknown global parameter: " ++ parameter_
                             ++ ". Available parameters: "
                             ++ String.concat ", " parameter_keys) 400))
    | Some paramKey =>
        match Constants.lookup_table Constants.WORLD_PARAMETERS paramKey with
        | None =>
            (w, Throw (AppError ("Failed to update global parameter '" ++ parameter_
                                 ++ "': Cannot read properties of undefined (reading 'min')")
                                500))
        | Some bounds =>
            let paramName := camel (toLowerCase paramKey) in
            let oldValue_ := or_num (globalParameters w !! paramName) 0 in
            let newValue_ :=
              Z.max (Constants.min bounds) (Z.min (Constants.max bounds) (oldValue_ + change_)) in
            (recordWorldChange now
               {| globalParameters := <[paramName := newValue_]> (globalParameters w);
                  worldChanges := worldChanges w |}
               {| parameter := parameter_; oldValue := oldValue_; newValue := newValue_;
                  change := change_; reason := reason_; timestamp := now |},
             Normal newValue_)
        end
    end.

End WorldStateChecked.


(** ** Sample inputs, for the examples below *)

Module Sample.

(** [{ type, strength }] for the core graph. *)
Definition edge (ty : string) (n : Z) : RelationshipGraph.RelationshipData :=
  {| RelationshipGraph.data_type := Some ty;
     RelationshipGraph.data_strength := Some n;
     RelationshipGraph.data_reason := None;
     RelationshipGraph.data_established := None;
     RelationshipGraph.data_history := None |}.

(** [{ type: RELATIONSHIP_TYPES.TRUST, strength }] for the validating
    graph. *)
Definition trust (n : Z) : RelationshipGraphChecked.RelationshipData :=
  {| RelationshipGraphChecked.data_type := Some (RelationshipGraphChecked.TypeEntry "TRUST");
     RelationshipGraphChecked.data_strength := Some n;
     RelationshipGraphChecked.data_reason := None;
     RelationshipGraphChecked.data_established := None |}.

(** [{ strength }] as the [changes] of an update. *)
Definition strength_change (n : Z) : RelationshipGraph.Changes :=
  {| RelationshipGraph.chg_type := None;
     RelationshipGraph.chg_strength := Some n;
     RelationshipGraph.chg_reason := None;
     RelationshipGraph.chg_established := None |}.

(** Two NPCs with no edge between them, each linked to a third: the edge
    npc1 -> npc3 has strength 80 and the edge npc3 -> npc2 has strength 60. *)
Definition common_friend : RelationshipGraph.Graph :=
  fst (RelationshipGraph.setRelationship "t2"
         (fst (RelationshipGraph.setRelationship "t1" RelationshipGraph.new
                 "npc1" "npc3" (edge "ally" 80)))
         "npc3" "npc2" (edge "ally" 60)).

(** The data of the unit test on duplicates. *)
Definition test_npc : Js.Obj := [("name", Js.VStr "Test NPC")].

(** A save document with nothing but its [player] section. *)
Definition player_only : StoryEngine.SaveDocument :=
  {| StoryEngine.doc_player := Some (Js.VObj [("name", Js.VStr "Traveler")]);
     StoryEngine.doc_entities := None;
     StoryEngine.doc_relationships := None;
     StoryEngine.doc_worldState := None;
     StoryEngine.doc_storyContext := None;
     StoryEngine.doc_meta := None |}.

(** An engine whose stores are new. *)
Definition engine : StoryEngine.Engine :=
  {| StoryEngine.player := Js.VObj [("name", Js.VStr "Traveler")];
     StoryEngine.entityManager := EntityManager.new;
     StoryEngine.relationshipGraph := RelationshipGraph.new;
     StoryEngine.worldState := WorldState.new;
     StoryEngine.storyContext := Js.VObj [("currentScene", Js.VStr "introduction")];
     StoryEngine.meta := Js.VObj [("version", Js.VStr "2.0")] |}.

(** A proposed NPC: [{ id, name, location }]. *)
Definition npc_at (id name location : string) : Js.Obj :=
  [ ("id", Js.VStr id); ("name", Js.VStr name); ("location", Js.VStr location) ].

(** Twelve NPCs that live at the tavern. *)
Definition regulars : list Js.Obj :=
  List.map (fun id => npc_at id id "tavern")
    [ "r01"; "r02"; "r03"; "r04"; "r05"; "r06";
      "r07"; "r08"; "r09"; "r10"; "r11"; "r12" ].

(** The entity store once the twelve have been created. *)
Definition crowded : EntityManager.Manager :=
  fold_left
    (fun em npcData =>
       fst (EntityManager.createEntity "t0" em Constants.NPC (Js.get npcData "id") npcData))
    regulars EntityManager.new.

Definition crowded_system : CreationSystem.System :=
  CreationSystem.new crowded RelationshipGraph.new WorldState.new.

Definition alice : Js.Obj := npc_at "alice" "Alice" "tavern".
Definition bob : Js.Obj := npc_at "bob" "Bob" "tavern".
Definition carol : Js.Obj := npc_at "carol" "Carol" "tavern".
Definition dave : Js.Obj := npc_at "dave" "Dave" "tavern".

(** A payload of four NPCs for the tavern: with twelve NPCs there, and a
    capacity of fifteen, the fourth is one too many. *)
Definition four_for_the_tavern : CreationSystem.Detection :=
  {| CreationSystem.entities :=
       Some {| CreationSystem.npcs := Some [alice; bob; carol; dave] |};
     CreationSystem.relationships := None;
     CreationSystem.worldUpdates := None |}.

Definition idle_system : CreationSystem.System :=
  CreationSystem.new EntityManager.new RelationshipGraph.new WorldState.new.

Definition rumor_only (text : string) : CreationSystem.WorldUpdates :=
  {| CreationSystem.tension := None;
     CreationSystem.politicalStability := None;
     CreationSystem.economicState := None;
     CreationSystem.magicalActivity := None;
     CreationSystem.rumors := Some [Js.VStr text];
     CreationSystem.news := None |}.

(** Batch A: Alice, and a rumor. *)
Definition batch_A : CreationSystem.Detection :=
  {| CreationSystem.entities := Some {| CreationSystem.npcs := Some [alice] |};
     CreationSystem.relationships := None;
     CreationSystem.worldUpdates := Some (rumor_only "a stranger arrived") |}.

(** Batch B: Bob, his tie to Alice, and a rumor. *)
Definition batch_B : CreationSystem.Detection :=
  {| CreationSystem.entities := Some {| CreationSystem.npcs := Some [bob] |};
     CreationSystem.relationships :=
       Some [ {| CreationSystem.entity1 := "bob"; CreationSystem.entity2 := "alice";
                 CreationSystem.type := Some "ally";
                 CreationSystem.strength := Some 70;
                 CreationSystem.reason := Some "old friends" |} ];
     CreationSystem.worldUpdates := Some (rumor_only "the well is cursed") |}.

(** The validating graph after one accepted write npc1 -> npc2. *)
Definition one_trusted_edge : RelationshipGraphChecked.Graph :=
  fst (RelationshipGraphChecked.setRelationship "t1" RelationshipGraphChecked.new
         "npc1" "npc2" (trust 70)).


(** A world whose parameter object has a property named as the table
    names it, lower-cased (as an import of such an object leaves it). *)
Definition world_with_table_key : WorldState.World :=
  WorldState.importWorldState WorldState.new
    {| WorldState.exp_globalParameters := Some {[ "global_tension" := 30 ]};
       WorldState.exp_temporal := None;
       WorldState.exp_events := None;
       WorldState.exp_information := None;
       WorldState.exp_history := None;
       WorldState.exp_timestamp := None |}.



(** World updates that lower the tension by five and carry a rumor. *)
Definition calmer (text : string) : CreationSystem.WorldUpdates :=
  {| CreationSystem.tension := Some (-5);
     CreationSystem.politicalStability := None;
     CreationSystem.economicState := None;
     CreationSystem.magicalActivity := None;
     CreationSystem.rumors := Some [Js.VStr text];
     CreationSystem.news := None |}.

(** Carol, and a calmer world. *)
Definition batch_C : CreationSystem.Detection :=
  {| CreationSystem.entities := Some {| CreationSystem.npcs := Some [carol] |};
     CreationSystem.relationships := None;
     CreationSystem.worldUpdates := Some (calmer "the siege is over") |}.


(** The store once Alice has been created. *)
Definition with_alice : EntityManager.Manager :=
  fst (EntityManager.createEntity "t0" EntityManager.new Constants.NPC (Js.VStr "alice") alice).


(** The edge that [one_trusted_edge] holds. *)
Definition trusted_70 : RelationshipGraphChecked.Relationship :=
  {| RelationshipGraphChecked.type := RelationshipGraphChecked.TypeEntry "TRUST";
     RelationshipGraphChecked.strength := 70;
     RelationshipGraphChecked.reason := "";
     RelationshipGraphChecked.established := "t1";
     RelationshipGraphChecked.lastModified := "t1";
     RelationshipGraphChecked.history :=
       [ {| RelationshipGraphChecked.h_timestamp := "t1";
            RelationshipGraphChecked.h_type := RelationshipGraphChecked.TypeEntry "TRUST";
            RelationshipGraphChecked.h_strength := 70;
            RelationshipGraphChecked.h_reason := "Relationship updated" |} ] |}.


(** The validating graph with an edge in each direction between npc1
    and npc2. *)
Definition mutual_trust : RelationshipGraphChecked.Graph :=
  fst (RelationshipGraphChecked.setRelationship "t2" one_trusted_edge
         "npc2" "npc1" (trust 40)).


(** The engine with Alice in its store. *)
Definition engine_with_alice : StoryEngine.Engine :=
  {| StoryEngine.player := StoryEngine.player engine;
     StoryEngine.entityManager := with_alice;
     StoryEngine.relationshipGraph := RelationshipGraph.new;
     StoryEngine.worldState := WorldState.new;
     StoryEngine.storyContext := StoryEngine.storyContext engine;
     StoryEngine.meta := StoryEngine.meta engine |}.


End Sample.

(* ===================================================================== *)
(** * Part II: theorems *)
(* ===================================================================== *)

(** ** Maps *)

Section MapFacts.
Context {V : Type}.
Implicit Types (m : Js.JsMap V) (k : string) (v : V).

Lemma Map_get_set_eq m k v : Js.Map_get (Js.Map_set m k v) k = Some v.
Proof.
  induction m as [|[k' v'] rest IH]; simpl.
  - by rewrite String.eqb_refl.
  - destruct (String.eqb k' k) eqn:E; simpl; rewrite E; [done | exact IH].
Qed.

Lemma Map_get_set_ne m k k' v :
  k <> k' -> Js.Map_get (Js.Map_set m k v) k' = Js.Map_get m k'.
Proof.
  intros Hne. induction m as [|[k0 v0] rest IH]; simpl.
  - destruct (String.eqb k k') eqn:E; [|done].
    apply String.eqb_eq in E. contradiction.
  - destruct (String.eqb k0 k) eqn:E; simpl.
    + apply String.eqb_eq in E. subst k0.
      destruct (String.eqb k k') eqn:E'; [|done].
      apply String.eqb_eq in E'. contradiction.
    + destruct (String.eqb k0 k'); [done | exact IH].
Qed.

Lemma Map_get_None_keys m k : Js.Map_get m k = None <-> k ∉ m.*1.
Proof.
  induction m as [|[k' v'] rest IH]; simpl.
  - split; [intros _; apply not_elem_of_nil | done].
  - destruct (String.eqb k' k) eqn:E.
    + apply String.eqb_eq in E. subst. split; [done|].
      intros H. exfalso. apply H. left.
    + apply String.eqb_neq in E. rewrite IH, not_elem_of_cons.
      split; [intros H; split; [congruence | exact H] | intros [_ H]; exact H].
Qed.

Lemma Map_set_keys m k v :
  (Js.Map_set m k v).*1 = if Js.Map_has m k then m.*1 else (m.*1 ++ [k])%list.
Proof.
  unfold Js.Map_has. induction m as [|[k' v'] rest IH]; [done|].
  cbn [Js.Map_set Js.Map_get].
  destruct (String.eqb k' k) eqn:E.
  - apply String.eqb_eq in E. by subst.
  - rewrite !fmap_cons, IH. by destruct (Js.Map_get rest k).
Qed.

Lemma Map_set_wf m k v : Js.Map_wf m -> Js.Map_wf (Js.Map_set m k v).
Proof.
  unfold Js.Map_wf. intros Hwf. rewrite Map_set_keys.
  unfold Js.Map_has. destruct (Js.Map_get m k) eqn:E; [done|].
  apply NoDup_app. split_and!; [done | | apply NoDup_singleton].
  intros x Hx Hin. apply list_elem_of_singleton in Hin. subst x.
  apply Map_get_None_keys in E. contradiction.
Qed.

End MapFacts.

(** [xs.slice(-n)] keeps the last element. *)
Lemma last_skipn {A} (l : list A) (k : nat) :
  (k < length l)%nat -> last (skipn k l) = last l.
Proof.
  revert k. induction l as [|x l IH]; intros k Hk; simpl in Hk; [lia|].
  destruct k as [|k]; [done|].
  cbn [skipn]. rewrite IH by lia.
  destruct l as [|y l]; [simpl in Hk; lia | done].
Qed.

Lemma last_slice_last {A} (n : nat) (l : list A) :
  (0 < n)%nat -> last (Js.slice_last n l) = last l.
Proof.
  intros Hn. unfold Js.slice_last.
  destruct l as [|x l]; [done|].
  apply last_skipn. simpl. lia.
Qed.

(** ** The core relationship graph: what [setRelationship] stores *)

Lemma core_get_after_set now g a b d :
  RelationshipGraph.getRelationship
    (fst (RelationshipGraph.setRelationship now g a b d)) a b
  = Some (snd (RelationshipGraph.setRelationship now g a b d)).
Proof.
  unfold RelationshipGraph.getRelationship, RelationshipGraph.setRelationship.
  cbn [fst snd RelationshipGraph.relationships].
  rewrite Map_get_set_eq. apply Map_get_set_eq.
Qed.

(** C10. In the core graph every falsy field of [relationshipData] is
    replaced by its default in the stored edge: a strength that is 0 (or
    missing) is stored as 50, a type that is the empty text (or missing)
    as 'neutral', and likewise the reason, the establishment time and the
    history; so no call of [setRelationship] stores an edge of strength 0. *)
Theorem setRelationship_falsy_fields_defaulted now g a b d :
  exists r,
    RelationshipGraph.getRelationship
      (fst (RelationshipGraph.setRelationship now g a b d)) a b = Some r /\
    (RelationshipGraph.data_strength d = Some 0 \/ RelationshipGraph.data_strength d = None ->
       RelationshipGraph.strength r = 50) /\
    (RelationshipGraph.data_type d = Some "" \/ RelationshipGraph.data_type d = None ->
       RelationshipGraph.type r = "neutral") /\
    (RelationshipGraph.data_reason d = Some "" \/ RelationshipGraph.data_reason d = None ->
       RelationshipGraph.reason r = "") /\
    (RelationshipGraph.data_established d = Some "" \/
     RelationshipGraph.data_established d = None ->
       RelationshipGraph.established r = now) /\
    (RelationshipGraph.data_history d = None -> RelationshipGraph.history r = []) /\
    RelationshipGraph.strength r <> 0.
Proof.
  exists (snd (RelationshipGraph.setRelationship now g a b d)).
  split; [apply core_get_after_set|].
  destruct d as [ty st re es hi]; cbn.
  repeat split.
  - intros [->| ->]; reflexivity.
  - intros [->| ->]; reflexivity.
  - intros [->| ->]; reflexivity.
  - intros [->| ->]; reflexivity.
  - intros ->; reflexivity.
  - unfold Js.or_num. destruct st as [n|]; [|lia].
    destruct (n =? 0)%Z eqn:E; [lia|]. apply Z.eqb_neq in E. exact E.
Qed.

(** C10 at work: a strength of exactly 0 and an empty type. *)
Lemma setRelationship_falsy_fields_witness :
  exists r,
    RelationshipGraph.getRelationship
      (fst (RelationshipGraph.setRelationship "t" RelationshipGraph.new "npc1" "npc2"
              (Sample.edge "" 0))) "npc1" "npc2" = Some r /\
    RelationshipGraph.strength r = 50 /\
    RelationshipGraph.type r = "neutral".
Proof.
  destruct (setRelationship_falsy_fields_defaulted "t" RelationshipGraph.new
              "npc1" "npc2" (Sample.edge "" 0))
    as (r & Hget & Hstrength & Htype & _).
  exists r. split; [exact Hget|].
  split; [apply Hstrength | apply Htype]; left; reflexivity.
Defined.

(** ** The validating relationship graph *)

(** What a successful [setRelationship] of the validating graph has
    checked and written. *)
Lemma checked_set_inv now g a b d g' r :
  RelationshipGraphChecked.setRelationship now g a b d = (g', Js.Normal r) ->
  let type_ := Js.or_ref (RelationshipGraphChecked.data_type d)
                 (RelationshipGraphChecked.TypeText "neutral") in
  let strength_ := Js.or_ref (RelationshipGraphChecked.data_strength d) 50 in
  let existing := RelationshipGraphChecked.getRelationship g a b in
  a <> b /\
  RelationshipGraphChecked.includes_type type_ = true /\
  0 <= strength_ <= 100 /\
  RelationshipGraphChecked.getRelationship g' a b = Some r /\
  RelationshipGraphChecked.type r = type_ /\
  RelationshipGraphChecked.strength r = strength_ /\
  RelationshipGraphChecked.history r =
    (match existing with
     | Some old => RelationshipGraphChecked.history old
     | None => []
     end ++
     [ {| RelationshipGraphChecked.h_timestamp := now;
          RelationshipGraphChecked.h_type := type_;
          RelationshipGraphChecked.h_strength := strength_;
          RelationshipGraphChecked.h_reason :=
            Js.or_str (Some (Js.or_ref (RelationshipGraphChecked.data_reason d) ""))
              "Relationship updated" |} ])%list /\
  last (RelationshipGraphChecked.relationshipHistory g') =
    Some {| RelationshipGraphChecked.entity1 := a;
            RelationshipGraphChecked.entity2 := b;
            RelationshipGraphChecked.action :=
              match existing with
              | Some _ => "updated"
              | None => "established"
              end;
            RelationshipGraphChecked.relationship := r;
            RelationshipGraphChecked.l_timestamp := now |}.
Proof.
  unfold RelationshipGraphChecked.setRelationship.
  destruct (Js.blank a); [discriminate|].
  destruct (Js.blank b); [discriminate|].
  destruct (String.eqb a b) eqn:Hab; [discriminate|].
  apply String.eqb_neq in Hab.
  destruct (RelationshipGraphChecked.includes_type _) eqn:Hty; [|discriminate].
  cbn [negb].
  destruct (_ || _)%bool eqn:Hrange; [discriminate|].
  apply orb_false_elim in Hrange as [Hlo Hhi].
  apply Z.ltb_ge in Hlo, Hhi.
  intros Heq. injection Heq as Hg Hr. cbv zeta.
  set (s := Js.or_ref (RelationshipGraphChecked.data_strength d) 50) in *.
  assert (Hclamp : Z.max 0 (Z.min 100 s) = s) by lia.
  rewrite Hclamp in Hr, Hg.
  assert (Hexisting :
    Js.Map_get
      (Js.or_ref
         (Js.Map_get
            (if Js.Map_has (RelationshipGraphChecked.relationships g) a
             then RelationshipGraphChecked.relationships g
             else Js.Map_set (RelationshipGraphChecked.relationships g) a []) a) []) b
    = RelationshipGraphChecked.getRelationship g a b).
  { unfold RelationshipGraphChecked.getRelationship, Js.Map_has.
    destruct (Js.Map_get (RelationshipGraphChecked.relationships g) a) eqn:E.
    - by rewrite E.
    - by rewrite Map_get_set_eq. }
  rewrite Hexisting in Hr, Hg. subst g' r.
  split_and!; try done.
  - unfold RelationshipGraphChecked.getRelationship.
    cbn [RelationshipGraphChecked.relationships].
    match goal with |- context [if Js.Map_has (Js.Map_set ?m a ?x) b then _ else _] =>
      destruct (Js.Map_has (Js.Map_set m a x) b) end.
    + by rewrite !Map_get_set_eq.
    + rewrite Map_get_set_ne by congruence.
      by rewrite !Map_get_set_eq.
  - cbn [RelationshipGraphChecked.relationshipHistory].
    match goal with |- context [if ?c then _ else _] => destruct c eqn:Hlen end.
    + rewrite last_slice_last by lia. by rewrite last_snoc.
    + by rewrite last_snoc.
Qed.

(** The validating graph rejects a strength outside 0..100 (when nothing
    else is wrong, with the message about the strength) and writes nothing. *)
Lemma checked_set_out_of_range now g a b d :
  Js.or_ref (RelationshipGraphChecked.data_strength d) 50 < 0 \/
  100 < Js.or_ref (RelationshipGraphChecked.data_strength d) 50 ->
  exists e, RelationshipGraphChecked.setRelationship now g a b d = (g, Js.Throw e).
Proof.
  intros Hout. unfold RelationshipGraphChecked.setRelationship.
  destruct (Js.blank a); [eauto|].
  destruct (Js.blank b); [eauto|].
  destruct (String.eqb a b); [eauto|].
  destruct (negb _); [eauto|].
  destruct (_ || _)%bool eqn:Hrange; [eauto|].
  apply orb_false_elim in Hrange as [Hlo Hhi].
  apply Z.ltb_ge in Hlo, Hhi. lia.
Qed.

(** Counterexample to C1: the core graph stores a supplied strength of
    500 as 500 and one of -20 as -20, both outside 0..100. *)
Lemma core_setRelationship_stores_500_and_minus_20 :
  let write n :=
    fst (RelationshipGraph.setRelationship "2025-07-02T04:39:27.483Z"
           RelationshipGraph.new "npc1" "npc2" (Sample.edge "ally" n)) in
  (exists r, RelationshipGraph.getRelationship (write 500) "npc1" "npc2" = Some r /\
             RelationshipGraph.strength r = 500 /\
             ~ 0 <= RelationshipGraph.strength r <= 100) /\
  (exists r, RelationshipGraph.getRelationship (write (-20)) "npc1" "npc2" = Some r /\
             RelationshipGraph.strength r = -20 /\
             ~ 0 <= RelationshipGraph.strength r <= 100).
Proof.
  cbv zeta. split.
  - eexists. split; [reflexivity|]. split; [reflexivity|]. cbn. lia.
  - eexists. split; [reflexivity|]. split; [reflexivity|]. cbn. lia.
Qed.

(** C1 (as amended). [setRelationship] does not clamp.  The core graph
    stores the supplied strength as it is (and 50 for a strength that is 0
    or missing): 500 stays 500.  The validating graph stores a strength
    only when it already lies in 0..100, and then unchanged; a strength
    outside 0..100 makes the call throw, and the graph is left as it was. *)
Theorem setRelationship_strength_stored_unchanged_or_rejected :
  (forall now g a b d n,
      RelationshipGraph.data_strength d = Some n -> n <> 0 ->
      exists r,
        RelationshipGraph.getRelationship
          (fst (RelationshipGraph.setRelationship now g a b d)) a b = Some r /\
        RelationshipGraph.strength r = n) /\
  (forall now g a b d g' r,
      RelationshipGraphChecked.setRelationship now g a b d = (g', Js.Normal r) ->
      RelationshipGraphChecked.getRelationship g' a b = Some r /\
      RelationshipGraphChecked.strength r
        = Js.or_ref (RelationshipGraphChecked.data_strength d) 50 /\
      0 <= RelationshipGraphChecked.strength r <= 100) /\
  (forall now g a b d,
      Js.or_ref (RelationshipGraphChecked.data_strength d) 50 < 0 \/
      100 < Js.or_ref (RelationshipGraphChecked.data_strength d) 50 ->
      exists e, RelationshipGraphChecked.setRelationship now g a b d = (g, Js.Throw e)).
Proof.
  split_and!.
  - intros now g a b d n Hn Hnz. eexists. split; [apply core_get_after_set|].
    cbn. rewrite Hn. unfold Js.or_num.
    destruct (n =? 0)%Z eqn:E; [apply Z.eqb_eq in E; contradiction | reflexivity].
  - intros now g a b d g' r Hset.
    destruct (checked_set_inv _ _ _ _ _ _ _ Hset) as (_ & _ & Hrange & Hget & _ & Hs & _).
    rewrite Hs. done.
  - intros now g a b d. apply checked_set_out_of_range.
Qed.

(** The amended C1 at work: the strengths 70 (accepted by the validating
    graph, for a type taken from the table) and 500 (stored by the core
    graph, rejected by the validating one). *)
Lemma setRelationship_strength_witness :
  (exists r,
      RelationshipGraph.getRelationship
        (fst (RelationshipGraph.setRelationship "t" RelationshipGraph.new "npc1" "npc2"
                (Sample.edge "ally" 500))) "npc1" "npc2" = Some r /\
      RelationshipGraph.strength r = 500) /\
  (exists g' r,
      RelationshipGraphChecked.setRelationship "t" RelationshipGraphChecked.new
        "npc1" "npc2" (Sample.trust 70) = (g', Js.Normal r) /\
      RelationshipGraphChecked.getRelationship g' "npc1" "npc2" = Some r /\
      RelationshipGraphChecked.strength r = 70 /\
      0 <= RelationshipGraphChecked.strength r <= 100) /\
  (exists e,
      RelationshipGraphChecked.setRelationship "t" RelationshipGraphChecked.new
        "npc1" "npc2" (Sample.trust 500) = (RelationshipGraphChecked.new, Js.Throw e)).
Proof.
  split; [|split].
  - apply (proj1 setRelationship_strength_stored_unchanged_or_rejected
             "t" RelationshipGraph.new "npc1" "npc2" (Sample.edge "ally" 500) 500);
      [reflexivity | lia].
  - eexists _, _. split; [reflexivity|].
    apply (proj1 (proj2 setRelationship_strength_stored_unchanged_or_rejected)
             "t" RelationshipGraphChecked.new "npc1" "npc2" (Sample.trust 70)).
    reflexivity.
  - apply (proj2 (proj2 setRelationship_strength_stored_unchanged_or_rejected)).
    right. cbn. lia.
Defined.

(** Counterexample to C7: in the core graph a second [setRelationship] on
    an existing edge discards the history the edge had gathered and is
    entered in the ledger as "established". *)
Lemma core_setRelationship_discards_history :
  let g1 := fst (RelationshipGraph.setRelationship "t1" RelationshipGraph.new
                   "npc1" "npc2" (Sample.edge "neutral" 50)) in
  let g2 := fst (RelationshipGraph.updateRelationship "t2" g1 "npc1" "npc2"
                   (Sample.strength_change 75)) in
  let g3 := fst (RelationshipGraph.setRelationship "t3" g2 "npc1" "npc2"
                   (Sample.edge "ally" 80)) in
  (exists r, RelationshipGraph.getRelationship g2 "npc1" "npc2" = Some r /\
             length (RelationshipGraph.history r) = 1%nat) /\
  (exists r, RelationshipGraph.getRelationship g3 "npc1" "npc2" = Some r /\
             RelationshipGraph.history r = []) /\
  RelationshipGraph.action <$> last (RelationshipGraph.relationshipHistory g3)
    = Some "established".
Proof.
  cbv zeta. split_and!.
  - eexists. split; reflexivity.
  - eexists. split; reflexivity.
  - reflexivity.
Qed.

(** C7 (as amended). In the validating graph a [setRelationship] that is
    accepted keeps the history of the edge it replaces and appends one
    entry to it, and the entry it appends to the ledger says "updated"
    when the edge existed and "established" when it did not.  In the core
    graph the stored history is the one supplied in [relationshipData]
    (empty when none is), whatever the edge held before, and the ledger
    entry always says "established". *)
Theorem setRelationship_history_and_ledger :
  (forall now g a b d g' r,
      RelationshipGraphChecked.setRelationship now g a b d = (g', Js.Normal r) ->
      (exists entry,
         RelationshipGraphChecked.history r =
           (match RelationshipGraphChecked.getRelationship g a b with
            | Some old => RelationshipGraphChecked.history old
            | None => []
            end ++ [entry])%list) /\
      last (RelationshipGraphChecked.relationshipHistory g') =
        Some {| RelationshipGraphChecked.entity1 := a;
                RelationshipGraphChecked.entity2 := b;
                RelationshipGraphChecked.action :=
                  match RelationshipGraphChecked.getRelationship g a b with
                  | Some _ => "updated"
                  | None => "established"
                  end;
                RelationshipGraphChecked.relationship := r;
                RelationshipGraphChecked.l_timestamp := now |}) /\
  (forall now g a b d,
      RelationshipGraph.history (snd (RelationshipGraph.setRelationship now g a b d))
        = Js.or_ref (RelationshipGraph.data_history d) [] /\
      last (RelationshipGraph.relationshipHistory
              (fst (RelationshipGraph.setRelationship now g a b d))) =
        Some {| RelationshipGraph.entity1 := a;
                RelationshipGraph.entity2 := b;
                RelationshipGraph.action := "established";
                RelationshipGraph.relationship :=
                  Some (snd (RelationshipGraph.setRelationship now g a b d));
                RelationshipGraph.changes := None;
                RelationshipGraph.l_timestamp := now |}).
Proof.
  split.
  - intros now g a b d g' r Hset.
    destruct (checked_set_inv _ _ _ _ _ _ _ Hset)
      as (_ & _ & _ & _ & _ & _ & Hhist & Hledger).
    split; [eexists; exact Hhist | exact Hledger].
  - intros now g a b d. split; [reflexivity|].
    cbn [RelationshipGraph.setRelationship fst snd RelationshipGraph.relationshipHistory].
    apply last_snoc.
Qed.

(** The amended C7 at work: two accepted writes of the same edge in the
    validating graph. *)
Lemma setRelationship_history_witness :
  exists g1 r1 g2 r2,
    RelationshipGraphChecked.setRelationship "t1" RelationshipGraphChecked.new
      "npc1" "npc2" (Sample.trust 70) = (g1, Js.Normal r1) /\
    RelationshipGraphChecked.setRelationship "t2" g1 "npc1" "npc2" (Sample.trust 40)
      = (g2, Js.Normal r2) /\
    (exists entry,
       RelationshipGraphChecked.history r2
       = (RelationshipGraphChecked.history r1 ++ [entry])%list) /\
    RelationshipGraphChecked.action <$> last (RelationshipGraphChecked.relationshipHistory g2)
      = Some "updated".
Proof.
  eexists _, _, _, _.
  split; [reflexivity|]. split; [reflexivity|].
  match goal with
  | |- (exists entry, RelationshipGraphChecked.history ?r2 = _) /\
       _ <$> last (RelationshipGraphChecked.relationshipHistory ?g2) = _ =>
      destruct (proj1 setRelationship_history_and_ledger "t2"
                  (fst (RelationshipGraphChecked.setRelationship "t1"
                          RelationshipGraphChecked.new "npc1" "npc2" (Sample.trust 70)))
                  "npc1" "npc2" (Sample.trust 40) g2 r2 eq_refl) as [Hh Hl]
  end.
  split; [exact Hh | by rewrite Hl].
Defined.

(** ** Derived strength *)

Lemma two_hop_fold g b targets acc :
  (fst (fold_left (RelationshipGraph.two_hop_step g b) targets acc) ==
   fst acc + RelationshipGraph.Qsum
               (flat_map
                  (fun entry : string * RelationshipGraph.Relationship =>
                     match RelationshipGraph.getRelationship g (fst entry) b with
                     | Some r2 =>
                         [(inject_Z (RelationshipGraph.strength (snd entry))
                           * inject_Z (RelationshipGraph.strength r2) / inject_Z 100)%Q]
                     | None => []
                     end) targets))%Q /\
  snd (fold_left (RelationshipGraph.two_hop_step g b) targets acc) =
    (snd acc + length
       (flat_map
          (fun entry : string * RelationshipGraph.Relationship =>
             match RelationshipGraph.getRelationship g (fst entry) b with
             | Some r2 =>
                 [(inject_Z (RelationshipGraph.strength (snd entry))
                   * inject_Z (RelationshipGraph.strength r2) / inject_Z 100)%Q]
             | None => []
             end) targets))%nat.
Proof.
  revert acc. induction targets as [|entry rest IH]; intros acc.
  - cbn. split; [ring | lia].
  - cbn [fold_left flat_map]. destruct (IH (RelationshipGraph.two_hop_step g b acc entry))
      as [IHs IHc].
    rewrite IHs, IHc. unfold RelationshipGraph.two_hop_step.
    destruct (RelationshipGraph.getRelationship g (fst entry) b) as [r2|].
    + cbn [fst snd app length RelationshipGraph.Qsum fold_right]. split; [|lia].
      fold (RelationshipGraph.Qsum
              (flat_map
                 (fun entry0 : string * RelationshipGraph.Relationship =>
                    match RelationshipGraph.getRelationship g (fst entry0) b with
                    | Some r3 =>
                        [(inject_Z (RelationshipGraph.strength (snd entry0))
                          * inject_Z (RelationshipGraph.strength r3) / inject_Z 100)%Q]
                    | None => []
                    end) rest)).
      ring.
    + cbn [app]. split; [reflexivity | lia].
Qed.

(** C6. [calculateRelationshipStrength(A, B)] is the strength of the edge
    A -> B when there is one; otherwise it is the mean, over the two-hop
    paths A -> C -> B, of strength(A,C) x strength(C,B) / 100, and 0 when
    there is no such path.  With edges of strength 80 and 60 through one
    common NPC and no direct edge, the result is 48. *)
Theorem calculateRelationshipStrength_direct_or_two_hop :
  (forall g a b,
     (RelationshipGraph.calculateRelationshipStrength g a b ==
      match RelationshipGraph.getRelationship g a b with
      | Some direct => inject_Z (RelationshipGraph.strength direct)
      | None => RelationshipGraph.average (RelationshipGraph.two_hop_strengths g a b)
      end)%Q) /\
  RelationshipGraph.getRelationship Sample.common_friend "npc1" "npc2" = None /\
  (RelationshipGraph.calculateRelationshipStrength Sample.common_friend "npc1" "npc2"
   == 48)%Q.
Proof.
  split; [|split; [reflexivity | vm_compute; reflexivity]].
  intros g a b. unfold RelationshipGraph.calculateRelationshipStrength.
  destruct (RelationshipGraph.getRelationship g a b) as [direct|]; [reflexivity|].
  unfold RelationshipGraph.two_hop_strengths.
  destruct (Js.Map_get (RelationshipGraph.relationships g) a) as [targets|];
    [|reflexivity].
  cbn [Js.or_ref].
  destruct (two_hop_fold g b targets (0%Q, 0%nat)) as [Hs Hc].
  cbn [fst snd] in Hs, Hc. rewrite Hc.
  destruct (flat_map _ targets) as [|q qs]; [reflexivity|].
  cbn [RelationshipGraph.average Nat.ltb Nat.leb length Nat.add].
  rewrite Hs, Qplus_0_l. reflexivity.
Qed.

(** ** World parameters *)

(** None of the four parameter names has its bounds under its upper-case
    form in [WORLD_PARAMETERS]. *)
Lemma bounds_not_found parameter :
  parameter ∈ ["tension"; "politicalStability"; "economicState"; "magicalActivity"] ->
  Constants.lookup_table Constants.WORLD_PARAMETERS (Js.toUpperCase parameter) = None.
Proof.
  intros Hin. repeat (apply elem_of_cons in Hin as [->|Hin]; [reflexivity|]).
  by apply elem_of_nil in Hin.
Qed.

(** For each of the four parameters the engine keeps, and whatever the
    delta, [updateGlobalParameter] throws a [TypeError] and writes
    nothing, neither the value nor a history record. *)
Lemma updateGlobalParameter_throws now w parameter change reason :
  parameter ∈ ["tension"; "politicalStability"; "economicState"; "magicalActivity"] ->
  is_Some (WorldState.globalParameters w !! parameter) ->
  WorldState.updateGlobalParameter now w parameter change reason =
    (w, Js.Throw (Js.TypeError "Cannot read properties of undefined (reading 'min')")).
Proof.
  intros Hin [old Hold]. unfold WorldState.updateGlobalParameter.
  by rewrite Hold, bounds_not_found.
Qed.

(** C2 (defect of the code). Starting from the default world, where
    [tension] is 30, [updateGlobalParameter('tension', -50, ...)] looks
    for the bounds under the key 'TENSION', which [WORLD_PARAMETERS] does
    not have (the key is 'GLOBAL_TENSION'); the call throws, [tension]
    stays 30 and no history record is written. *)
Theorem updateGlobalParameter_tension_throws :
  WorldState.globalParameters WorldState.new !! "tension" = Some 30 /\
  Js.toUpperCase "tension" = "TENSION" /\
  Constants.lookup_table Constants.WORLD_PARAMETERS "TENSION" = None /\
  WorldState.updateGlobalParameter "2025-07-02T04:39:27.483Z" WorldState.new
    "tension" (-50) "Player choice consequence"
  = (WorldState.new,
     Js.Throw (Js.TypeError "Cannot read properties of undefined (reading 'min')")) /\
  WorldState.worldChanges (WorldState.history WorldState.new) = [].
Proof.
  split_and!; [reflexivity | reflexivity | reflexivity | | reflexivity].
  apply updateGlobalParameter_throws; [set_solver | by eexists].
Qed.

(** What the clamp does when the bounds are found: a call that returns
    has written [clamp(old + change, min, max)] and appended exactly one
    history record holding the old value, the new value and the delta. *)
Lemma updateGlobalParameter_returns now w parameter change reason w' v :
  WorldState.updateGlobalParameter now w parameter change reason = (w', Js.Normal v) ->
  exists old bounds,
    WorldState.globalParameters w !! parameter = Some old /\
    Constants.lookup_table Constants.WORLD_PARAMETERS (Js.toUpperCase parameter)
      = Some bounds /\
    v = Z.max (Constants.min bounds) (Z.min (Constants.max bounds) (old + change)) /\
    WorldState.globalParameters w' !! parameter = Some v /\
    last (WorldState.worldChanges (WorldState.history w'))
      = Some (WorldState.parameter_change parameter old v change reason now).
Proof.
  unfold WorldState.updateGlobalParameter.
  destruct (WorldState.globalParameters w !! parameter) as [old|] eqn:Hold;
    [|discriminate].
  destruct (Constants.lookup_table _ _) as [bounds|] eqn:Hb; [|discriminate].
  intros Heq. injection Heq as <- <-.
  exists old, bounds. split_and!; try done.
  - cbn. apply lookup_insert_eq.
  - cbn [WorldState.recordWorldChange WorldState.history WorldState.worldChanges].
    match goal with |- context [if ?c then _ else _] => destruct c end.
    + rewrite last_slice_last by lia. apply last_snoc.
    + apply last_snoc.
Qed.

(** The clamp at work, for a property the table does know: from 30 the
    delta -50 gives 0, with its one record, and then +200 gives 100. *)
Lemma updateGlobalParameter_returns_witness :
  exists w1 w2,
    WorldState.updateGlobalParameter "t1" Sample.world_with_table_key
      "global_tension" (-50) "" = (w1, Js.Normal 0) /\
    last (WorldState.worldChanges (WorldState.history w1))
      = Some (WorldState.parameter_change "global_tension" 30 0 (-50) "" "t1") /\
    WorldState.updateGlobalParameter "t2" w1 "global_tension" 200 "" = (w2, Js.Normal 100).
Proof.
  eexists _, _. split; [vm_compute; reflexivity|].
  split; [|vm_compute; reflexivity].
  destruct (updateGlobalParameter_returns "t1" Sample.world_with_table_key
              "global_tension" (-50) "" _ 0 eq_refl)
    as (old & bounds & Hold & _ & _ & _ & Hlast).
  injection Hold as <-. exact Hlast.
Defined.

(** ** The entity store *)

(** What a [createEntity] that returns has done. *)
Lemma createEntity_returns now em K I d em' e :
  EntityManager.createEntity now em K I d = (em', Js.Normal e) ->
  exists ofType,
    EntityManager.entities em !! K = Some ofType /\
    ofType !! Js.to_string I = None /\
    EntityManager.construct now K I d = Some e /\
    EntityManager.entities em'
      = <[K := <[Js.to_string I := e]> ofType]> (EntityManager.entities em).
Proof.
  unfold EntityManager.createEntity.
  destruct (EntityManager.entities em !! K) as [ofType|] eqn:HK; [|discriminate].
  destruct (ofType !! Js.to_string I) eqn:HI; [discriminate|].
  destruct (EntityManager.construct now K I d) as [entity|]; [|discriminate].
  destruct (EntityManager.creationHistory em !! K) as [records|]; [|discriminate].
  intros Heq. injection Heq as <- <-. by exists ofType.
Qed.

(** C5. After a successful [createEntity(K, I, ...)], a second
    [createEntity(K, I, ...)] throws the error "Entity I of type K already
    exists" whatever data it carries, the store is left exactly as the
    first call left it, and [getEntity(K, I)] still returns the entity the
    first call created. *)
Theorem createEntity_twice_rejected now em K I d em' e now' d' :
  EntityManager.createEntity now em K I d = (em', Js.Normal e) ->
  EntityManager.createEntity now' em' K I d'
    = (em', Js.Throw (EntityManager.already_exists K I)) /\
  EntityManager.getEntity em' K I = Js.Normal (Some e).
Proof.
  intros Hfirst.
  destruct (createEntity_returns _ _ _ _ _ _ _ Hfirst) as (ofType & _ & _ & _ & Hstored).
  unfold EntityManager.createEntity, EntityManager.getEntity.
  rewrite Hstored, lookup_insert_eq, lookup_insert_eq. done.
Qed.

(** C5 at work, on the data of the unit test. *)
Lemma createEntity_twice_witness :
  exists em' e,
    EntityManager.createEntity "t1" EntityManager.new "npc" (Js.VStr "test_npc")
      Sample.test_npc = (em', Js.Normal e) /\
    EntityManager.createEntity "t2" em' "npc" (Js.VStr "test_npc") Sample.test_npc
      = (em', Js.Throw (Js.Error "Entity test_npc of type npc already exists")) /\
    EntityManager.getEntity em' "npc" (Js.VStr "test_npc") = Js.Normal (Some e).
Proof.
  eexists _, _. split; [vm_compute; reflexivity|].
  apply (createEntity_twice_rejected "t1" EntityManager.new "npc" (Js.VStr "test_npc")
           Sample.test_npc).
  vm_compute. reflexivity.
Defined.

(** ** Loading a save *)

(** C9. A save document that lacks at least one of the sections
    [player], [entities], [worldState], [meta] is refused by [loadGame]:
    the call reports the failed validation, returns [false], and the
    engine (player state, entity store, relationship graph, world state,
    story context, metadata) is exactly what it was. *)
Theorem loadGame_rejects_incomplete_document now e gameState :
  (exists section,
     section ∈ StoryEngine.requiredSections /\
     StoryEngine.hasOwnProperty gameState section = false) ->
  StoryEngine.loadGame now e gameState = (e, StoryEngine.ValidationFailed) /\
  StoryEngine.returned (snd (StoryEngine.loadGame now e gameState)) = false.
Proof.
  intros (section & Hin & Hmissing).
  assert (Hinvalid : StoryEngine.validateSaveFile gameState = false).
  { unfold StoryEngine.validateSaveFile. apply not_true_is_false. intros Hall.
    rewrite forallb_forall in Hall.
    apply list_elem_of_In in Hin. specialize (Hall section Hin). congruence. }
  unfold StoryEngine.loadGame. rewrite Hinvalid. done.
Qed.

(** C9 at work: a document with nothing but its [player] section. *)
Lemma loadGame_rejects_witness :
  StoryEngine.loadGame "t" Sample.engine Sample.player_only
    = (Sample.engine, StoryEngine.ValidationFailed) /\
  StoryEngine.returned (snd (StoryEngine.loadGame "t" Sample.engine Sample.player_only))
    = false.
Proof.
  apply loadGame_rejects_incomplete_document.
  exists "entities". split; [set_solver | reflexivity].
Defined.

(** ** Export and import *)

Section Conversions.
Context {V : Type}.
Implicit Types (l : list (string * V)) (o : gmap string V) (k : string).

Lemma Map_get_Some_elem_of l k v :
  NoDup l.*1 -> Js.Map_get l k = Some v <-> (k, v) ∈ l.
Proof.
  induction l as [|[k' v'] rest IH]; intros Hnd.
  - split; [discriminate | intros H; by apply elem_of_nil in H].
  - rewrite fmap_cons in Hnd. apply NoDup_cons in Hnd as [Hfresh Hnd].
    cbn [fst] in Hfresh.
    cbn [Js.Map_get]. destruct (String.eqb k' k) eqn:E.
    + apply String.eqb_eq in E. subst k'. split.
      * intros [= ->]. left.
      * intros Hin. apply elem_of_cons in Hin as [[= ->]|Hin]; [done|].
        exfalso. apply Hfresh. apply list_elem_of_fmap. by exists (k, v).
    + apply String.eqb_neq in E. rewrite (IH Hnd). split.
      * intros Hin. by right.
      * intros Hin. apply elem_of_cons in Hin as [[= <- <-]|Hin]; [done | exact Hin].
Qed.

Lemma Map_get_map_to_list o k : Js.Map_get (map_to_list o) k = o !! k.
Proof.
  pose proof (NoDup_fst_map_to_list o) as Hnd.
  destruct (o !! k) as [v|] eqn:E.
  - apply Map_get_Some_elem_of; [done|]. by apply elem_of_map_to_list.
  - destruct (Js.Map_get (map_to_list o) k) as [v|] eqn:E'; [|done].
    apply Map_get_Some_elem_of in E'; [|done].
    apply elem_of_map_to_list in E'. congruence.
Qed.

Lemma Map_get_Object_entries o k : Js.Map_get (Js.Object_entries o) k = o !! k.
Proof. apply Map_get_map_to_list. Qed.

Lemma fromEntries_fold_lookup l o k :
  NoDup l.*1 ->
  fold_left (fun acc (kv : string * V) => <[fst kv := snd kv]> acc) l o !! k =
    match Js.Map_get l k with
    | Some v => Some v
    | None => o !! k
    end.
Proof.
  revert o. induction l as [|[k' v'] rest IH]; intros o Hnd; [done|].
  rewrite fmap_cons in Hnd. apply NoDup_cons in Hnd as [Hfresh Hnd].
  cbn [fst] in Hfresh.
  cbn [fold_left Js.Map_get fst snd]. rewrite (IH _ Hnd).
  destruct (String.eqb k' k) eqn:E.
  - apply String.eqb_eq in E. subst k'.
    apply Map_get_None_keys in Hfresh. rewrite Hfresh. apply lookup_insert_eq.
  - apply String.eqb_neq in E.
    destruct (Js.Map_get rest k); [done|]. by apply lookup_insert_ne.
Qed.

(** [Object.fromEntries(map)] has the entries of the [Map]. *)
Lemma Object_fromEntries_lookup l k :
  Js.Map_wf l -> Js.Object_fromEntries l !! k = Js.Map_get l k.
Proof.
  intros Hwf. unfold Js.Object_fromEntries. rewrite fromEntries_fold_lookup by done.
  destruct (Js.Map_get l k); [done | apply lookup_empty].
Qed.

End Conversions.

Section Rebuild.
Context {V W : Type} (f : V -> W).

Lemma rebuild_fold_get (es : list (string * V)) (m0 : list (string * W)) k :
  NoDup es.*1 ->
  Js.Map_get (fold_left (fun m (kv : string * V) => Js.Map_set m (fst kv) (f (snd kv)))
                        es m0) k =
    match Js.Map_get es k with
    | Some v => Some (f v)
    | None => Js.Map_get m0 k
    end.
Proof.
  revert m0. induction es as [|[k' v'] rest IH]; intros m0 Hnd; [done|].
  rewrite fmap_cons in Hnd. apply NoDup_cons in Hnd as [Hfresh Hnd].
  cbn [fst] in Hfresh.
  cbn [fold_left Js.Map_get fst snd]. rewrite (IH _ Hnd).
  destruct (String.eqb k' k) eqn:E.
  - apply String.eqb_eq in E. subst k'.
    apply Map_get_None_keys in Hfresh. rewrite Hfresh. apply Map_get_set_eq.
  - apply String.eqb_neq in E.
    destruct (Js.Map_get rest k); [done|]. by apply Map_get_set_ne.
Qed.

Lemma rebuild_fold_wf (es : list (string * V)) (m0 : list (string * W)) :
  Js.Map_wf m0 ->
  Js.Map_wf (fold_left (fun m (kv : string * V) => Js.Map_set m (fst kv) (f (snd kv)))
                       es m0).
Proof.
  revert m0. induction es as [|kv rest IH]; intros m0 Hwf; [done|].
  cbn [fold_left]. apply IH. by apply Map_set_wf.
Qed.

Lemma Map_set_Forall (P : string * W -> Prop) (m : list (string * W)) k w :
  Forall P m -> P (k, w) -> (forall k' w', P (k', w') -> P (k, w')) ->
  Forall P (Js.Map_set m k w).
Proof.
  intros Hm Hw Hkey. induction m as [|[k' w'] rest IH]; cbn [Js.Map_set].
  - by constructor.
  - apply Forall_cons in Hm as [Hhead Hrest].
    destruct (String.eqb k' k) eqn:E.
    + apply String.eqb_eq in E. subst k'. by constructor.
    + constructor; [done | by apply IH].
Qed.

Lemma rebuild_fold_Forall (Q : W -> Prop) (es : list (string * V)) (m0 : list (string * W)) :
  Forall (fun entry => Q (snd entry)) m0 -> (forall v, Q (f v)) ->
  Forall (fun entry => Q (snd entry))
    (fold_left (fun m (kv : string * V) => Js.Map_set m (fst kv) (f (snd kv))) es m0).
Proof.
  intros Hm Hf. revert m0 Hm. induction es as [|kv rest IH]; intros m0 Hm; [done|].
  cbn [fold_left]. apply IH. apply Map_set_Forall; [done | apply Hf | done].
Qed.

End Rebuild.

(** [new Map(Object.entries(o))] has the entries of [o]. *)
Lemma Map_of_entries_lookup {V} (o : gmap string V) k :
  Js.Map_get (Js.Map_of_entries (Js.Object_entries o)) k = o !! k.
Proof.
  unfold Js.Map_of_entries, Js.Object_entries.
  rewrite (rebuild_fold_get (fun v => v)) by apply NoDup_fst_map_to_list.
  rewrite Map_get_map_to_list. by destruct (o !! k).
Qed.

Lemma Map_of_entries_wf {V} (es : list (string * V)) : Js.Map_wf (Js.Map_of_entries es).
Proof.
  unfold Js.Map_of_entries. apply (rebuild_fold_wf (fun v => v)). apply NoDup_nil_2.
Qed.

Lemma Map_get_map_values {V W} (f : V -> W) (l : list (string * V)) k :
  Js.Map_get (List.map (fun kv => (fst kv, f (snd kv))) l) k = f <$> Js.Map_get l k.
Proof.
  induction l as [|[k' v'] rest IH]; [done|].
  cbn [List.map Js.Map_get fst snd]. by destruct (String.eqb k' k).
Qed.

Lemma map_values_keys {V W} (f : V -> W) (l : list (string * V)) :
  (List.map (fun kv => (fst kv, f (snd kv))) l).*1 = l.*1.
Proof. induction l as [|[k' v'] rest IH]; [done|]. cbn. by rewrite <- IH. Qed.

(** The invariant holds of every graph the operations produce. *)
Lemma reachable_wf g : RelationshipGraph.reachable g -> RelationshipGraph.wf g.
Proof.
  induction 1 as [|now g a b d Hg IH|now g a b c Hg IH|now g id sd Hg IH
                  |now g id n why Hg IH|g data].
  - repeat split; [apply NoDup_nil_2 | constructor | apply NoDup_nil_2].
  - destruct IH as (Hout & Hin & Hst).
    unfold RelationshipGraph.setRelationship, RelationshipGraph.wf.
    cbn [fst RelationshipGraph.relationships RelationshipGraph.playerStandings].
    set (rels := if Js.Map_has (RelationshipGraph.relationships g) a
                 then RelationshipGraph.relationships g
                 else Js.Map_set (RelationshipGraph.relationships g) a []).
    assert (Hrels : Js.Map_wf rels /\
                    Forall (fun entry : string * list (string * RelationshipGraph.Relationship)
                            => Js.Map_wf (snd entry)) rels).
    { subst rels. destruct (Js.Map_has _ a); [done|]. split; [by apply Map_set_wf|].
      apply (Map_set_Forall (fun entry => Js.Map_wf (snd entry))); try done.
      apply NoDup_nil_2. }
    destruct Hrels as [Hrels1 Hrels2].
    split_and!; [by apply Map_set_wf | | done].
    apply (Map_set_Forall (fun entry => Js.Map_wf (snd entry))); try done.
    cbn [snd]. apply Map_set_wf.
    destruct (Js.Map_get rels a) as [targets|] eqn:E; cbn [Js.or_ref]; [|apply NoDup_nil_2].
    apply Map_get_Some_elem_of in E; [|done].
    rewrite Forall_forall in Hrels2. apply (Hrels2 _ E).
  - destruct IH as (Hout & Hin & Hst).
    unfold RelationshipGraph.updateRelationship.
    destruct (Js.Map_get (RelationshipGraph.relationships g) a) as [targets|] eqn:E;
      [|done].
    destruct (Js.Map_get targets b) as [r|]; [|done].
    cbn [fst]. unfold RelationshipGraph.wf.
    cbn [RelationshipGraph.relationships RelationshipGraph.playerStandings].
    split_and!; [by apply Map_set_wf | | done].
    apply (Map_set_Forall (fun entry => Js.Map_wf (snd entry))); try done.
    cbn [snd]. apply Map_set_wf.
    apply Map_get_Some_elem_of in E; [|done].
    rewrite Forall_forall in Hin. apply (Hin _ E).
  - destruct IH as (Hout & Hin & Hst).
    unfold RelationshipGraph.setPlayerStanding, RelationshipGraph.wf.
    cbn [RelationshipGraph.relationships RelationshipGraph.playerStandings].
    split_and!; [done | done | by apply Map_set_wf].
  - destruct IH as (Hout & Hin & Hst).
    unfold RelationshipGraph.updatePlayerStanding.
    cbn [fst]. unfold RelationshipGraph.wf.
    cbn [RelationshipGraph.relationships RelationshipGraph.playerStandings].
    destruct (Js.Map_has (RelationshipGraph.playerStandings g) id).
    + split_and!; [done | done | by apply Map_set_wf].
    + unfold RelationshipGraph.setPlayerStanding.
      cbn [RelationshipGraph.relationships RelationshipGraph.playerStandings].
      split_and!; [done | done | by do 2 apply Map_set_wf].
  - unfold RelationshipGraph.importRelationships, RelationshipGraph.wf.
    cbn [RelationshipGraph.relationships RelationshipGraph.playerStandings].
    split_and!; [| | apply Map_of_entries_wf].
    + destruct (RelationshipGraph.exp_relationships data); [|apply NoDup_nil_2].
      apply (rebuild_fold_wf (fun o => Js.Map_of_entries (Js.Object_entries o))).
      apply NoDup_nil_2.
    + destruct (RelationshipGraph.exp_relationships data); [|constructor].
      apply (rebuild_fold_Forall (fun o => Js.Map_of_entries (Js.Object_entries o))
               (fun m => Js.Map_wf m)); [constructor|].
      intros v. apply Map_of_entries_wf.
Qed.

Lemma relationships_round_trip now g g0 a b :
  RelationshipGraph.wf g ->
  RelationshipGraph.getRelationship
    (RelationshipGraph.importRelationships g0 (RelationshipGraph.exportRelationships now g))
    a b
  = RelationshipGraph.getRelationship g a b.
Proof.
  intros (Hout & Hin & _).
  unfold RelationshipGraph.getRelationship, RelationshipGraph.importRelationships,
    RelationshipGraph.exportRelationships.
  cbn [RelationshipGraph.relationships RelationshipGraph.exp_relationships].
  rewrite (rebuild_fold_get
             (fun o : gmap string RelationshipGraph.Relationship =>
                Js.Map_of_entries (Js.Object_entries o)))
    by apply NoDup_fst_map_to_list.
  rewrite Map_get_Object_entries.
  rewrite Object_fromEntries_lookup
    by (unfold Js.Map_wf; by rewrite map_values_keys).
  rewrite Map_get_map_values.
  destruct (Js.Map_get (RelationshipGraph.relationships g) a) as [targets|] eqn:E;
    cbn [fmap option_fmap option_map]; [|done].
  rewrite Map_of_entries_lookup. apply Object_fromEntries_lookup.
  apply Map_get_Some_elem_of in E; [|done].
  rewrite Forall_forall in Hin. apply (Hin _ E).
Qed.

Lemma standings_round_trip now g g0 id :
  RelationshipGraph.wf g ->
  Js.Map_get
    (RelationshipGraph.playerStandings
       (RelationshipGraph.importRelationships g0
          (RelationshipGraph.exportRelationships now g))) id
  = Js.Map_get (RelationshipGraph.playerStandings g) id.
Proof.
  intros (_ & _ & Hst).
  unfold RelationshipGraph.importRelationships, RelationshipGraph.exportRelationships.
  cbn [RelationshipGraph.playerStandings RelationshipGraph.exp_playerStandings Js.or_ref].
  rewrite Map_of_entries_lookup. by apply Object_fromEntries_lookup.
Qed.

(** C8. Exporting each of the three stores and importing the export into
    another instance of the store (a fresh one, or any other) gives back
    the same entities (per kind, by id), the same relationship for every
    source and target (type, strength and the rest), the same player
    standing for every entity, and the same world-parameter values.  The
    graph is any graph the operations of the class can produce. *)
Theorem export_import_round_trip now em g w em0 g0 w0 :
  RelationshipGraph.reachable g ->
  EntityManager.entities
    (EntityManager.importEntities em0 (EntityManager.exportEntities now em))
    = EntityManager.entities em /\
  (forall a b,
     RelationshipGraph.getRelationship
       (RelationshipGraph.importRelationships g0
          (RelationshipGraph.exportRelationships now g)) a b
     = RelationshipGraph.getRelationship g a b) /\
  (forall id,
     Js.Map_get
       (RelationshipGraph.playerStandings
          (RelationshipGraph.importRelationships g0
             (RelationshipGraph.exportRelationships now g))) id
     = Js.Map_get (RelationshipGraph.playerStandings g) id) /\
  WorldState.globalParameters
    (WorldState.importWorldState w0 (WorldState.exportWorldState now w))
    = WorldState.globalParameters w.
Proof.
  intros Hreach. apply reachable_wf in Hreach.
  split_and!.
  - reflexivity.
  - intros a b. by apply relationships_round_trip.
  - intros id. by apply standings_round_trip.
  - reflexivity.
Qed.

(** C8 at work: the graph with the common friend, a new entity store and
    the default world. *)
Lemma export_import_round_trip_witness :
  RelationshipGraph.reachable Sample.common_friend /\
  (forall a b,
     RelationshipGraph.getRelationship
       (RelationshipGraph.importRelationships RelationshipGraph.new
          (RelationshipGraph.exportRelationships "t" Sample.common_friend)) a b
     = RelationshipGraph.getRelationship Sample.common_friend a b).
Proof.
  assert (Hreach : RelationshipGraph.reachable Sample.common_friend).
  { unfold Sample.common_friend. do 2 apply RelationshipGraph.reach_set.
    apply RelationshipGraph.reach_new. }
  split; [exact Hreach|].
  apply (export_import_round_trip "t" EntityManager.new Sample.common_friend
           WorldState.new EntityManager.new RelationshipGraph.new WorldState.new Hreach).
Defined.

(** ** The creation pipeline *)

(** C3 (defect of the code). The tavern holds twelve NPCs and a payload
    proposes four more: three are created, the fourth is refused for
    capacity and the batch goes on to its end without throwing; but the
    entry in the [failed] bucket carries [validation.reason], which the
    validation rule never sets (it reports in [validation.warnings]), so
    the reason is [undefined] and the warning reads "...: undefined". *)
Theorem capacity_rejection_recorded_without_reason :
  let run :=
    CreationSystem.createEntitiesFromDetection "t1" Sample.crowded_system
      Sample.four_for_the_tavern in
  length (Js.Object_values
            (Js.or_ref (EntityManager.entities Sample.crowded !! "npc") ∅)) = 12%nat /\
  List.map (fun npc => Js.get npc "id") (CreationSystem.b_npcs (CreationSystem.created (snd run)))
    = [Js.VStr "alice"; Js.VStr "bob"; Js.VStr "carol"] /\
  CreationSystem.b_npcs (CreationSystem.failed (snd run))
    = [ {| CreationSystem.data := Sample.dave; CreationSystem.f_reason := Js.VUndef |} ] /\
  CreationSystem.warnings (snd run) = ["Failed to create NPC Dave: undefined"] /\
  Js.get (ValidationSystem.validateNPCCreation Sample.dave
            (EntityManager.entities (CreationSystem.entityManager (fst run)))) "warnings"
    = Js.VArr [Js.VStr "Location tavern has reached maximum NPC capacity (15)"] /\
  (exists npc, EntityManager.getEntity (CreationSystem.entityManager (fst run)) "npc"
                 (Js.VStr "carol") = Js.Normal (Some npc)) /\
  EntityManager.getEntity (CreationSystem.entityManager (fst run)) "npc" (Js.VStr "dave")
    = Js.Normal None.
Proof.
  cbv zeta. split_and!; try (vm_compute; reflexivity).
  eexists. vm_compute. reflexivity.
Qed.

(** C4 (defect of the code). Batch B is submitted while batch A holds the
    lock: it is queued, and once A is done the loop over the queue takes
    it off and creates its entities, after those of A and before the lock
    is released.  But the loop calls [createEntitiesFromDetection] only:
    the relationship B proposes is not written although both its
    endpoints exist, and the rumor B carries is not added; only the rumor
    of A is in the rumor mill. *)
Theorem queued_batch_relationships_and_updates_dropped :
  exists s1 s2 s3 results,
    CreationSystem.processEntityCreation_enter Sample.idle_system Sample.batch_A
      = CreationSystem.Started s1 /\
    CreationSystem.processEntityCreation_enter s1 Sample.batch_B
      = CreationSystem.Queued s2 /\
    CreationSystem.creationQueue s2 = [Sample.batch_B] /\
    CreationSystem.processEntityCreation_body "t1" (1 # 2) s2 Sample.batch_A
      = (s3, Js.Normal results) /\
    CreationSystem.processingLock s3 = false /\
    CreationSystem.creationQueue s3 = [] /\
    List.map EntityManager.id
      (Js.or_ref (EntityManager.creationHistory (CreationSystem.entityManager s3) !! "npc") [])
      = [Js.VStr "alice"; Js.VStr "bob"] /\
    CreationSystem.findEntity s3 "bob" <> Js.Normal None /\
    CreationSystem.findEntity s3 "alice" <> Js.Normal None /\
    RelationshipGraph.getRelationship (CreationSystem.relationshipGraph s3) "bob" "alice"
      = None /\
    List.map WorldState.content
      (WorldState.rumorMill (WorldState.information (CreationSystem.worldState s3)))
      = [Js.VStr "a stranger arrived"].
Proof.
  eexists _, _, _, _.
  split_and!; try (vm_compute; reflexivity).
  - vm_compute. discriminate.
  - vm_compute. discriminate.
Qed.

(** ** Further properties of the stores *)

(** The validating graph accepts no textual type: the values of
    [RELATIONSHIP_TYPES] are objects, so [includes] finds no text among
    them, and every call whose type is a text (or is missing, hence
    'neutral') throws and leaves the graph as it was.  This covers the
    call of the class's own documentation,
    [setRelationship('npc1', 'npc2', { type: 'friendship', strength: 70 })]. *)
Theorem checked_setRelationship_rejects_textual_types now g a b d :
  (exists s, Js.or_ref (RelationshipGraphChecked.data_type d)
               (RelationshipGraphChecked.TypeText "neutral")
             = RelationshipGraphChecked.TypeText s) ->
  exists e, RelationshipGraphChecked.setRelationship now g a b d = (g, Js.Throw e).
Proof.
  intros [s Hs]. unfold RelationshipGraphChecked.setRelationship.
  destruct (Js.blank a); [eauto|].
  destruct (Js.blank b); [eauto|].
  destruct (String.eqb a b); [eauto|].
  rewrite Hs. cbn. eauto.
Qed.

Lemma checked_setRelationship_rejects_friendship :
  exists e,
    RelationshipGraphChecked.setRelationship "t" RelationshipGraphChecked.new "npc1" "npc2"
      {| RelationshipGraphChecked.data_type :=
           Some (RelationshipGraphChecked.TypeText "friendship");
         RelationshipGraphChecked.data_strength := Some 70;
         RelationshipGraphChecked.data_reason := None;
         RelationshipGraphChecked.data_established := None |}
    = (RelationshipGraphChecked.new, Js.Throw e).
Proof.
  apply checked_setRelationship_rejects_textual_types. by exists "friendship".
Defined.

(** The rumor mill never holds more than 15 rumors and the news never
    more than 20 items; a new rumor goes last, a news item first. *)
Theorem rumor_and_news_retention now random w text :
  (length (WorldState.rumorMill (WorldState.information
             (WorldState.addRumor now random w text))) <= 15)%nat /\
  WorldState.content <$>
    last (WorldState.rumorMill (WorldState.information
            (WorldState.addRumor now random w text))) = Some text /\
  (length (WorldState.news (WorldState.information
             (WorldState.addNews now w text))) <= 20)%nat /\
  WorldState.n_content <$>
    head (WorldState.news (WorldState.information (WorldState.addNews now w text)))
    = Some text.
Proof.
  unfold WorldState.addRumor, WorldState.addNews.
  cbn [WorldState.set_information WorldState.information WorldState.rumorMill
       WorldState.news].
  split_and!.
  - match goal with |- context [if ?c then _ else _] => destruct c eqn:E end.
    + unfold Js.slice_last. rewrite length_skipn. lia.
    + apply Nat.ltb_ge in E. exact E.
  - match goal with |- context [if ?c then _ else _] => destruct c eqn:E end.
    + rewrite last_slice_last by lia. by rewrite last_snoc.
    + by rewrite last_snoc.
  - match goal with |- context [if ?c then _ else _] => destruct c eqn:E end.
    + rewrite length_firstn. lia.
    + apply Nat.ltb_ge in E. exact E.
  - match goal with |- context [if ?c then _ else _] => destruct c eqn:E end; done.
Qed.

(** ** The creation pipeline: what a batch of NPC proposals does *)

Lemma createEntity_preserves now em K I d K0 I0 e0 :
  EntityManager.getEntity em K0 I0 = Js.Normal (Some e0) ->
  EntityManager.getEntity (fst (EntityManager.createEntity now em K I d)) K0 I0
    = Js.Normal (Some e0).
Proof.
  unfold EntityManager.getEntity, EntityManager.createEntity.
  intros Hstored.
  destruct (EntityManager.entities em !! K) as [ofType|] eqn:HK; [|exact Hstored].
  destruct (ofType !! Js.to_string I) as [old|] eqn:HI; [exact Hstored|].
  destruct (EntityManager.construct now K I d) as [entity|]; [|exact Hstored].
  assert (Hgoal :
    match <[K := <[Js.to_string I := entity]> ofType]> (EntityManager.entities em) !! K0 with
    | Some ofType0 => Js.Normal (ofType0 !! Js.to_string I0)
    | None => Js.Throw (Js.TypeError ("Cannot read properties of undefined (reading '"
                                      ++ Js.to_string I0 ++ "')"))
    end = Js.Normal (Some e0)).
  { destruct (decide (K = K0)) as [<-|HneK].
    - rewrite lookup_insert_eq. rewrite HK in Hstored.
      destruct (decide (Js.to_string I = Js.to_string I0)) as [Heq|HneI].
      + rewrite <- Heq in Hstored. rewrite HI in Hstored. discriminate.
      + by rewrite lookup_insert_ne.
    - by rewrite lookup_insert_ne. }
  destruct (EntityManager.creationHistory em !! K); exact Hgoal.
Qed.

Lemma createEntity_stores now em K I d em' e :
  EntityManager.createEntity now em K I d = (em', Js.Normal e) ->
  EntityManager.getEntity em' K I = Js.Normal (Some e).
Proof.
  intros Hcreate.
  destruct (createEntity_returns _ _ _ _ _ _ _ Hcreate) as (ofType & _ & _ & _ & Hstored).
  unfold EntityManager.getEntity. by rewrite Hstored, !lookup_insert_eq.
Qed.

Lemma npc_id now I d npc :
  EntityManager.construct now Constants.NPC I d = Some npc -> Js.get npc "id" = I.
Proof. cbn. by intros [= <-]. Qed.

(** One turn of the loop over the proposed NPCs: the proposal lands in
    exactly one bucket, what the store held it still holds, and an NPC put
    in [created] is in the store under its id. *)
Lemma create_npc_turn now em results npcData :
  let after := CreationSystem.create_npc now (em, results) npcData in
  (length (CreationSystem.b_npcs (CreationSystem.created (snd after))) +
   length (CreationSystem.b_npcs (CreationSystem.failed (snd after))) =
   S (length (CreationSystem.b_npcs (CreationSystem.created results)) +
      length (CreationSystem.b_npcs (CreationSystem.failed results))))%nat /\
  (forall K I e,
     EntityManager.getEntity em K I = Js.Normal (Some e) ->
     EntityManager.getEntity (fst after) K I = Js.Normal (Some e)) /\
  (forall npc,
     npc ∈ CreationSystem.b_npcs (CreationSystem.created (snd after)) ->
     npc ∈ CreationSystem.b_npcs (CreationSystem.created results) \/
     EntityManager.getEntity (fst after) Constants.NPC (Js.get npc "id")
       = Js.Normal (Some npc)).
Proof.
  cbv zeta. unfold CreationSystem.create_npc.
  destruct (Js.truthy _).
  - destruct (EntityManager.createEntity now em Constants.NPC (Js.get npcData "id") npcData)
      as [em' [npc|err]] eqn:Hcreate; cbn [fst snd CreationSystem.created
        CreationSystem.failed CreationSystem.push_npc CreationSystem.b_npcs].
    + split_and!.
      * rewrite length_app. simpl. lia.
      * intros K I e Hstored.
        pose proof (createEntity_preserves now em Constants.NPC (Js.get npcData "id")
                      npcData K I e Hstored) as Hkept.
        by rewrite Hcreate in Hkept.
      * intros npc' Hin. apply elem_of_app in Hin as [Hin|Hin]; [by left|].
        apply list_elem_of_singleton in Hin. subst npc'. right.
        destruct (createEntity_returns _ _ _ _ _ _ _ Hcreate)
          as (ofType & _ & _ & Hbuilt & _).
        rewrite (npc_id _ _ _ _ Hbuilt). by apply createEntity_stores in Hcreate.
    + split_and!.
      * rewrite length_app. simpl. lia.
      * intros K I e Hstored.
        pose proof (createEntity_preserves now em Constants.NPC (Js.get npcData "id")
                      npcData K I e Hstored) as Hkept.
        by rewrite Hcreate in Hkept.
      * intros npc' Hin. by left.
  - cbn [fst snd CreationSystem.created CreationSystem.failed CreationSystem.push_npc
         CreationSystem.b_npcs].
    split_and!; [rewrite length_app; simpl; lia | done | by left].
Qed.

Lemma create_npc_batch now proposals em results :
  let after := fold_left (CreationSystem.create_npc now) proposals (em, results) in
  (length (CreationSystem.b_npcs (CreationSystem.created (snd after))) +
   length (CreationSystem.b_npcs (CreationSystem.failed (snd after))) =
   length proposals +
   (length (CreationSystem.b_npcs (CreationSystem.created results)) +
    length (CreationSystem.b_npcs (CreationSystem.failed results))))%nat /\
  (forall K I e,
     EntityManager.getEntity em K I = Js.Normal (Some e) ->
     EntityManager.getEntity (fst after) K I = Js.Normal (Some e)) /\
  (forall npc,
     npc ∈ CreationSystem.b_npcs (CreationSystem.created (snd after)) ->
     npc ∈ CreationSystem.b_npcs (CreationSystem.created results) \/
     EntityManager.getEntity (fst after) Constants.NPC (Js.get npc "id")
       = Js.Normal (Some npc)).
Proof.
  revert em results. induction proposals as [|npcData rest IH]; intros em results.
  - cbn. split_and!; [lia | done | by left].
  - cbn [fold_left length].
    destruct (CreationSystem.create_npc now (em, results) npcData) as [em1 results1] eqn:Hturn.
    pose proof (create_npc_turn now em results npcData) as Hone.
    cbv zeta in Hone. rewrite Hturn in Hone. cbn [fst snd] in Hone.
    destruct Hone as (Hcount1 & Hkept1 & Hcreated1).
    destruct (IH em1 results1) as (Hcount & Hkept & Hcreated).
    split_and!.
    + cbv zeta in Hcount. lia.
    + intros K I e Hstored. apply Hkept. by apply Hkept1.
    + intros npc Hin. destruct (Hcreated npc Hin) as [Hold|Hnew]; [|by right].
      destruct (Hcreated1 npc Hold) as [Holder|Hstored]; [by left|].
      right. by apply Hkept.
Qed.

(** A batch of NPC proposals is contained.  Whatever the proposals, the
    call returns with every proposal accounted for, in [created] or in
    [failed]; a rejection stops nothing, since each entity the store held
    before the batch it still holds after it, and each NPC reported in
    [created] is in the store under its id when the batch ends; the graph,
    the world, the queue and the lock are not touched. *)
Theorem npc_batch_is_contained now s proposals rels updates :
  let run :=
    CreationSystem.createEntitiesFromDetection now s
      {| CreationSystem.entities := Some {| CreationSystem.npcs := Some proposals |};
         CreationSystem.relationships := rels;
         CreationSystem.worldUpdates := updates |} in
  (length (CreationSystem.b_npcs (CreationSystem.created (snd run))) +
   length (CreationSystem.b_npcs (CreationSystem.failed (snd run))) =
   length proposals)%nat /\
  (forall K I e,
     EntityManager.getEntity (CreationSystem.entityManager s) K I = Js.Normal (Some e) ->
     EntityManager.getEntity (CreationSystem.entityManager (fst run)) K I
       = Js.Normal (Some e)) /\
  (forall npc,
     npc ∈ CreationSystem.b_npcs (CreationSystem.created (snd run)) ->
     EntityManager.getEntity (CreationSystem.entityManager (fst run)) Constants.NPC
       (Js.get npc "id") = Js.Normal (Some npc)) /\
  CreationSystem.relationshipGraph (fst run) = CreationSystem.relationshipGraph s /\
  CreationSystem.worldState (fst run) = CreationSystem.worldState s /\
  CreationSystem.creationQueue (fst run) = CreationSystem.creationQueue s /\
  CreationSystem.processingLock (fst run) = CreationSystem.processingLock s.
Proof.
  cbv zeta. unfold CreationSystem.createEntitiesFromDetection.
  cbn [CreationSystem.entities CreationSystem.npcs].
  pose proof (create_npc_batch now proposals (CreationSystem.entityManager s)
                CreationSystem.empty_results) as Hbatch.
  cbv zeta in Hbatch.
  destruct (fold_left (CreationSystem.create_npc now) proposals
              (CreationSystem.entityManager s, CreationSystem.empty_results))
    as [em results].
  cbn [fst snd] in Hbatch. destruct Hbatch as (Hcount & Hkept & Hcreated).
  cbn [fst snd CreationSystem.set_entityManager CreationSystem.entityManager
       CreationSystem.relationshipGraph CreationSystem.worldState
       CreationSystem.creationQueue CreationSystem.processingLock].
  split_and!; try done.
  - cbn in Hcount. lia.
  - intros npc Hin. destruct (Hcreated npc Hin) as [Hold|Hstored]; [|done].
    cbn in Hold. by apply elem_of_nil in Hold.
Qed.

(** ** Removing a relationship *)

Section DeleteFacts.
Context {V : Type}.
Implicit Types (m : list (string * V)) (k : string).

Lemma Map_get_delete_ne m k k' :
  k <> k' -> Js.Map_get (Js.Map_delete m k) k' = Js.Map_get m k'.
Proof.
  intros Hne. induction m as [|[k0 v0] rest IH]; [done|].
  cbn [Js.Map_delete Js.Map_get]. destruct (String.eqb k0 k) eqn:E.
  - apply String.eqb_eq in E. subst k0.
    destruct (String.eqb k k') eqn:E'; [|done].
    apply String.eqb_eq in E'. contradiction.
  - cbn [Js.Map_get]. by rewrite IH.
Qed.

Lemma Map_get_delete_eq m k :
  Js.Map_wf m -> Js.Map_get (Js.Map_delete m k) k = None.
Proof.
  unfold Js.Map_wf. induction m as [|[k0 v0] rest IH]; intros Hwf; [done|].
  rewrite fmap_cons in Hwf. apply NoDup_cons in Hwf as [Hfresh Hwf].
  cbn [fst] in Hfresh. cbn [Js.Map_delete]. destruct (String.eqb k0 k) eqn:E.
  - apply String.eqb_eq in E. subst k0. by apply Map_get_None_keys.
  - cbn [Js.Map_get]. rewrite E. by apply IH.
Qed.

Lemma Map_delete_keys m k k' :
  k' ∈ (Js.Map_delete m k).*1 -> k' ∈ m.*1.
Proof.
  induction m as [|[k0 v0] rest IH]; [done|].
  cbn [Js.Map_delete]. rewrite fmap_cons. destruct (String.eqb k0 k).
  - intros Hmem. by right.
  - rewrite fmap_cons. intros Hmem.
    apply elem_of_cons in Hmem as [->|Hmem]; [left | right; by apply IH].
Qed.

Lemma Map_delete_wf m k : Js.Map_wf m -> Js.Map_wf (Js.Map_delete m k).
Proof.
  unfold Js.Map_wf. induction m as [|[k0 v0] rest IH]; intros Hwf; [done|].
  rewrite fmap_cons in Hwf. apply NoDup_cons in Hwf as [Hfresh Hwf].
  cbn [Js.Map_delete]. destruct (String.eqb k0 k); [done|].
  rewrite fmap_cons. apply NoDup_cons. split; [|by apply IH].
  intros Hmem. apply Hfresh. by apply Map_delete_keys in Hmem.
Qed.

End DeleteFacts.

(** After [removeRelationship(A, B)] of the validating graph neither
    [getRelationship(A, B)] nor [getRelationship(B, A)] finds an edge. *)
Theorem removeRelationship_both_directions now g a b :
  RelationshipGraphChecked.wf g ->
  RelationshipGraphChecked.getRelationship
    (fst (RelationshipGraphChecked.removeRelationship now g a b)) a b = None /\
  RelationshipGraphChecked.getRelationship
    (fst (RelationshipGraphChecked.removeRelationship now g a b)) b a = None.
Proof.
  intros [Hout Hin].
  unfold RelationshipGraphChecked.removeRelationship.
  set (step1 :=
    match Js.Map_get (RelationshipGraphChecked.relationships g) a with
    | Some targets =>
        match Js.Map_get targets b with
        | Some r =>
            (Js.Map_set (RelationshipGraphChecked.relationships g) a
               (Js.Map_delete targets b),
             (RelationshipGraphChecked.relationshipHistory g ++
              [ {| RelationshipGraphChecked.entity1 := a;
                   RelationshipGraphChecked.entity2 := b;
                   RelationshipGraphChecked.action := "removed";
                   RelationshipGraphChecked.relationship := r;
                   RelationshipGraphChecked.l_timestamp := now |} ])%list,
             true)
        | None => (RelationshipGraphChecked.relationships g,
                   RelationshipGraphChecked.relationshipHistory g, false)
        end
    | None => (RelationshipGraphChecked.relationships g,
               RelationshipGraphChecked.relationshipHistory g, false)
    end).
  assert (Hstep1 :
    (match Js.Map_get (fst (fst step1)) a with
     | Some targets => Js.Map_get targets b
     | None => None
     end = None) /\
    (forall k targets, Js.Map_get (fst (fst step1)) k = Some targets -> Js.Map_wf targets)).
  { assert (Hinner : forall k targets,
              Js.Map_get (RelationshipGraphChecked.relationships g) k = Some targets ->
              Js.Map_wf targets).
    { intros k targets Hk. apply Map_get_Some_elem_of in Hk; [|done].
      rewrite Forall_forall in Hin. apply (Hin _ Hk). }
    subst step1.
    destruct (Js.Map_get (RelationshipGraphChecked.relationships g) a) as [targets|] eqn:Ea.
    - destruct (Js.Map_get targets b) as [r|] eqn:Eb; cbn [fst].
      + split.
        * rewrite Map_get_set_eq. apply Map_get_delete_eq. by apply (Hinner a).
        * intros k targets' Hk. destruct (decide (a = k)) as [<-|Hne].
          -- rewrite Map_get_set_eq in Hk. injection Hk as <-.
             apply Map_delete_wf. by apply (Hinner a).
          -- rewrite Map_get_set_ne in Hk by done. by apply (Hinner k).
      + rewrite Ea. by split.
    - cbn [fst]. rewrite Ea. by split. }
  destruct step1 as [[rels1 ledger1] removed1]. cbn [fst] in Hstep1.
  destruct Hstep1 as [Hab Hwf1].
  unfold RelationshipGraphChecked.getRelationship.
  destruct (Js.Map_get rels1 b) as [targets|] eqn:Eb;
    cbn [fst RelationshipGraphChecked.relationships].
  - unfold Js.Map_has. destruct (Js.Map_get targets a) as [r|] eqn:Eba;
      cbn [fst RelationshipGraphChecked.relationships].
    + destruct (decide (a = b)) as [<-|Hne].
      * rewrite Map_get_set_eq. split; apply Map_get_delete_eq; by apply (Hwf1 a).
      * rewrite Map_get_set_eq, Map_get_set_ne by done. split; [exact Hab|].
        apply Map_get_delete_eq. by apply (Hwf1 b).
    + rewrite Eb. by split.
  - rewrite Eb. by split.
Qed.

(** The removal at work, on a graph that holds one edge. *)
Lemma removeRelationship_both_directions_witness :
  RelationshipGraphChecked.getRelationship Sample.one_trusted_edge "npc1" "npc2" <> None /\
  RelationshipGraphChecked.getRelationship
    (fst (RelationshipGraphChecked.removeRelationship "t2" Sample.one_trusted_edge
            "npc2" "npc1")) "npc1" "npc2" = None.
Proof.
  split; [discriminate|].
  apply (removeRelationship_both_directions "t2" Sample.one_trusted_edge "npc2" "npc1").
  split.
  - unfold Js.Map_wf. vm_compute. apply NoDup_cons. split; [|apply NoDup_singleton].
    intros Hmem. apply list_elem_of_singleton in Hmem. discriminate.
  - repeat constructor; unfold Js.Map_wf; cbn; try apply NoDup_nil_2.
    intros Hmem. by apply elem_of_nil in Hmem.
Defined.

(** ** Loading a save: what the validation does not cover *)

(** [validateSaveFile] accepts a document exactly when it has its four
    required sections. *)
Theorem validateSaveFile_iff gameState :
  StoryEngine.validateSaveFile gameState = true <->
  is_Some (StoryEngine.doc_player gameState) /\
  is_Some (StoryEngine.doc_entities gameState) /\
  is_Some (StoryEngine.doc_worldState gameState) /\
  is_Some (StoryEngine.doc_meta gameState).
Proof.
  unfold StoryEngine.validateSaveFile, StoryEngine.requiredSections.
  cbn [forallb StoryEngine.hasOwnProperty String.eqb Ascii.eqb Bool.eqb].
  rewrite !andb_true_iff, !bool_decide_eq_true. tauto.
Qed.

(* ===================================================================== *)
(** * Part III: further properties of the code *)
(* ===================================================================== *)

(** ** Validation results and the reasons of failures *)

(** The result of [validateNPCCreation] never has a [reason] property:
    the rule reports through [warnings], and a rejection always leaves
    its text as the last warning. *)
Theorem validateNPCCreation_reports_in_warnings npcData entities :
  Js.get (ValidationSystem.validateNPCCreation npcData entities) "reason" = Js.VUndef /\
  (Js.get (ValidationSystem.validateNPCCreation npcData entities) "valid" = Js.VBool true \/
   Js.get (ValidationSystem.validateNPCCreation npcData entities) "valid" = Js.VBool false /\
   exists ws w,
     Js.get (ValidationSystem.validateNPCCreation npcData entities) "warnings"
     = Js.VArr (ws ++ [Js.VStr w])).
Proof.
  unfold ValidationSystem.validateNPCCreation.
  destruct (_ && _)%bool.
  { split; [reflexivity|]. right. split; [reflexivity|]. eexists [], _. reflexivity. }
  destruct (existsb _ _).
  - destruct (_ && _)%bool.
    { split; [reflexivity|]. right. split; [reflexivity|]. eexists [_], _. reflexivity. }
    destruct (_ && _)%bool; [|split; [reflexivity | by left]].
    destruct (_ !! _); [|split; [reflexivity | by left]].
    destruct (ValidationSystem.checkOccupationLocationCompatibility _ _);
      split; try reflexivity; by left.
  - destruct (_ && _)%bool.
    { split; [reflexivity|]. right. split; [reflexivity|]. eexists [], _. reflexivity. }
    destruct (_ && _)%bool; [|split; [reflexivity | by left]].
    destruct (_ !! _); [|split; [reflexivity | by left]].
    destruct (ValidationSystem.checkOccupationLocationCompatibility _ _);
      split; try reflexivity; by left.
Qed.






(** ** The core graph: a write touches one directed edge *)

Lemma core_set_frame now g a b d a' b' :
  (a', b') <> (a, b) ->
  RelationshipGraph.getRelationship
    (fst (RelationshipGraph.setRelationship now g a b d)) a' b'
  = RelationshipGraph.getRelationship g a' b'.
Proof.
  intros Hne.
  unfold RelationshipGraph.getRelationship, RelationshipGraph.setRelationship, Js.Map_has.
  cbn [fst RelationshipGraph.relationships].
  destruct (decide (a = a')) as [<-|Ha].
  - assert (Hb : b <> b') by (intros <-; by apply Hne).
    rewrite Map_get_set_eq.
    destruct (Js.Map_get (RelationshipGraph.relationships g) a) as [targets|] eqn:Eg.
    + rewrite Eg. cbn [Js.or_ref]. by apply Map_get_set_ne.
    + rewrite Map_get_set_eq. cbn [Js.or_ref]. by rewrite Map_get_set_ne.
  - rewrite Map_get_set_ne by done.
    destruct (Js.Map_get (RelationshipGraph.relationships g) a); [done|].
    by rewrite Map_get_set_ne.
Qed.

(** ** The pipeline: relationships, world updates, the queue *)

Lemma process_relationship_fields now s rel :
  CreationSystem.entityManager (CreationSystem.process_relationship now s rel)
    = CreationSystem.entityManager s /\
  CreationSystem.worldState (CreationSystem.process_relationship now s rel)
    = CreationSystem.worldState s /\
  CreationSystem.creationQueue (CreationSystem.process_relationship now s rel)
    = CreationSystem.creationQueue s /\
  CreationSystem.processingLock (CreationSystem.process_relationship now s rel)
    = CreationSystem.processingLock s.
Proof.
  unfold CreationSystem.process_relationship.
  destruct (CreationSystem.findEntity s _) as [[?|]|?]; [|done..].
  destruct (CreationSystem.findEntity s _) as [[?|]|?]; done.
Qed.

Lemma processRelationships_fields now rels : forall s,
  CreationSystem.entityManager (CreationSystem.processRelationships now s rels)
    = CreationSystem.entityManager s /\
  CreationSystem.worldState (CreationSystem.processRelationships now s rels)
    = CreationSystem.worldState s /\
  CreationSystem.creationQueue (CreationSystem.processRelationships now s rels)
    = CreationSystem.creationQueue s /\
  CreationSystem.processingLock (CreationSystem.processRelationships now s rels)
    = CreationSystem.processingLock s.
Proof.
  unfold CreationSystem.processRelationships.
  induction rels as [|rel rest IH]; intros s; [done|].
  cbn [fold_left].
  destruct (IH (CreationSystem.process_relationship now s rel)) as (-> & -> & -> & ->).
  apply process_relationship_fields.
Qed.





Lemma engine_parameter_update_throws now w parameter change reason :
  parameter ∈ ["tension"; "politicalStability"; "economicState"; "magicalActivity"] ->
  exists e, WorldState.updateGlobalParameter now w parameter change reason = (w, Js.Throw e).
Proof.
  intros Hin. unfold WorldState.updateGlobalParameter.
  destruct (WorldState.globalParameters w !! parameter); [|by eexists].
  rewrite bounds_not_found by done. by eexists.
Qed.

Lemma set_worldState_same s : CreationSystem.set_worldState s (CreationSystem.worldState s) = s.
Proof. by destruct s. Qed.

Lemma apply_parameter_zero now parameter delta s u :
  Js.or_num delta 0 = 0 ->
  CreationSystem.apply_parameter now parameter delta (s, Js.Normal u) = (s, Js.Normal tt).
Proof. intros H. cbn. by rewrite H. Qed.

Lemma apply_parameter_nonzero now parameter delta s u :
  parameter ∈ ["tension"; "politicalStability"; "economicState"; "magicalActivity"] ->
  Js.or_num delta 0 <> 0 ->
  exists e,
    CreationSystem.apply_parameter now parameter delta (s, Js.Normal u) = (s, Js.Throw e).
Proof.
  intros Hin Hne. cbn [CreationSystem.apply_parameter].
  apply Z.eqb_neq in Hne. rewrite Hne.
  destruct (engine_parameter_update_throws now (CreationSystem.worldState s) parameter
              (Js.or_num delta 0) "AI-generated consequence" Hin) as [e ->].
  exists e. by rewrite set_worldState_same.
Qed.

Ltac parameter_turn H :=
  match goal with
  | |- context [CreationSystem.apply_parameter ?now ?p ?delta (?s, Js.Normal ?u)] =>
      destruct (decide (Js.or_num delta 0 = 0)) as [H|H];
      [ rewrite (apply_parameter_zero now p delta s u H)
      | let e := fresh "e" in
        destruct (apply_parameter_nonzero now p delta s u ltac:(set_solver) H) as [e ->];
        cbn [CreationSystem.apply_parameter] ]
  end.

(** A payload that asks for a change of tension, stability, economy or
    magic makes [applyWorldUpdates] throw, whatever the world is: nothing
    is written, and the rumors and news of the same payload are lost. *)
Lemma applyWorldUpdates_throws_on_change now random s updates :
  CreationSystem.asks_parameter_change updates = true ->
  exists e, CreationSystem.applyWorldUpdates now random s updates = (s, Js.Throw e).
Proof.
  unfold CreationSystem.asks_parameter_change, CreationSystem.applyWorldUpdates.
  intros Hasks.
  parameter_turn H1; [|by eexists].
  parameter_turn H2; [|by eexists].
  parameter_turn H3; [|by eexists].
  parameter_turn H4; [|by eexists].
  rewrite H1, H2, H3, H4 in Hasks. discriminate.
Qed.

Lemma applyWorldUpdates_without_parameters now random s updates :
  CreationSystem.asks_parameter_change updates = false ->
  CreationSystem.applyWorldUpdates now random s updates
  = (CreationSystem.set_worldState s
       (fold_left (WorldState.addNews now) (Js.or_ref (CreationSystem.news updates) [])
          (fold_left (WorldState.addRumor now random)
             (Js.or_ref (CreationSystem.rumors updates) [])
             (CreationSystem.worldState s))),
     Js.Normal tt).
Proof.
  unfold CreationSystem.asks_parameter_change, CreationSystem.applyWorldUpdates.
  intros Hasks.
  apply orb_false_elim in Hasks as [Hasks H4].
  apply orb_false_elim in Hasks as [Hasks H3].
  apply orb_false_elim in Hasks as [H1 H2].
  apply negb_false_iff, Z.eqb_eq in H1, H2, H3, H4.
  by rewrite !apply_parameter_zero.
Qed.

Lemma createEntitiesFromDetection_eq now s detection :
  CreationSystem.createEntitiesFromDetection now s detection
  = (CreationSystem.set_entityManager s
       (fst (fold_left (CreationSystem.create_npc now)
               (CreationSystem.proposals_of detection)
               (CreationSystem.entityManager s, CreationSystem.empty_results))),
     snd (fold_left (CreationSystem.create_npc now)
            (CreationSystem.proposals_of detection)
            (CreationSystem.entityManager s, CreationSystem.empty_results))).
Proof.
  unfold CreationSystem.createEntitiesFromDetection, CreationSystem.proposals_of.
  destruct (CreationSystem.entities detection) as [payload|]; [|by destruct s].
  destruct (CreationSystem.npcs payload) as [proposals|]; [|by destruct s].
  cbn [Js.or_ref]. by destruct (fold_left _ _ _).
Qed.

Lemma drain_eq now queue : forall s,
  CreationSystem.drain now queue s
  = CreationSystem.set_queue
      (CreationSystem.set_entityManager s
         (CreationSystem.handled_in_order now (CreationSystem.entityManager s) queue))
      [].
Proof.
  induction queue as [|detection rest IH]; intros s; [by destruct s|].
  cbn [CreationSystem.drain]. rewrite createEntitiesFromDetection_eq. cbn [fst].
  rewrite IH. reflexivity.
Qed.

(** When the payload of a run asks for a parameter change, the run ends
    with the throw of [applyWorldUpdates]: its entities are stored all
    the same (the caller never gets their [results]), the world is as it
    was, the queue is left as it stands, and the lock is released. *)
Theorem processEntityCreation_parameter_change_aborts now random s detectionResult :
  CreationSystem.asks_parameter_change
    (Js.or_ref (CreationSystem.worldUpdates detectionResult) CreationSystem.no_updates)
  = true ->
  (exists e,
     snd (CreationSystem.processEntityCreation_body now random s detectionResult)
     = Js.Throw e) /\
  CreationSystem.entityManager
    (fst (CreationSystem.processEntityCreation_body now random s detectionResult))
  = CreationSystem.handled_in_order now (CreationSystem.entityManager s) [detectionResult] /\
  CreationSystem.worldState
    (fst (CreationSystem.processEntityCreation_body now random s detectionResult))
  = CreationSystem.worldState s /\
  CreationSystem.creationQueue
    (fst (CreationSystem.processEntityCreation_body now random s detectionResult))
  = CreationSystem.creationQueue s /\
  CreationSystem.processingLock
    (fst (CreationSystem.processEntityCreation_body now random s detectionResult))
  = false.
Proof.
  intros Hasks. unfold CreationSystem.processEntityCreation_body.
  rewrite createEntitiesFromDetection_eq.
  set (s1 := CreationSystem.set_entityManager s _).
  set (s2 := CreationSystem.processRelationships now s1 _).
  destruct (applyWorldUpdates_throws_on_change now random s2 _ Hasks) as [e ->].
  destruct (processRelationships_fields now
              (Js.or_ref (CreationSystem.relationships detectionResult) []) s1)
    as (Hem & Hw & Hq & _).
  fold s2 in Hem, Hw, Hq.
  cbn [fst snd CreationSystem.set_lock CreationSystem.entityManager
       CreationSystem.worldState CreationSystem.creationQueue
       CreationSystem.processingLock].
  rewrite Hem, Hw, Hq. split_and!; [by exists e | done..].
Qed.


(** Carol's batch asks for a calmer world: Carol is stored, the call throws. *)
Lemma processEntityCreation_parameter_change_witness :
  (exists e,
     snd (CreationSystem.processEntityCreation_body "t1" (1 # 2) Sample.idle_system
            Sample.batch_C)
     = Js.Throw e) /\
  CreationSystem.entityManager
    (fst (CreationSystem.processEntityCreation_body "t1" (1 # 2) Sample.idle_system
            Sample.batch_C))
  = CreationSystem.handled_in_order "t1" (CreationSystem.entityManager Sample.idle_system)
      [Sample.batch_C] /\
  CreationSystem.worldState
    (fst (CreationSystem.processEntityCreation_body "t1" (1 # 2) Sample.idle_system
            Sample.batch_C))
  = CreationSystem.worldState Sample.idle_system /\
  CreationSystem.creationQueue
    (fst (CreationSystem.processEntityCreation_body "t1" (1 # 2) Sample.idle_system
            Sample.batch_C))
  = CreationSystem.creationQueue Sample.idle_system /\
  CreationSystem.processingLock
    (fst (CreationSystem.processEntityCreation_body "t1" (1 # 2) Sample.idle_system
            Sample.batch_C))
  = false.
Proof.
  apply (processEntityCreation_parameter_change_aborts "t1" (1 # 2) Sample.idle_system
           Sample.batch_C).
  reflexivity.
Defined.

(** A run whose payload asks for no parameter change returns the results
    of its own payload, empties the queue and releases the lock.  The
    entity store it leaves is the one obtained by handling its payload and
    then the queued ones in the order they arrived; the graph and the
    world are those its own payload gives: a queued payload contributes
    its entities and nothing else. *)
Theorem processEntityCreation_handles_queue_in_order now random s detectionResult :
  CreationSystem.asks_parameter_change
    (Js.or_ref (CreationSystem.worldUpdates detectionResult) CreationSystem.no_updates)
  = false ->
  snd (CreationSystem.processEntityCreation_body now random s detectionResult)
  = Js.Normal (snd (CreationSystem.createEntitiesFromDetection now s detectionResult)) /\
  CreationSystem.entityManager
    (fst (CreationSystem.processEntityCreation_body now random s detectionResult))
  = CreationSystem.handled_in_order now (CreationSystem.entityManager s)
      (detectionResult :: CreationSystem.creationQueue s) /\
  CreationSystem.relationshipGraph
    (fst (CreationSystem.processEntityCreation_body now random s detectionResult))
  = CreationSystem.relationshipGraph
      (CreationSystem.processRelationships now
         (fst (CreationSystem.createEntitiesFromDetection now s detectionResult))
         (Js.or_ref (CreationSystem.relationships detectionResult) [])) /\
  CreationSystem.worldState
    (fst (CreationSystem.processEntityCreation_body now random s detectionResult))
  = CreationSystem.worldState
      (fst (CreationSystem.applyWorldUpdates now random s
              (Js.or_ref (CreationSystem.worldUpdates detectionResult)
                 CreationSystem.no_updates))) /\
  CreationSystem.creationQueue
    (fst (CreationSystem.processEntityCreation_body now random s detectionResult)) = [] /\
  CreationSystem.processingLock
    (fst (CreationSystem.processEntityCreation_body now random s detectionResult)) = false.
Proof.
  intros Hasks. unfold CreationSystem.processEntityCreation_body.
  rewrite createEntitiesFromDetection_eq.
  set (s1 := CreationSystem.set_entityManager s _).
  set (s2 := CreationSystem.processRelationships now s1 _).
  rewrite !applyWorldUpdates_without_parameters by exact Hasks.
  rewrite drain_eq.
  destruct (processRelationships_fields now
              (Js.or_ref (CreationSystem.relationships detectionResult) []) s1)
    as (Hem & Hw & Hq & _).
  fold s2 in Hem, Hw, Hq.
  cbn [fst snd CreationSystem.set_lock CreationSystem.set_queue
       CreationSystem.set_entityManager CreationSystem.set_worldState
       CreationSystem.entityManager CreationSystem.worldState
       CreationSystem.creationQueue CreationSystem.processingLock
       CreationSystem.relationshipGraph].
  rewrite Hem, Hw, Hq. split_and!; done.
Qed.

(** Alice's batch, run while Bob's waits in the queue. *)
Lemma processEntityCreation_queue_witness :
  snd (CreationSystem.processEntityCreation_body "t1" (1 # 2)
         (CreationSystem.set_queue Sample.idle_system [Sample.batch_B]) Sample.batch_A)
  = Js.Normal (snd (CreationSystem.createEntitiesFromDetection "t1"
                      (CreationSystem.set_queue Sample.idle_system [Sample.batch_B])
                      Sample.batch_A)) /\
  CreationSystem.entityManager
    (fst (CreationSystem.processEntityCreation_body "t1" (1 # 2)
            (CreationSystem.set_queue Sample.idle_system [Sample.batch_B]) Sample.batch_A))
  = CreationSystem.handled_in_order "t1"
      (CreationSystem.entityManager
         (CreationSystem.set_queue Sample.idle_system [Sample.batch_B]))
      (Sample.batch_A
       :: CreationSystem.creationQueue
            (CreationSystem.set_queue Sample.idle_system [Sample.batch_B])) /\
  CreationSystem.relationshipGraph
    (fst (CreationSystem.processEntityCreation_body "t1" (1 # 2)
            (CreationSystem.set_queue Sample.idle_system [Sample.batch_B]) Sample.batch_A))
  = CreationSystem.relationshipGraph
      (CreationSystem.processRelationships "t1"
         (fst (CreationSystem.createEntitiesFromDetection "t1"
                 (CreationSystem.set_queue Sample.idle_system [Sample.batch_B])
                 Sample.batch_A))
         (Js.or_ref (CreationSystem.relationships Sample.batch_A) [])) /\
  CreationSystem.worldState
    (fst (CreationSystem.processEntityCreation_body "t1" (1 # 2)
            (CreationSystem.set_queue Sample.idle_system [Sample.batch_B]) Sample.batch_A))
  = CreationSystem.worldState
      (fst (CreationSystem.applyWorldUpdates "t1" (1 # 2)
              (CreationSystem.set_queue Sample.idle_system [Sample.batch_B])
              (Js.or_ref (CreationSystem.worldUpdates Sample.batch_A)
                 CreationSystem.no_updates))) /\
  CreationSystem.creationQueue
    (fst (CreationSystem.processEntityCreation_body "t1" (1 # 2)
            (CreationSystem.set_queue Sample.idle_system [Sample.batch_B]) Sample.batch_A))
  = [] /\
  CreationSystem.processingLock
    (fst (CreationSystem.processEntityCreation_body "t1" (1 # 2)
            (CreationSystem.set_queue Sample.idle_system [Sample.batch_B]) Sample.batch_A))
  = false.
Proof.
  apply (processEntityCreation_handles_queue_in_order "t1" (1 # 2)
           (CreationSystem.set_queue Sample.idle_system [Sample.batch_B]) Sample.batch_A).
  reflexivity.
Defined.


(** ** The entity store: kinds, creation records, deletion, update *)













(** Deleting an entity that was just created returns [true]; the entity
    is gone, every other entity is where it was, the creation record
    stays, and the id can be used again. *)
Theorem deleteEntity_after_create now em type id data em1 entity now' data' :
  EntityManager.createEntity now em type id data = (em1, Js.Normal entity) ->
  exists em2,
    EntityManager.deleteEntity em1 type id = (em2, Js.Normal true) /\
    EntityManager.getEntity em2 type id = Js.Normal None /\
    (forall type' id',
       (type', Js.to_string id') <> (type, Js.to_string id) ->
       EntityManager.getEntity em2 type' id' = EntityManager.getEntity em type' id') /\
    EntityManager.creationHistory em2 = EntityManager.creationHistory em1 /\
    exists em3 entity',
      EntityManager.createEntity now' em2 type id data' = (em3, Js.Normal entity').
Proof.
  intros Hcreate.
  destruct (createEntity_returns _ _ _ _ _ _ _ Hcreate)
    as (ofType & HK & HI & Hcons & Hstored).
  assert (Hhist : is_Some (EntityManager.creationHistory em1 !! type)).
  { revert Hcreate. unfold EntityManager.createEntity. rewrite HK, HI, Hcons.
    destruct (EntityManager.creationHistory em !! type) as [records|]; [|discriminate].
    intros [= <-]. cbn. rewrite lookup_insert_eq. by eexists. }
  destruct Hhist as [records1 Hrecords1].
  unfold EntityManager.deleteEntity. rewrite Hstored, lookup_insert_eq, lookup_insert_eq.
  eexists. split; [reflexivity|].
  unfold EntityManager.getEntity, EntityManager.createEntity.
  cbn [EntityManager.entities EntityManager.creationHistory].
  rewrite !insert_insert_eq, !lookup_insert_eq, !lookup_delete_eq.
  split; [reflexivity|]. split.
  { intros type' id' Hne. destruct (decide (type = type')) as [<-|HneK].
    - rewrite lookup_insert_eq, HK.
      assert (Js.to_string id <> Js.to_string id') by (intros Heq; apply Hne; by rewrite Heq).
      by rewrite lookup_delete_ne, lookup_insert_ne.
    - by rewrite lookup_insert_ne. }
  split; [reflexivity|].
  assert (Hcons' : is_Some (EntityManager.construct now' type id data')).
  { revert Hcons. unfold EntityManager.construct.
    repeat (destruct (String.eqb type _); [by eexists|]). discriminate. }
  destruct Hcons' as [entity' ->]. rewrite Hrecords1. by eexists _, _.
Qed.

Lemma deleteEntity_after_create_witness :
  exists em2,
    EntityManager.deleteEntity Sample.with_alice Constants.NPC (Js.VStr "alice")
    = (em2, Js.Normal true) /\
    EntityManager.getEntity em2 Constants.NPC (Js.VStr "alice") = Js.Normal None /\
    (forall type' id',
       (type', Js.to_string id') <> (Constants.NPC, Js.to_string (Js.VStr "alice")) ->
       EntityManager.getEntity em2 type' id'
       = EntityManager.getEntity EntityManager.new type' id') /\
    EntityManager.creationHistory em2 = EntityManager.creationHistory Sample.with_alice /\
    exists em3 entity',
      EntityManager.createEntity "t2" em2 Constants.NPC (Js.VStr "alice") Sample.bob
      = (em3, Js.Normal entity').
Proof.
  apply (deleteEntity_after_create "t0" EntityManager.new Constants.NPC (Js.VStr "alice")
           Sample.alice Sample.with_alice
           (DataStructures.NPC "t0" (Js.VStr "alice") Sample.alice) "t2" Sample.bob).
  vm_compute. reflexivity.
Defined.









(** ** The core graph: the analysis of an entity's network *)

Lemma tally_counts l : forall t,
  let t' := fold_left RelationshipGraph.tally_step l t in
  RelationshipGraph.t_allies t'
  = (RelationshipGraph.t_allies t +
     length (List.filter (fun entry : string * RelationshipGraph.Relationship =>
                            String.eqb (RelationshipGraph.type (snd entry)) "ally") l))%nat /\
  RelationshipGraph.t_enemies t'
  = (RelationshipGraph.t_enemies t +
     length (List.filter (fun entry : string * RelationshipGraph.Relationship =>
                            String.eqb (RelationshipGraph.type (snd entry)) "enemy") l))%nat /\
  (RelationshipGraph.t_allies t' + RelationshipGraph.t_enemies t'
   + RelationshipGraph.t_neutral t'
   = RelationshipGraph.t_allies t + RelationshipGraph.t_enemies t
     + RelationshipGraph.t_neutral t + length l)%nat.
Proof.
  induction l as [|entry rest IH]; intros t; cbv zeta; [cbn; lia|].
  cbn [fold_left List.filter].
  destruct (IH (RelationshipGraph.tally_step t entry)) as (-> & -> & ->).
  unfold RelationshipGraph.tally_step at 1 2 3 4 5.
  cbn [RelationshipGraph.t_allies RelationshipGraph.t_enemies RelationshipGraph.t_neutral].
  destruct (String.eqb (RelationshipGraph.type (snd entry)) "ally") eqn:Ea.
  - apply String.eqb_eq in Ea. rewrite Ea. cbn [String.eqb Ascii.eqb Bool.eqb length]. cbn. lia.
  - destruct (String.eqb (RelationshipGraph.type (snd entry)) "enemy"); cbn [length]; lia.
Qed.

Lemma filter_and_length {A} (p q : A -> bool) (l : list A) :
  (length (List.filter (fun x => p x && q x) l) <= length (List.filter p l))%nat.
Proof.
  induction l as [|x l IH]; [done|]. cbn [List.filter].
  destruct (p x), (q x); cbn [andb length]; lia.
Qed.

(** In the analysis of an entity's network every direct connection is
    counted once, as an ally, an enemy or a neutral one; the allies and
    enemies that [findAllies] and [findEnemies] return, whatever the
    threshold, are among those counted; and the influence lies between
    minus the number of connections and twice that number. *)
Theorem analyzeRelationshipNetwork_counts g entityId :
  (RelationshipGraph.allies (RelationshipGraph.analyzeRelationshipNetwork g entityId)
   + RelationshipGraph.enemies (RelationshipGraph.analyzeRelationshipNetwork g entityId)
   + RelationshipGraph.neutral (RelationshipGraph.analyzeRelationshipNetwork g entityId)
   = RelationshipGraph.directConnections
       (RelationshipGraph.analyzeRelationshipNetwork g entityId))%nat /\
  (forall minimumStrength,
     length (RelationshipGraph.findAllies g entityId minimumStrength)
     <= RelationshipGraph.allies (RelationshipGraph.analyzeRelationshipNetwork g entityId))%nat /\
  (forall minimumHostility,
     length (RelationshipGraph.findEnemies g entityId minimumHostility)
     <= RelationshipGraph.enemies (RelationshipGraph.analyzeRelationshipNetwork g entityId))%nat /\
  - Z.of_nat (RelationshipGraph.directConnections
                (RelationshipGraph.analyzeRelationshipNetwork g entityId))
  <= RelationshipGraph.networkInfluence
       (RelationshipGraph.analyzeRelationshipNetwork g entityId)
  <= 2 * Z.of_nat (RelationshipGraph.directConnections
                     (RelationshipGraph.analyzeRelationshipNetwork g entityId)).
Proof.
  unfold RelationshipGraph.analyzeRelationshipNetwork, RelationshipGraph.findAllies,
    RelationshipGraph.findEnemies.
  destruct (Js.Map_get (RelationshipGraph.relationships g) entityId) as [targets|];
    [|cbn; split_and!; intros; lia].
  cbn [RelationshipGraph.allies RelationshipGraph.enemies RelationshipGraph.neutral
       RelationshipGraph.directConnections RelationshipGraph.networkInfluence].
  destruct (tally_counts targets RelationshipGraph.tally_start) as (Ha & He & Hsum).
  cbn [RelationshipGraph.tally_start RelationshipGraph.t_allies RelationshipGraph.t_enemies
       RelationshipGraph.t_neutral] in Ha, He, Hsum.
  split_and!.
  - lia.
  - intros m. rewrite Ha.
    apply (filter_and_length
             (fun entry : string * RelationshipGraph.Relationship =>
                String.eqb (RelationshipGraph.type (snd entry)) "ally")
             (fun entry => (m <=? RelationshipGraph.strength (snd entry))%Z)).
  - intros m. rewrite He.
    apply (filter_and_length
             (fun entry : string * RelationshipGraph.Relationship =>
                String.eqb (RelationshipGraph.type (snd entry)) "enemy")
             (fun entry => (m <=? RelationshipGraph.strength (snd entry))%Z)).
  - lia.
  - lia.
Qed.


Section RunningMaximum.
Context {A : Type} (weight : A -> Z) (counts : A -> bool) (name : A -> string).

(** The shape of both searches of the loop: an entry takes the lead when
    it counts and its weight exceeds the best so far, which starts at 0. *)
Let lead (best : Z * option string) (x : A) : Z * option string :=
  if ((fst best <? weight x)%Z && counts x)%bool then (weight x, Some (name x)) else best.

Lemma running_maximum (l : list A) : forall pre best,
  (0 <= fst best /\
   (forall x, x ∈ pre -> counts x = true -> weight x <= fst best) /\
   match snd best with
   | Some n => exists x, x ∈ pre /\ name x = n /\ counts x = true /\
                         weight x = fst best /\ 0 < fst best
   | None => fst best = 0
   end) ->
  let best' := fold_left lead l best in
  0 <= fst best' /\
  (forall x, x ∈ (pre ++ l)%list -> counts x = true -> weight x <= fst best') /\
  match snd best' with
  | Some n => exists x, x ∈ (pre ++ l)%list /\ name x = n /\ counts x = true /\
                        weight x = fst best' /\ 0 < fst best'
  | None => fst best' = 0
  end.
Proof.
  induction l as [|y rest IH]; intros pre best (H0 & Hmax & Hwho); cbv zeta.
  - rewrite app_nil_r. done.
  - cbn [fold_left].
    replace (pre ++ y :: rest)%list with ((pre ++ [y]) ++ rest)%list
      by (by rewrite <- app_assoc).
    apply IH. unfold lead.
    destruct (fst best <? weight y)%Z eqn:Elt; [apply Z.ltb_lt in Elt|apply Z.ltb_ge in Elt];
      (destruct (counts y) eqn:Ec; cbn [andb fst snd]).
    + split; [lia|]. split.
      * intros x Hx Hcx. apply elem_of_app in Hx as [Hx|Hx].
        -- specialize (Hmax x Hx Hcx). lia.
        -- apply list_elem_of_singleton in Hx. subst x. lia.
      * exists y. split_and!; try done; [|lia].
        apply elem_of_app. right. by apply list_elem_of_singleton.
    + split; [done|]. split.
      * intros x Hx Hcx. apply elem_of_app in Hx as [Hx|Hx]; [by apply Hmax|].
        apply list_elem_of_singleton in Hx. subst x. congruence.
      * destruct (snd best) as [n|]; [|done].
        destruct Hwho as (x & Hx & Hrest). exists x. split; [|done].
        apply elem_of_app. by left.
    + split; [done|]. split.
      * intros x Hx Hcx. apply elem_of_app in Hx as [Hx|Hx]; [by apply Hmax|].
        apply list_elem_of_singleton in Hx. subst x. lia.
      * destruct (snd best) as [n|]; [|done].
        destruct Hwho as (x & Hx & Hrest). exists x. split; [|done].
        apply elem_of_app. by left.
    + split; [done|]. split.
      * intros x Hx Hcx. apply elem_of_app in Hx as [Hx|Hx]; [by apply Hmax|].
        apply list_elem_of_singleton in Hx. subst x. congruence.
      * destruct (snd best) as [n|]; [|done].
        destruct Hwho as (x & Hx & Hrest). exists x. split; [|done].
        apply elem_of_app. by left.
Qed.

Lemma running_maximum_from_start (l : list A) :
  let best' := fold_left lead l (0, None) in
  (forall x, x ∈ l -> counts x = true -> weight x <= fst best') /\
  match snd best' with
  | Some n => exists x, x ∈ l /\ name x = n /\ counts x = true /\
                        weight x = fst best' /\ 0 < fst best'
  | None => fst best' = 0
  end.
Proof.
  destruct (running_maximum l [] (0, None)) as (_ & Hmax & Hwho).
  { cbn. split; [lia|]. split; [|done]. intros x Hx. by apply elem_of_nil in Hx. }
  done.
Qed.

End RunningMaximum.

Lemma tally_trust l : forall t,
  (RelationshipGraph.maxTrust (fold_left RelationshipGraph.tally_step l t),
   RelationshipGraph.t_mostTrusted (fold_left RelationshipGraph.tally_step l t))
  = fold_left
      (fun (best : Z * option string) (x : string * RelationshipGraph.Relationship) =>
         if ((fst best <? RelationshipGraph.strength (snd x))%Z
             && String.eqb (RelationshipGraph.type (snd x)) "ally")%bool
         then (RelationshipGraph.strength (snd x), Some (fst x)) else best)
      l (RelationshipGraph.maxTrust t, RelationshipGraph.t_mostTrusted t).
Proof.
  induction l as [|entry rest IH]; intros t; [done|].
  cbn [fold_left]. rewrite IH. f_equal.
  unfold RelationshipGraph.tally_step.
  cbn [RelationshipGraph.maxTrust RelationshipGraph.t_mostTrusted fst snd].
  by destruct (_ && _)%bool.
Qed.

Lemma tally_fear l : forall t,
  (RelationshipGraph.maxFear (fold_left RelationshipGraph.tally_step l t),
   RelationshipGraph.t_mostFeared (fold_left RelationshipGraph.tally_step l t))
  = fold_left
      (fun (best : Z * option string) (x : string * RelationshipGraph.Relationship) =>
         if ((fst best <? RelationshipGraph.strength (snd x))%Z
             && String.eqb (RelationshipGraph.type (snd x)) "enemy")%bool
         then (RelationshipGraph.strength (snd x), Some (fst x)) else best)
      l (RelationshipGraph.maxFear t, RelationshipGraph.t_mostFeared t).
Proof.
  induction l as [|entry rest IH]; intros t; [done|].
  cbn [fold_left]. rewrite IH. f_equal.
  unfold RelationshipGraph.tally_step.
  cbn [RelationshipGraph.maxFear RelationshipGraph.t_mostFeared fst snd].
  by destruct (_ && _)%bool.
Qed.

(** [mostTrusted] names an ally of positive strength that no ally of the
    entity exceeds, and is [null] exactly when no ally has a positive
    strength; likewise [mostFeared] among the enemies. *)
Theorem analyzeRelationshipNetwork_most_trusted_and_feared g entityId targets :
  Js.Map_get (RelationshipGraph.relationships g) entityId = Some targets ->
  match RelationshipGraph.mostTrusted
          (RelationshipGraph.analyzeRelationshipNetwork g entityId) with
  | Some targetId =>
      exists r, (targetId, r) ∈ targets /\ RelationshipGraph.type r = "ally" /\
                0 < RelationshipGraph.strength r /\
                forall t' r', (t', r') ∈ targets -> RelationshipGraph.type r' = "ally" ->
                              RelationshipGraph.strength r' <= RelationshipGraph.strength r
  | None =>
      forall t' r', (t', r') ∈ targets -> RelationshipGraph.type r' = "ally" ->
                    RelationshipGraph.strength r' <= 0
  end /\
  match RelationshipGraph.mostFeared
          (RelationshipGraph.analyzeRelationshipNetwork g entityId) with
  | Some targetId =>
      exists r, (targetId, r) ∈ targets /\ RelationshipGraph.type r = "enemy" /\
                0 < RelationshipGraph.strength r /\
                forall t' r', (t', r') ∈ targets -> RelationshipGraph.type r' = "enemy" ->
                              RelationshipGraph.strength r' <= RelationshipGraph.strength r
  | None =>
      forall t' r', (t', r') ∈ targets -> RelationshipGraph.type r' = "enemy" ->
                    RelationshipGraph.strength r' <= 0
  end.
Proof.
  intros Htargets. unfold RelationshipGraph.analyzeRelationshipNetwork. rewrite Htargets.
  cbn [RelationshipGraph.mostTrusted RelationshipGraph.mostFeared].
  split.
  - pose proof (tally_trust targets RelationshipGraph.tally_start) as Hfold.
    pose proof (running_maximum_from_start
                  (fun x : string * RelationshipGraph.Relationship =>
                     RelationshipGraph.strength (snd x))
                  (fun x => String.eqb (RelationshipGraph.type (snd x)) "ally")
                  fst targets) as Hmax.
    cbv beta zeta in Hmax.
    cbn [RelationshipGraph.tally_start RelationshipGraph.maxTrust
         RelationshipGraph.t_mostTrusted] in Hfold.
    rewrite <- Hfold in Hmax. cbn [fst snd] in Hmax. destruct Hmax as [Hmax Hwho].
    destruct (RelationshipGraph.t_mostTrusted _) as [targetId|].
    + destruct Hwho as ([t r] & Hin & Hname & Hally & Hweight & Hpos).
      cbn [fst snd] in *. subst t. apply String.eqb_eq in Hally.
      exists r. split_and!; [done | done | lia |].
      intros t' r' Hin' Hally'. rewrite Hweight.
      apply (Hmax (t', r') Hin'). cbn [snd]. by apply String.eqb_eq.
    + intros t' r' Hin' Hally'. rewrite <- Hwho.
      apply (Hmax (t', r') Hin'). cbn [snd]. by apply String.eqb_eq.
  - pose proof (tally_fear targets RelationshipGraph.tally_start) as Hfold.
    pose proof (running_maximum_from_start
                  (fun x : string * RelationshipGraph.Relationship =>
                     RelationshipGraph.strength (snd x))
                  (fun x => String.eqb (RelationshipGraph.type (snd x)) "enemy")
                  fst targets) as Hmax.
    cbv beta zeta in Hmax.
    cbn [RelationshipGraph.tally_start RelationshipGraph.maxFear
         RelationshipGraph.t_mostFeared] in Hfold.
    rewrite <- Hfold in Hmax. cbn [fst snd] in Hmax. destruct Hmax as [Hmax Hwho].
    destruct (RelationshipGraph.t_mostFeared _) as [targetId|].
    + destruct Hwho as ([t r] & Hin & Hname & Henemy & Hweight & Hpos).
      cbn [fst snd] in *. subst t. apply String.eqb_eq in Henemy.
      exists r. split_and!; [done | done | lia |].
      intros t' r' Hin' Henemy'. rewrite Hweight.
      apply (Hmax (t', r') Hin'). cbn [snd]. by apply String.eqb_eq.
    + intros t' r' Hin' Henemy'. rewrite <- Hwho.
      apply (Hmax (t', r') Hin'). cbn [snd]. by apply String.eqb_eq.
Qed.


Lemma analyzeRelationshipNetwork_most_trusted_witness :
  match RelationshipGraph.mostTrusted
          (RelationshipGraph.analyzeRelationshipNetwork Sample.common_friend "npc1") with
  | Some targetId =>
      exists r,
        (targetId, r) ∈ [("npc3", snd (RelationshipGraph.setRelationship "t1"
                                         RelationshipGraph.new "npc1" "npc3"
                                         (Sample.edge "ally" 80)))] /\
        RelationshipGraph.type r = "ally" /\
        0 < RelationshipGraph.strength r /\
        forall t' r',
          (t', r') ∈ [("npc3", snd (RelationshipGraph.setRelationship "t1"
                                      RelationshipGraph.new "npc1" "npc3"
                                      (Sample.edge "ally" 80)))] ->
          RelationshipGraph.type r' = "ally" ->
          RelationshipGraph.strength r' <= RelationshipGraph.strength r
  | None =>
      forall t' r',
        (t', r') ∈ [("npc3", snd (RelationshipGraph.setRelationship "t1"
                                    RelationshipGraph.new "npc1" "npc3"
                                    (Sample.edge "ally" 80)))] ->
        RelationshipGraph.type r' = "ally" ->
        RelationshipGraph.strength r' <= 0
  end /\
  match RelationshipGraph.mostFeared
          (RelationshipGraph.analyzeRelationshipNetwork Sample.common_friend "npc1") with
  | Some targetId =>
      exists r,
        (targetId, r) ∈ [("npc3", snd (RelationshipGraph.setRelationship "t1"
                                         RelationshipGraph.new "npc1" "npc3"
                                         (Sample.edge "ally" 80)))] /\
        RelationshipGraph.type r = "enemy" /\
        0 < RelationshipGraph.strength r /\
        forall t' r',
          (t', r') ∈ [("npc3", snd (RelationshipGraph.setRelationship "t1"
                                      RelationshipGraph.new "npc1" "npc3"
                                      (Sample.edge "ally" 80)))] ->
          RelationshipGraph.type r' = "enemy" ->
          RelationshipGraph.strength r' <= RelationshipGraph.strength r
  | None =>
      forall t' r',
        (t', r') ∈ [("npc3", snd (RelationshipGraph.setRelationship "t1"
                                    RelationshipGraph.new "npc1" "npc3"
                                    (Sample.edge "ally" 80)))] ->
        RelationshipGraph.type r' = "enemy" ->
        RelationshipGraph.strength r' <= 0
  end.
Proof.
  apply (analyzeRelationshipNetwork_most_trusted_and_feared Sample.common_friend "npc1").
  reflexivity.
Defined.

(** ** The core graph: updates, and what a write leaves alone *)

Lemma core_update_frame now g a b c a' b' :
  (a', b') <> (a, b) ->
  RelationshipGraph.getRelationship
    (fst (RelationshipGraph.updateRelationship now g a b c)) a' b'
  = RelationshipGraph.getRelationship g a' b'.
Proof.
  intros Hne. unfold RelationshipGraph.updateRelationship.
  destruct (Js.Map_get (RelationshipGraph.relationships g) a) as [targets|] eqn:Ea; [|done].
  destruct (Js.Map_get targets b) as [r|] eqn:Eb; [|done].
  unfold RelationshipGraph.getRelationship. cbn [fst RelationshipGraph.relationships].
  destruct (decide (a = a')) as [<-|Ha].
  - assert (Hb : b <> b') by (intros <-; by apply Hne).
    rewrite Map_get_set_eq, Ea. by apply Map_get_set_ne.
  - by rewrite Map_get_set_ne.
Qed.

(** A write of the core graph, [setRelationship] or [updateRelationship],
    touches the directed edge it names and no other: every other edge,
    the reverse one included, reads as before, and so does every player
    standing. *)
Theorem core_writes_touch_one_directed_edge now g a b d c a' b' :
  (a', b') <> (a, b) ->
  RelationshipGraph.getRelationship
    (fst (RelationshipGraph.setRelationship now g a b d)) a' b'
  = RelationshipGraph.getRelationship g a' b' /\
  RelationshipGraph.getRelationship
    (fst (RelationshipGraph.updateRelationship now g a b c)) a' b'
  = RelationshipGraph.getRelationship g a' b' /\
  RelationshipGraph.playerStandings (fst (RelationshipGraph.setRelationship now g a b d))
  = RelationshipGraph.playerStandings g /\
  RelationshipGraph.playerStandings (fst (RelationshipGraph.updateRelationship now g a b c))
  = RelationshipGraph.playerStandings g.
Proof.
  intros Hne. split_and!.
  - by apply core_set_frame.
  - by apply core_update_frame.
  - reflexivity.
  - unfold RelationshipGraph.updateRelationship.
    destruct (Js.Map_get (RelationshipGraph.relationships g) a) as [targets|]; [|done].
    by destruct (Js.Map_get targets b).
Qed.

(** The edge npc1 -> npc2 is written; npc2 -> npc1 is not. *)
Lemma core_writes_touch_one_directed_edge_witness :
  RelationshipGraph.getRelationship
    (fst (RelationshipGraph.setRelationship "t3" Sample.common_friend "npc1" "npc2"
            (Sample.edge "ally" 70))) "npc2" "npc1"
  = RelationshipGraph.getRelationship Sample.common_friend "npc2" "npc1" /\
  RelationshipGraph.getRelationship
    (fst (RelationshipGraph.updateRelationship "t3" Sample.common_friend "npc1" "npc2"
            (Sample.strength_change 10))) "npc2" "npc1"
  = RelationshipGraph.getRelationship Sample.common_friend "npc2" "npc1" /\
  RelationshipGraph.playerStandings
    (fst (RelationshipGraph.setRelationship "t3" Sample.common_friend "npc1" "npc2"
            (Sample.edge "ally" 70)))
  = RelationshipGraph.playerStandings Sample.common_friend /\
  RelationshipGraph.playerStandings
    (fst (RelationshipGraph.updateRelationship "t3" Sample.common_friend "npc1" "npc2"
            (Sample.strength_change 10)))
  = RelationshipGraph.playerStandings Sample.common_friend.
Proof.
  apply (core_writes_touch_one_directed_edge "t3" Sample.common_friend "npc1" "npc2"
           (Sample.edge "ally" 70) (Sample.strength_change 10) "npc2" "npc1").
  discriminate.
Defined.

(** [updateRelationship] on an edge that is not stored throws and leaves
    the graph as it was.  On a stored edge it returns the edge as it is
    stored afterwards: the fields named by [changes] replaced (a strength
    is taken as given, whatever its value), the others kept, one entry
    added to the edge's history that holds the changes and the state
    before them, and one 'updated' entry added to the ledger. *)
Theorem updateRelationship_missing_or_recorded now g a b c :
  match RelationshipGraph.getRelationship g a b with
  | None =>
      RelationshipGraph.updateRelationship now g a b c
      = (g, Js.Throw (Js.Error ("Relationship between " ++ a ++ " and " ++ b
                                ++ " does not exist")))
  | Some r =>
      exists g' r',
        RelationshipGraph.updateRelationship now g a b c = (g', Js.Normal r') /\
        RelationshipGraph.getRelationship g' a b = Some r' /\
        RelationshipGraph.type r'
        = Js.or_ref (RelationshipGraph.chg_type c) (RelationshipGraph.type r) /\
        RelationshipGraph.strength r'
        = Js.or_ref (RelationshipGraph.chg_strength c) (RelationshipGraph.strength r) /\
        RelationshipGraph.reason r'
        = Js.or_ref (RelationshipGraph.chg_reason c) (RelationshipGraph.reason r) /\
        RelationshipGraph.lastModified r' = now /\
        RelationshipGraph.history r'
        = (RelationshipGraph.history r ++
           [ {| RelationshipGraph.change := c;
                RelationshipGraph.previousState := RelationshipGraph.snapshot r;
                RelationshipGraph.h_timestamp := now |} ])%list /\
        RelationshipGraph.relationshipHistory g'
        = (RelationshipGraph.relationshipHistory g ++
           [ {| RelationshipGraph.entity1 := a; RelationshipGraph.entity2 := b;
                RelationshipGraph.action := "updated";
                RelationshipGraph.relationship := None;
                RelationshipGraph.changes := Some c;
                RelationshipGraph.l_timestamp := now |} ])%list
  end.
Proof.
  unfold RelationshipGraph.getRelationship, RelationshipGraph.updateRelationship.
  destruct (Js.Map_get (RelationshipGraph.relationships g) a) as [targets|] eqn:Ea;
    [|reflexivity].
  destruct (Js.Map_get targets b) as [r|] eqn:Eb; [|reflexivity].
  eexists _, _. split; [reflexivity|].
  cbn [RelationshipGraph.relationships]. rewrite !Map_get_set_eq.
  split_and!; reflexivity.
Qed.


(** ** The core graph: the player's standing *)

Lemma length_slice_last {A} (n : nat) (l : list A) :
  length (Js.slice_last n l) = Nat.min n (length l).
Proof. unfold Js.slice_last. rewrite length_skipn. lia. Qed.

Lemma updatePlayerStanding_step now g entityId n why :
  exists history,
    RelationshipGraph.getPlayerStanding
      (fst (RelationshipGraph.updatePlayerStanding now g entityId n why)) entityId
    = ((RelationshipGraph.getPlayerStanding g entityId).1.1 + n, history,
       Some {| RelationshipGraph.amount := n; RelationshipGraph.sc_reason := why;
               RelationshipGraph.sc_timestamp := now;
               RelationshipGraph.previousValue :=
                 (RelationshipGraph.getPlayerStanding g entityId).1.1 |}) /\
    (length history <= 50)%nat /\
    last history
    = Some {| RelationshipGraph.amount := n; RelationshipGraph.sc_reason := why;
              RelationshipGraph.sc_timestamp := now;
              RelationshipGraph.previousValue :=
                (RelationshipGraph.getPlayerStanding g entityId).1.1 |}.
Proof.
  unfold RelationshipGraph.updatePlayerStanding, RelationshipGraph.getPlayerStanding,
    Js.Map_has.
  destruct (Js.Map_get (RelationshipGraph.playerStandings g) entityId) as [standing|] eqn:E.
  - rewrite E. cbn [fst snd Js.or_ref RelationshipGraph.playerStandings
                    RelationshipGraph.value RelationshipGraph.s_history
                    RelationshipGraph.lastChange].
    rewrite Map_get_set_eq.
    cbn [RelationshipGraph.value RelationshipGraph.s_history RelationshipGraph.lastChange].
    eexists. split; [reflexivity|].
    destruct (50 <? length _)%nat eqn:Elen.
    + split; [rewrite length_slice_last; lia|].
      rewrite last_slice_last by lia. apply last_snoc.
    + apply Nat.ltb_ge in Elen. split; [exact Elen | apply last_snoc].
  - cbn [RelationshipGraph.setPlayerStanding RelationshipGraph.playerStandings
         fst snd Js.or_num Js.or_ref Js.or_str].
    rewrite !Map_get_set_eq. cbn.
    eexists. split; [reflexivity|]. split; [cbn; lia | reflexivity].
Qed.

Lemma updatePlayerStanding_frame now g entityId n why :
  RelationshipGraph.relationships
    (fst (RelationshipGraph.updatePlayerStanding now g entityId n why))
  = RelationshipGraph.relationships g /\
  forall other, other <> entityId ->
    RelationshipGraph.getPlayerStanding
      (fst (RelationshipGraph.updatePlayerStanding now g entityId n why)) other
    = RelationshipGraph.getPlayerStanding g other.
Proof.
  unfold RelationshipGraph.updatePlayerStanding, RelationshipGraph.getPlayerStanding,
    Js.Map_has.
  destruct (Js.Map_get (RelationshipGraph.playerStandings g) entityId) as [standing|] eqn:E;
    cbn [fst RelationshipGraph.relationships RelationshipGraph.playerStandings
         RelationshipGraph.setPlayerStanding].
  - split; [reflexivity|]. intros other Hne. by rewrite Map_get_set_ne.
  - split; [reflexivity|]. intros other Hne. by rewrite !Map_get_set_ne.
Qed.

(** A run of [updatePlayerStanding] calls for one entity, each with its
    time, amount and reason: the standing ends at the value it had (0 if
    it was not stored) plus the sum of the amounts, with no bound applied;
    once a call was made the kept history has at most 50 entries; the
    edges and the standings of other entities are as they were. *)
Theorem updatePlayerStanding_accumulates g entityId (calls : list (string * Z * string)) :
  let after :=
    fold_left
      (fun g call =>
         fst (RelationshipGraph.updatePlayerStanding (fst (fst call)) g entityId
                (snd (fst call)) (snd call)))
      calls g in
  (RelationshipGraph.getPlayerStanding after entityId).1.1
  = (RelationshipGraph.getPlayerStanding g entityId).1.1
    + foldr Z.add 0 (List.map (fun call : string * Z * string => snd (fst call)) calls) /\
  (calls <> [] ->
   (length (RelationshipGraph.getPlayerStanding after entityId).1.2 <= 50)%nat) /\
  RelationshipGraph.relationships after = RelationshipGraph.relationships g /\
  forall other, other <> entityId ->
    RelationshipGraph.getPlayerStanding after other
    = RelationshipGraph.getPlayerStanding g other.
Proof.
  cbv zeta. revert g.
  induction calls as [|call rest IH] using rev_ind; intros g.
  - cbn. split_and!; [lia | done | done | done].
  - rewrite fold_left_app. cbn [fold_left].
    set (before := fold_left _ rest g).
    destruct (IH g) as (Hvalue & _ & Hrels & Hothers). fold before in Hvalue, Hrels, Hothers.
    destruct (updatePlayerStanding_step (fst (fst call)) before entityId
                (snd (fst call)) (snd call)) as (history & -> & Hlen & _).
    destruct (updatePlayerStanding_frame (fst (fst call)) before entityId
                (snd (fst call)) (snd call)) as (Hrels' & Hothers').
    cbn [fst snd]. split_and!.
    + rewrite Hvalue, map_app, foldr_app. cbn [List.map foldr].
      generalize (List.map (fun call0 : string * Z * string => snd (fst call0)) rest).
      intros amounts. induction amounts as [|x amounts IHa]; cbn [foldr]; lia.
    + intros _. exact Hlen.
    + by rewrite Hrels'.
    + intros other Hne. rewrite Hothers' by done. by apply Hothers.
Qed.


(** ** The core graph: the range of the computed strength *)

Lemma Map_get_Some_in {V} (l : Js.JsMap V) k v : Js.Map_get l k = Some v -> (k, v) ∈ l.
Proof.
  induction l as [|[k' v'] rest IH]; [discriminate|].
  cbn [Js.Map_get]. destruct (String.eqb k' k) eqn:E.
  - apply String.eqb_eq in E. subst k'. intros [= ->]. left.
  - intros H. right. by apply IH.
Qed.

Lemma two_hop_term_bounds s1 s2 :
  0 <= s1 <= 100 -> 0 <= s2 <= 100 ->
  (0 <= inject_Z s1 * inject_Z s2 / inject_Z 100)%Q /\
  (inject_Z s1 * inject_Z s2 / inject_Z 100 <= inject_Z 100)%Q.
Proof.
  intros H1 H2. unfold Qle, Qdiv, Qmult, Qinv, inject_Z. cbn. split; nia.
Qed.

Lemma two_hop_fold_bounds g b l : forall acc,
  (forall entry, entry ∈ l -> 0 <= RelationshipGraph.strength (snd entry) <= 100) ->
  (forall x r2, RelationshipGraph.getRelationship g x b = Some r2 ->
                0 <= RelationshipGraph.strength r2 <= 100) ->
  (0 <= fst acc)%Q /\ (fst acc <= inject_Z (100 * Z.of_nat (snd acc)))%Q ->
  (0 <= fst (fold_left (RelationshipGraph.two_hop_step g b) l acc))%Q /\
  (fst (fold_left (RelationshipGraph.two_hop_step g b) l acc)
   <= inject_Z (100 * Z.of_nat (snd (fold_left (RelationshipGraph.two_hop_step g b) l acc))))%Q.
Proof.
  induction l as [|entry rest IH]; intros acc Hl Hg Hacc; [exact Hacc|].
  cbn [fold_left]. apply IH.
  - intros e He. apply Hl. by right.
  - exact Hg.
  - unfold RelationshipGraph.two_hop_step.
    destruct (RelationshipGraph.getRelationship g (fst entry) b) as [r2|] eqn:E;
      [|exact Hacc].
    cbn [fst snd]. destruct Hacc as [H0 H100].
    destruct (two_hop_term_bounds (RelationshipGraph.strength (snd entry))
                (RelationshipGraph.strength r2)) as [Ht0 Ht100].
    { apply Hl. left. }
    { by apply (Hg (fst entry)). }
    split.
    + rewrite <- (Qplus_0_r 0). by apply Qplus_le_compat.
    + eapply Qle_trans; [apply Qplus_le_compat; eassumption|].
      rewrite <- inject_Z_plus. rewrite <- Zle_Qle. lia.
Qed.

(** When every stored strength lies between 0 and 100, so does the
    strength [calculateRelationshipStrength] computes, direct or through
    common connections. *)
Theorem calculateRelationshipStrength_within_bounds g a b :
  (forall x targets y r,
     (x, targets) ∈ RelationshipGraph.relationships g -> (y, r) ∈ targets ->
     0 <= RelationshipGraph.strength r <= 100) ->
  (0 <= RelationshipGraph.calculateRelationshipStrength g a b)%Q /\
  (RelationshipGraph.calculateRelationshipStrength g a b <= 100)%Q.
Proof.
  intros Hall.
  assert (Hget : forall x y r, RelationshipGraph.getRelationship g x y = Some r ->
                               0 <= RelationshipGraph.strength r <= 100).
  { intros x y r. unfold RelationshipGraph.getRelationship.
    destruct (Js.Map_get (RelationshipGraph.relationships g) x) as [targets|] eqn:Ex;
      [|discriminate].
    intros Hy. apply (Hall x targets y r); by apply Map_get_Some_in. }
  unfold RelationshipGraph.calculateRelationshipStrength.
  destruct (RelationshipGraph.getRelationship g a b) as [direct|] eqn:Ed.
  { specialize (Hget a b direct Ed). unfold Qle, inject_Z. cbn. lia. }
  destruct (Js.Map_get (RelationshipGraph.relationships g) a) as [targets|] eqn:Ea;
    [|cbn; split; unfold Qle; cbn; lia].
  destruct (two_hop_fold_bounds g b targets (0%Q, 0%nat)) as [H0 H100].
  { intros [y r] Hin. apply (Hall a targets y r); [by apply Map_get_Some_in | done]. }
  { intros x r2. apply Hget. }
  { cbn. split; unfold Qle; cbn; lia. }
  destruct (fold_left _ targets _) as [total count]. cbn [fst snd] in *.
  destruct (0 <? count)%nat eqn:Ec; [|split; unfold Qle; cbn; lia].
  apply Nat.ltb_lt in Ec.
  assert (Hpos : (0 < inject_Z (Z.of_nat count))%Q).
  { unfold Qlt, inject_Z. cbn. lia. }
  split.
  - apply Qle_shift_div_l; [exact Hpos|]. by rewrite Qmult_0_l.
  - apply Qle_shift_div_r; [exact Hpos|].
    eapply Qle_trans; [exact H100|]. rewrite inject_Z_mult. apply Qle_refl.
Qed.

Lemma calculateRelationshipStrength_within_bounds_witness :
  (0 <= RelationshipGraph.calculateRelationshipStrength Sample.common_friend "npc1" "npc2")%Q /\
  (RelationshipGraph.calculateRelationshipStrength Sample.common_friend "npc1" "npc2" <= 100)%Q.
Proof.
  apply (calculateRelationshipStrength_within_bounds Sample.common_friend "npc1" "npc2").
  intros x targets y r Hx Hy. vm_compute in Hx.
  repeat (apply elem_of_cons in Hx as [[= -> ->]|Hx];
          [repeat (apply elem_of_cons in Hy as [[= -> ->]|Hy]; [cbn; lia|]);
           by apply elem_of_nil in Hy|]).
  by apply elem_of_nil in Hx.
Defined.


(** ** The validating graph: acceptance, the ledger, the views *)

(** The validating [setRelationship] returns exactly when both ids are
    non-blank and differ, the type is one of the table's objects and the
    strength lies in 0..100; then the ledger holds at most 1000 entries.
    When it throws, the graph is as it was. *)
Theorem checked_setRelationship_accepts_iff now g a b d :
  ((exists r, snd (RelationshipGraphChecked.setRelationship now g a b d) = Js.Normal r) <->
   Js.blank a = false /\ Js.blank b = false /\ a <> b /\
   RelationshipGraphChecked.includes_type
     (Js.or_ref (RelationshipGraphChecked.data_type d)
        (RelationshipGraphChecked.TypeText "neutral")) = true /\
   0 <= Js.or_ref (RelationshipGraphChecked.data_strength d) 50 <= 100) /\
  match snd (RelationshipGraphChecked.setRelationship now g a b d) with
  | Js.Normal _ =>
      (length (RelationshipGraphChecked.relationshipHistory
                 (fst (RelationshipGraphChecked.setRelationship now g a b d))) <= 1000)%nat
  | Js.Throw _ => fst (RelationshipGraphChecked.setRelationship now g a b d) = g
  end.
Proof.
  unfold RelationshipGraphChecked.setRelationship.
  destruct (Js.blank a); [split; [split; [intros [? [=]] | intros (? & _); done] | done]|].
  destruct (Js.blank b);
    [split; [split; [intros [? [=]] | intros (_ & ? & _); done] | done]|].
  destruct (String.eqb a b) eqn:Hab.
  { apply String.eqb_eq in Hab.
    split; [split; [intros [? [=]] | intros (_ & _ & ? & _); done] | done]. }
  apply String.eqb_neq in Hab.
  destruct (RelationshipGraphChecked.includes_type _) eqn:Hty; cbn [negb];
    [|split; [split; [intros [? [=]] | intros (_ & _ & _ & ? & _); done] | done]].
  destruct (_ <? 0)%Z eqn:Hlo; cbn [orb].
  { apply Z.ltb_lt in Hlo.
    split; [split; [intros [? [=]] | intros (_ & _ & _ & _ & ?); lia] | done]. }
  apply Z.ltb_ge in Hlo.
  destruct (100 <? _)%Z eqn:Hhi.
  { apply Z.ltb_lt in Hhi.
    split; [split; [intros [? [=]] | intros (_ & _ & _ & _ & ?); lia] | done]. }
  apply Z.ltb_ge in Hhi. cbn [fst snd RelationshipGraphChecked.relationshipHistory].
  split; [split; [intros _; split_and!; done | intros _; by eexists]|].
  destruct (1000 <? length _)%nat eqn:Hlen.
  - rewrite length_slice_last. lia.
  - by apply Nat.ltb_ge in Hlen.
Qed.

Lemma last_filter {A} (p : A -> bool) (l : list A) x :
  last l = Some x -> p x = true -> last (List.filter p l) = Some x.
Proof.
  intros Hlast Hp. destruct l as [|y l] using rev_ind; [discriminate|].
  rewrite last_snoc in Hlast. injection Hlast as ->.
  rewrite List.filter_app. cbn [List.filter]. rewrite Hp. apply last_snoc.
Qed.

(** An accepted write between two entities is the latest entry of their
    common history, asked from either side, and of the history of each
    of them. *)
Theorem getRelationshipHistory_shows_write now g a b d g' r :
  RelationshipGraphChecked.setRelationship now g a b d = (g', Js.Normal r) ->
  exists entry,
    RelationshipGraphChecked.entity1 entry = a /\
    RelationshipGraphChecked.entity2 entry = b /\
    RelationshipGraphChecked.relationship entry = r /\
    last (RelationshipGraphChecked.getRelationshipHistory g' a (Some b)) = Some entry /\
    last (RelationshipGraphChecked.getRelationshipHistory g' b (Some a)) = Some entry /\
    last (RelationshipGraphChecked.getRelationshipHistory g' a None) = Some entry /\
    last (RelationshipGraphChecked.getRelationshipHistory g' b None) = Some entry.
Proof.
  intros Hset.
  assert (Hblank : Js.blank a = false /\ Js.blank b = false).
  { revert Hset. unfold RelationshipGraphChecked.setRelationship.
    destruct (Js.blank a); [discriminate|]. by destruct (Js.blank b). }
  destruct Hblank as [Ha Hb].
  assert (Hta : Js.truthy (Js.VStr a) = true).
  { destruct a; [discriminate Ha | reflexivity]. }
  assert (Htb : Js.truthy (Js.VStr b) = true).
  { destruct b; [discriminate Hb | reflexivity]. }
  destruct (checked_set_inv _ _ _ _ _ _ _ Hset) as (_ & _ & _ & _ & _ & _ & _ & Hlast).
  exists {| RelationshipGraphChecked.entity1 := a;
            RelationshipGraphChecked.entity2 := b;
            RelationshipGraphChecked.action :=
              match RelationshipGraphChecked.getRelationship g a b with
              | Some _ => "updated"
              | None => "established"
              end;
            RelationshipGraphChecked.relationship := r;
            RelationshipGraphChecked.l_timestamp := now |}.
  split_and!; [reflexivity | reflexivity | reflexivity | | | |];
    unfold RelationshipGraphChecked.getRelationshipHistory;
    rewrite ?Hta, ?Htb; apply last_filter with (1 := Hlast);
    cbn [RelationshipGraphChecked.entity1 RelationshipGraphChecked.entity2 Js.or_ref];
    rewrite !String.eqb_refl; cbn [andb orb]; try reflexivity;
    by rewrite orb_true_r.
Qed.


Lemma getRelationshipHistory_shows_write_witness :
  exists entry,
    RelationshipGraphChecked.entity1 entry = "npc1" /\
    RelationshipGraphChecked.entity2 entry = "npc2" /\
    RelationshipGraphChecked.relationship entry = Sample.trusted_70 /\
    last (RelationshipGraphChecked.getRelationshipHistory Sample.one_trusted_edge
            "npc1" (Some "npc2")) = Some entry /\
    last (RelationshipGraphChecked.getRelationshipHistory Sample.one_trusted_edge
            "npc2" (Some "npc1")) = Some entry /\
    last (RelationshipGraphChecked.getRelationshipHistory Sample.one_trusted_edge
            "npc1" None) = Some entry /\
    last (RelationshipGraphChecked.getRelationshipHistory Sample.one_trusted_edge
            "npc2" None) = Some entry.
Proof.
  apply (getRelationshipHistory_shows_write "t1" RelationshipGraphChecked.new
           "npc1" "npc2" (Sample.trust 70)).
  reflexivity.
Defined.

Lemma incoming_fold_lookup (entityId : string)
    (l : Js.JsMap (Js.JsMap RelationshipGraphChecked.Relationship)) :
  forall (o : gmap string RelationshipGraphChecked.Relationship) k,
  NoDup l.*1 ->
  fold_left
    (fun result (entry : string * Js.JsMap RelationshipGraphChecked.Relationship) =>
       match Js.Map_get (snd entry) entityId with
       | Some r => <[fst entry := r]> result
       | None => result
       end) l o !! k
  = match Js.Map_get l k with
    | Some targets =>
        match Js.Map_get targets entityId with
        | Some r => Some r
        | None => o !! k
        end
    | None => o !! k
    end.
Proof.
  induction l as [|[k' targets'] rest IH]; intros o k Hnd; [done|].
  rewrite fmap_cons in Hnd. apply NoDup_cons in Hnd as [Hfresh Hnd].
  cbn [fst] in Hfresh.
  cbn [fold_left Js.Map_get fst snd]. rewrite (IH _ _ Hnd).
  destruct (String.eqb k' k) eqn:E.
  - apply String.eqb_eq in E. subst k'.
    apply Map_get_None_keys in Hfresh. rewrite Hfresh.
    destruct (Js.Map_get targets' entityId); [apply lookup_insert_eq | done].
  - apply String.eqb_neq in E.
    destruct (Js.Map_get rest k) as [targets|].
    + destruct (Js.Map_get targets entityId); [done|].
      destruct (Js.Map_get targets' entityId); [by apply lookup_insert_ne | done].
    + destruct (Js.Map_get targets' entityId); [by apply lookup_insert_ne | done].
Qed.

(** [getEntityRelationships(E)] has a property for every entity linked
    to E in either direction.  When both directions are stored, the
    property holds the edge that reaches E, not the one that leaves it. *)
Theorem getEntityRelationships_incoming_first g entityId other :
  RelationshipGraphChecked.wf g ->
  RelationshipGraphChecked.getEntityRelationships g entityId !! other
  = match RelationshipGraphChecked.getRelationship g other entityId with
    | Some incoming => Some incoming
    | None => RelationshipGraphChecked.getRelationship g entityId other
    end.
Proof.
  intros [Hkeys Hinner].
  unfold RelationshipGraphChecked.getEntityRelationships,
    RelationshipGraphChecked.getRelationship.
  rewrite incoming_fold_lookup by exact Hkeys.
  assert (Hout :
    match Js.Map_get (RelationshipGraphChecked.relationships g) entityId with
    | Some targets =>
        fold_left (fun result (entry : string * RelationshipGraphChecked.Relationship) =>
                     <[fst entry := snd entry]> result) targets
                  (∅ : gmap string RelationshipGraphChecked.Relationship)
    | None => ∅
    end !! other
    = match Js.Map_get (RelationshipGraphChecked.relationships g) entityId with
      | Some targets => Js.Map_get targets other
      | None => None
      end).
  { destruct (Js.Map_get (RelationshipGraphChecked.relationships g) entityId)
      as [targets|] eqn:E; [|apply lookup_empty].
    rewrite fromEntries_fold_lookup.
    - rewrite lookup_empty. by destruct (Js.Map_get targets other).
    - apply Map_get_Some_in in E. rewrite Forall_forall in Hinner.
      exact (Hinner _ E). }
  rewrite Hout.
  destruct (Js.Map_get (RelationshipGraphChecked.relationships g) other) as [targets|];
    [|done].
  by destruct (Js.Map_get targets entityId).
Qed.


(** With npc1 -> npc2 at 70 and npc2 -> npc1 at 40, the view of npc1
    shows under npc2 the edge of strength 40. *)
Lemma getEntityRelationships_incoming_first_witness :
  RelationshipGraphChecked.getEntityRelationships Sample.mutual_trust "npc1" !! "npc2"
  = match RelationshipGraphChecked.getRelationship Sample.mutual_trust "npc2" "npc1" with
    | Some incoming => Some incoming
    | None => RelationshipGraphChecked.getRelationship Sample.mutual_trust "npc1" "npc2"
    end.
Proof.
  apply (getEntityRelationships_incoming_first Sample.mutual_trust "npc1" "npc2").
  split.
  - unfold Js.Map_wf. vm_compute. apply NoDup_cons. split; [|apply NoDup_singleton].
    intros Hmem. apply list_elem_of_singleton in Hmem. discriminate.
  - repeat constructor; unfold Js.Map_wf; cbn; try apply NoDup_nil_2;
      intros Hmem; by apply elem_of_nil in Hmem.
Defined.


(** ** The calendar of the world *)

Lemma month_known m :
  0 <= WorldState.indexOf WorldState.monthMap m ->
  WorldState.indexOf WorldState.monthMap m < 4 /\
  WorldState.at_index WorldState.monthMap (WorldState.indexOf WorldState.monthMap m) = Some m.
Proof.
  unfold WorldState.indexOf, WorldState.monthMap. cbn [WorldState.indexOf_from].
  repeat match goal with
         | |- context [String.eqb ?a m] =>
             let E := fresh "E" in
             destruct (String.eqb a m) eqn:E;
             [apply String.eqb_eq in E; subst m; intros _; split; [lia | reflexivity]
             |clear E]
         end.
  cbn. lia.
Qed.

Lemma month_at_index i :
  0 <= i < 4 ->
  exists m s,
    WorldState.at_index WorldState.monthMap i = Some m /\
    WorldState.at_index WorldState.seasonMap i = Some s /\
    WorldState.indexOf WorldState.monthMap m = i.
Proof.
  intros Hi.
  assert (Hcases : i = 0 \/ i = 1 \/ i = 2 \/ i = 3) by lia.
  destruct Hcases as [-> | [-> | [-> | ->]]]; eexists _, _; split_and!; reflexivity.
Qed.

Lemma month_turns n : forall i0 t0,
  0 <= i0 < 4 ->
  let after := Nat.iter n WorldState.month_turn (i0, t0) in
  0 <= fst after < 4 /\
  WorldState.year (snd after) * 4 + fst after
  = WorldState.year t0 * 4 + i0 + Z.of_nat n /\
  WorldState.day (snd after) = WorldState.day t0 /\
  WorldState.timeOfDay (snd after) = WorldState.timeOfDay t0 /\
  WorldState.weather (snd after) = WorldState.weather t0.
Proof.
  induction n as [|n IH]; intros i0 t0 Hi0; cbv zeta.
  - cbn. split_and!; try done; lia.
  - rewrite Nat.iter_succ. destruct (IH i0 t0 Hi0) as (Hi & Hsum & Hday & Htod & Hwe).
    destruct (Nat.iter n WorldState.month_turn (i0, t0)) as [i t]. cbn [fst snd] in *.
    unfold WorldState.month_turn. cbn [fst snd].
    change (Z.of_nat (length WorldState.monthMap)) with 4.
    destruct ((i + 1) mod 4 =? 0)%Z eqn:E;
      [apply Z.eqb_eq in E | apply Z.eqb_neq in E];
      cbn [WorldState.advanceYears WorldState.year WorldState.day WorldState.timeOfDay
           WorldState.weather]; split_and!; try done;
      Z.div_mod_to_equations; lia.
Qed.

Lemma advanceMonths_spec t months :
  0 <= WorldState.indexOf WorldState.monthMap (WorldState.month t) -> 0 <= months ->
  exists t',
    WorldState.advanceMonths t months = Some t' /\
    0 <= WorldState.indexOf WorldState.monthMap (WorldState.month t') /\
    WorldState.at_index WorldState.seasonMap
      (WorldState.indexOf WorldState.monthMap (WorldState.month t'))
    = Some (WorldState.season t') /\
    WorldState.year t' * 4 + WorldState.indexOf WorldState.monthMap (WorldState.month t')
    = WorldState.year t * 4 + WorldState.indexOf WorldState.monthMap (WorldState.month t)
      + months /\
    WorldState.day t' = WorldState.day t /\
    WorldState.timeOfDay t' = WorldState.timeOfDay t /\
    WorldState.weather t' = WorldState.weather t.
Proof.
  intros Hmonth Hmonths.
  destruct (month_known _ Hmonth) as [Hlt _].
  unfold WorldState.advanceMonths.
  destruct (month_turns (Z.to_nat months)
              (WorldState.indexOf WorldState.monthMap (WorldState.month t)) t
              ltac:(lia)) as (Hi & Hsum & Hday' & Htod' & Hwe').
  destruct (Nat.iter _ WorldState.month_turn _) as [i t1]. cbn [fst snd] in *.
  destruct (month_at_index i Hi) as (m & s & -> & Hs & Hidx). rewrite Hs.
  eexists. split; [reflexivity|].
  cbn [WorldState.timeOfDay WorldState.month WorldState.season WorldState.day
       WorldState.year WorldState.weather].
  rewrite Hidx. split_and!; try done; lia.
Qed.

(** [advanceMonths] by a whole number of months, zero or more, on a
    calendar whose month is one of the four: the months since year 0 grow
    by that number (a year has four months), the season is the one of the
    new month, and the day, the time of day and the weather stay. *)
Theorem advanceMonths_keeps_calendar t months :
  WorldState.calendar_ok t -> 0 <= months ->
  exists t',
    WorldState.advanceMonths t months = Some t' /\
    WorldState.calendar_ok t' /\
    WorldState.year t' * 4 + WorldState.indexOf WorldState.monthMap (WorldState.month t')
    = WorldState.year t * 4 + WorldState.indexOf WorldState.monthMap (WorldState.month t)
      + months /\
    WorldState.day t' = WorldState.day t /\
    WorldState.timeOfDay t' = WorldState.timeOfDay t /\
    WorldState.weather t' = WorldState.weather t.
Proof.
  intros (Htod & Hmonth & Hseason & Hday) Hmonths.
  destruct (advanceMonths_spec t months Hmonth Hmonths)
    as (t' & Heq & Hm' & Hs' & Hsum & Hd' & Htod' & Hwe').
  exists t'. unfold WorldState.calendar_ok. rewrite Htod', Hd'.
  split_and!; try done; lia.
Qed.

Lemma advanceMonths_keeps_calendar_witness :
  exists t',
    WorldState.advanceMonths (WorldState.temporal WorldState.new) 6 = Some t' /\
    WorldState.calendar_ok t' /\
    WorldState.year t' * 4 + WorldState.indexOf WorldState.monthMap (WorldState.month t')
    = WorldState.year (WorldState.temporal WorldState.new) * 4
      + WorldState.indexOf WorldState.monthMap
          (WorldState.month (WorldState.temporal WorldState.new))
      + 6 /\
    WorldState.day t' = WorldState.day (WorldState.temporal WorldState.new) /\
    WorldState.timeOfDay t' = WorldState.timeOfDay (WorldState.temporal WorldState.new) /\
    WorldState.weather t' = WorldState.weather (WorldState.temporal WorldState.new).
Proof.
  apply (advanceMonths_keeps_calendar (WorldState.temporal WorldState.new) 6).
  - unfold WorldState.calendar_ok. cbn. split_and!; [lia | lia | reflexivity | lia | lia].
  - lia.
Defined.

Lemma advanceDays_loop_spec fuel : forall t,
  0 <= WorldState.indexOf WorldState.monthMap (WorldState.month t) ->
  WorldState.at_index WorldState.seasonMap
    (WorldState.indexOf WorldState.monthMap (WorldState.month t))
  = Some (WorldState.season t) ->
  1 <= WorldState.day t <= 30 + 30 * Z.of_nat fuel ->
  exists t',
    WorldState.advanceDays_loop fuel t = Some t' /\
    0 <= WorldState.indexOf WorldState.monthMap (WorldState.month t') /\
    WorldState.at_index WorldState.seasonMap
      (WorldState.indexOf WorldState.monthMap (WorldState.month t'))
    = Some (WorldState.season t') /\
    1 <= WorldState.day t' <= 30 /\
    WorldState.days_since_epoch t' = WorldState.days_since_epoch t /\
    WorldState.timeOfDay t' = WorldState.timeOfDay t /\
    WorldState.weather t' = WorldState.weather t.
Proof.
  induction fuel as [|fuel IH]; intros t Hmonth Hseason Hday;
    cbn [WorldState.advanceDays_loop];
    destruct (30 <? WorldState.day t)%Z eqn:E;
    [apply Z.ltb_lt in E | apply Z.ltb_ge in E | apply Z.ltb_lt in E | apply Z.ltb_ge in E].
  - lia.
  - exists t. split_and!; try done; lia.
  - destruct (advanceMonths_spec (WorldState.set_day t (WorldState.day t - 30)) 1)
      as (t1 & -> & Hm1 & Hs1 & Hsum1 & Hd1 & Htod1 & Hwe1); [exact Hmonth | lia |].
    cbn [WorldState.set_day WorldState.day WorldState.year WorldState.month
         WorldState.timeOfDay WorldState.weather] in Hsum1, Hd1, Htod1, Hwe1.
    destruct (IH t1 Hm1 Hs1) as (t' & Heq & Hm' & Hs' & Hd' & Hepoch & Htod' & Hwe');
      [lia|].
    exists t'. split_and!; try done; try congruence; try lia.
    rewrite Hepoch. unfold WorldState.days_since_epoch. lia.
  - exists t. split_and!; try done; lia.
Qed.

Lemma advanceDays_spec t days :
  WorldState.calendar_ok t -> 0 <= days ->
  exists t',
    WorldState.advanceDays t days = Some t' /\
    WorldState.calendar_ok t' /\
    WorldState.days_since_epoch t' = WorldState.days_since_epoch t + days /\
    WorldState.timeOfDay t' = WorldState.timeOfDay t /\
    WorldState.weather t' = WorldState.weather t.
Proof.
  intros (Htod & Hmonth & Hseason & Hday) Hdays. unfold WorldState.advanceDays.
  destruct (advanceDays_loop_spec (Z.to_nat (WorldState.day t + days))
              (WorldState.set_day t (WorldState.day t + days)))
    as (t' & Heq & Hm' & Hs' & Hd' & Hepoch & Htod' & Hwe');
    [exact Hmonth | exact Hseason | cbn; lia |].
  cbn [WorldState.set_day WorldState.timeOfDay WorldState.weather] in Htod', Hwe'.
  exists t'. unfold WorldState.calendar_ok. rewrite Htod'.
  split_and!; try done; try lia.
  rewrite Hepoch. unfold WorldState.days_since_epoch. cbn. lia.
Qed.

(** [advanceDays] by a whole number of days, zero or more, on a calendar
    with a known month and a day from 1 to 30, returns (its loop ends)
    with a day from 1 to 30 again; the days since year 0 grow by that
    number, a month having 30 days and a year four months.  Whatever the
    calendar, when the day plus the amount does not exceed 30 nothing but
    the day changes: a negative amount never goes back over a month, and
    can leave a day of zero or less. *)
Theorem advanceDays_keeps_calendar t days :
  (WorldState.calendar_ok t -> 0 <= days ->
   exists t',
     WorldState.advanceDays t days = Some t' /\
     WorldState.calendar_ok t' /\
     WorldState.days_since_epoch t' = WorldState.days_since_epoch t + days /\
     WorldState.timeOfDay t' = WorldState.timeOfDay t /\
     WorldState.weather t' = WorldState.weather t) /\
  (WorldState.day t + days <= 30 ->
   WorldState.advanceDays t days
   = Some (WorldState.set_day t (WorldState.day t + days))).
Proof.
  split; [apply advanceDays_spec|].
  intros Hle. unfold WorldState.advanceDays.
  destruct (Z.to_nat _); cbn [WorldState.advanceDays_loop WorldState.set_day WorldState.day];
    destruct (30 <? WorldState.day t + days)%Z eqn:E; try reflexivity;
    apply Z.ltb_lt in E; lia.
Qed.

Lemma time_of_day_known tod :
  0 <= WorldState.indexOf WorldState.timeOfDayMap tod ->
  WorldState.indexOf WorldState.timeOfDayMap tod < 6.
Proof.
  unfold WorldState.indexOf, WorldState.timeOfDayMap. cbn [WorldState.indexOf_from].
  repeat match goal with
         | |- context [String.eqb ?a tod] =>
             destruct (String.eqb a tod); [intros _; lia|]
         end.
  lia.
Qed.

Lemma time_of_day_at_index i :
  0 <= i < 6 ->
  exists tod,
    WorldState.at_index WorldState.timeOfDayMap i = Some tod /\
    WorldState.indexOf WorldState.timeOfDayMap tod = i.
Proof.
  intros Hi.
  assert (Hcases : i = 0 \/ i = 1 \/ i = 2 \/ i = 3 \/ i = 4 \/ i = 5) by lia.
  destruct Hcases as [-> | [-> | [-> | [-> | [-> | ->]]]]]; eexists; split; reflexivity.
Qed.

Lemma hour_turns t0 i0 n :
  WorldState.calendar_ok t0 -> 0 <= i0 < 6 ->
  exists i t1,
    Nat.iter n WorldState.hour_turn (Some (i0, t0)) = Some (i, t1) /\
    0 <= i < 6 /\
    WorldState.calendar_ok t1 /\
    WorldState.days_since_epoch t1 * 6 + i
    = WorldState.days_since_epoch t0 * 6 + i0 + Z.of_nat n /\
    WorldState.timeOfDay t1 = WorldState.timeOfDay t0 /\
    WorldState.weather t1 = WorldState.weather t0.
Proof.
  intros Hok Hi0. induction n as [|n IH].
  - exists i0, t0. cbn. split_and!; try done; lia.
  - rewrite Nat.iter_succ.
    destruct IH as (i & t1 & -> & Hi & Hok1 & Hsum & Htod & Hwe).
    unfold WorldState.hour_turn.
    change (Z.of_nat (length WorldState.timeOfDayMap)) with 6.
    destruct ((i + 1) mod 6 =? 0)%Z eqn:E;
      [apply Z.eqb_eq in E | apply Z.eqb_neq in E].
    + destruct (advanceDays_spec t1 1 Hok1 ltac:(lia))
        as (t2 & -> & Hok2 & Hepoch & Htod2 & Hwe2).
      exists ((i + 1) mod 6), t2. split_and!; try done; try congruence;
        Z.div_mod_to_equations; lia.
    + exists ((i + 1) mod 6), t1. split_and!; try done;
        Z.div_mod_to_equations; lia.
Qed.

(** [advanceHours] by a whole number of periods, zero or more, on a
    calendar with a known time of day, a known month and a day from 1 to
    30, returns with such a calendar again; the periods since year 0 grow
    by that number, a day having six periods, a month 30 days and a year
    four months. *)
Theorem advanceHours_keeps_calendar t hours :
  WorldState.calendar_ok t -> 0 <= hours ->
  exists t',
    WorldState.advanceHours t hours = Some t' /\
    WorldState.calendar_ok t' /\
    WorldState.periods_since_epoch t' = WorldState.periods_since_epoch t + hours /\
    WorldState.weather t' = WorldState.weather t.
Proof.
  intros Hok Hhours. pose proof Hok as (Htod & _).
  pose proof (time_of_day_known _ Htod) as Hlt.
  unfold WorldState.advanceHours.
  destruct (hour_turns t (WorldState.indexOf WorldState.timeOfDayMap (WorldState.timeOfDay t))
              (Z.to_nat hours) Hok ltac:(lia))
    as (i & t1 & -> & Hi & (Htod1 & Hm1 & Hs1 & Hd1) & Hsum & _ & Hwe).
  destruct (time_of_day_at_index i Hi) as (tod & -> & Hidx).
  eexists. split; [reflexivity|].
  unfold WorldState.calendar_ok, WorldState.periods_since_epoch,
    WorldState.days_since_epoch in *.
  cbn [WorldState.timeOfDay WorldState.month WorldState.season WorldState.day
       WorldState.year WorldState.weather].
  rewrite Hidx. split_and!; try done; lia.
Qed.

(** Thirty-one days, and two hundred periods, from the first morning. *)
Lemma advanceDays_keeps_calendar_witness :
  (exists t',
     WorldState.advanceDays (WorldState.temporal WorldState.new) 31 = Some t' /\
     WorldState.calendar_ok t' /\
     WorldState.days_since_epoch t'
     = WorldState.days_since_epoch (WorldState.temporal WorldState.new) + 31 /\
     WorldState.timeOfDay t' = WorldState.timeOfDay (WorldState.temporal WorldState.new) /\
     WorldState.weather t' = WorldState.weather (WorldState.temporal WorldState.new)) /\
  WorldState.advanceDays (WorldState.temporal WorldState.new) (-5)
  = Some (WorldState.set_day (WorldState.temporal WorldState.new)
            (WorldState.day (WorldState.temporal WorldState.new) + -5)).
Proof.
  split.
  - apply (proj1 (advanceDays_keeps_calendar (WorldState.temporal WorldState.new) 31)).
    + unfold WorldState.calendar_ok. cbn. split_and!; [lia | lia | reflexivity | lia | lia].
    + lia.
  - apply (proj2 (advanceDays_keeps_calendar (WorldState.temporal WorldState.new) (-5))).
    cbn. lia.
Defined.

Lemma advanceHours_keeps_calendar_witness :
  exists t',
    WorldState.advanceHours (WorldState.temporal WorldState.new) 200 = Some t' /\
    WorldState.calendar_ok t' /\
    WorldState.periods_since_epoch t'
    = WorldState.periods_since_epoch (WorldState.temporal WorldState.new) + 200 /\
    WorldState.weather t' = WorldState.weather (WorldState.temporal WorldState.new).
Proof.
  apply (advanceHours_keeps_calendar (WorldState.temporal WorldState.new) 200).
  - unfold WorldState.calendar_ok. cbn. split_and!; [lia | lia | reflexivity | lia | lia].
  - lia.
Defined.


(** ** Saving and loading *)

Lemma compiled_entities_keys em kind :
  kind ∈ Constants.ENTITY_TYPES -> StoryEngine.compiled_entities em !! kind = None.
Proof.
  intros Hkind. unfold StoryEngine.compiled_entities. cbn [fold_left fst snd].
  assert (Hne : kind <> "npcs" /\ kind <> "factions" /\ kind <> "locations"
                /\ kind <> "items").
  { unfold Constants.ENTITY_TYPES in Hkind.
    repeat (apply elem_of_cons in Hkind as [->|Hkind]; [by split_and!|]).
    by apply elem_of_nil in Hkind. }
  destruct Hne as (H1 & H2 & H3 & H4).
  repeat match goal with
         | |- context [match ?x with Some _ => _ | None => _ end] =>
             destruct x
         end;
    rewrite ?lookup_insert_ne by done; apply lookup_empty.
Qed.

Lemma standings_fold_relationships now l : forall g,
  RelationshipGraph.relationships
    (fold_left (fun acc (kv : string * RelationshipGraph.StandingData) =>
                  RelationshipGraph.setPlayerStanding now acc (fst kv) (snd kv)) l g)
  = RelationshipGraph.relationships g.
Proof.
  induction l as [|kv rest IH]; intros g; [done|].
  cbn [fold_left]. by rewrite IH.
Qed.

(** What [restoreGameState] makes of the state [compileGameState] gives:
    the restore returns, and the player, the world, the story context,
    the metadata and every edge of the graph are those of the compiled
    engine; but the entity store now has the kinds under the names
    'npcs', 'factions', 'locations' and 'items', so for each of the five
    entity types, events included, [getEntity] and [createEntity] throw a
    [TypeError]. *)
Theorem restore_of_compiled_state_loses_entity_kinds now now' e e0 :
  RelationshipGraph.reachable (StoryEngine.relationshipGraph e) ->
  StoryEngine.validateSaveFile (StoryEngine.compileGameState now e) = true /\
  exists e',
    StoryEngine.restoreGameState now' e0 (StoryEngine.compileGameState now e)
    = (e', Js.Normal tt) /\
    StoryEngine.player e' = StoryEngine.player e /\
    StoryEngine.worldState e' = StoryEngine.worldState e /\
    StoryEngine.storyContext e' = StoryEngine.storyContext e /\
    StoryEngine.meta e' = StoryEngine.meta e /\
    (forall a b,
       RelationshipGraph.getRelationship (StoryEngine.relationshipGraph e') a b
       = RelationshipGraph.getRelationship (StoryEngine.relationshipGraph e) a b) /\
    EntityManager.entities (StoryEngine.entityManager e') !! "npcs"
    = EntityManager.entities (StoryEngine.entityManager e) !! Constants.NPC /\
    forall kind id,
      kind ∈ Constants.ENTITY_TYPES ->
      EntityManager.getEntity (StoryEngine.entityManager e') kind id
      = Js.Throw (Js.TypeError ("Cannot read properties of undefined (reading '"
                                ++ Js.to_string id ++ "')")) /\
      forall data,
        EntityManager.createEntity now' (StoryEngine.entityManager e') kind id data
        = (StoryEngine.entityManager e',
           Js.Throw (Js.TypeError ("Cannot read properties of undefined (reading '"
                                   ++ Js.to_string id ++ "')"))).
Proof.
  intros Hreach. apply reachable_wf in Hreach.
  split; [reflexivity|].
  unfold StoryEngine.restoreGameState, StoryEngine.compileGameState,
    StoryEngine.restore_relationships.
  cbn [StoryEngine.doc_player StoryEngine.doc_entities StoryEngine.doc_relationships
       StoryEngine.doc_worldState StoryEngine.doc_storyContext StoryEngine.doc_meta
       StoryEngine.sec_playerStandings StoryEngine.sec_entityRelationships
       StoryEngine.undefined_or].
  eexists. split; [reflexivity|].
  cbn [StoryEngine.player StoryEngine.worldState StoryEngine.storyContext StoryEngine.meta
       StoryEngine.relationshipGraph StoryEngine.entityManager
       EntityManager.importEntities EntityManager.exp_entities Js.or_ref
       EntityManager.entities].
  split_and!; try reflexivity.
  - by destruct (StoryEngine.worldState e).
  - intros a b. unfold RelationshipGraph.getRelationship at 1.
    rewrite standings_fold_relationships.
    by apply relationships_round_trip.
  - unfold StoryEngine.compiled_entities. cbn [fold_left fst snd].
    destruct (EntityManager.entities (StoryEngine.entityManager e) !! Constants.NPC)
      as [npcs|];
      repeat match goal with
             | |- context [match ?x with Some _ => _ | None => _ end] => destruct x
             end;
      rewrite ?lookup_insert_ne by done; rewrite ?lookup_insert_eq;
      try reflexivity; apply lookup_empty.
  - intros kind id Hkind.
    unfold EntityManager.getEntity, EntityManager.createEntity.
    cbn [EntityManager.entities EntityManager.importEntities EntityManager.exp_entities
         Js.or_ref].
    rewrite compiled_entities_keys by exact Hkind. done.
Qed.


(** Alice is found before the state is compiled, and not after it is
    restored. *)
Lemma restore_of_compiled_state_witness :
  EntityManager.getEntity (StoryEngine.entityManager Sample.engine_with_alice)
    Constants.NPC (Js.VStr "alice")
  = Js.Normal (Some (DataStructures.NPC "t0" (Js.VStr "alice") Sample.alice)) /\
  exists e',
    StoryEngine.restoreGameState "t2" Sample.engine
      (StoryEngine.compileGameState "t1" Sample.engine_with_alice)
    = (e', Js.Normal tt) /\
    EntityManager.getEntity (StoryEngine.entityManager e') Constants.NPC (Js.VStr "alice")
    = Js.Throw (Js.TypeError ("Cannot read properties of undefined (reading '"
                              ++ Js.to_string (Js.VStr "alice") ++ "')")).
Proof.
  split; [vm_compute; reflexivity|].
  destruct (proj2 (restore_of_compiled_state_loses_entity_kinds "t1" "t2"
                     Sample.engine_with_alice Sample.engine RelationshipGraph.reach_new))
    as (e' & Hrestore & _ & _ & _ & _ & _ & _ & Hkinds).
  exists e'. split; [exact Hrestore|].
  apply Hkinds. unfold Constants.ENTITY_TYPES. left.
Defined.




(** ** The validating world state: the lookup of a parameter *)

Lemma upper_ascii_not_lower c :
  WorldStateChecked.is_lower (Js.upper_ascii c) = false.
Proof. destruct c as [[] [] [] [] [] [] [] []]; reflexivity. Qed.

Lemma lower_start_never_upper (c : ascii) (rest parameter : string) :
  WorldStateChecked.is_lower c = true ->
  String.eqb (String c rest) (Js.toUpperCase parameter) = false.
Proof.
  intros Hlower. destruct parameter as [|p parameter]; [reflexivity|].
  cbn [Js.toUpperCase String.eqb].
  destruct (Ascii.eqb c (Js.upper_ascii p)) eqn:E; [|reflexivity].
  apply Ascii.eqb_eq in E. subst c. by rewrite upper_ascii_not_lower in Hlower.
Qed.

(** The [updateGlobalParameter] of the validating world state never
    returns: it compares the lower-cased key of the table with the
    upper-cased name it was given, which no name satisfies, so every call
    throws an [AppError] with status 400 and leaves the state as it was.
    This includes the call of the class's own example, with
    'GLOBAL_TENSION'. *)
Theorem checked_updateGlobalParameter_always_throws now w parameter change reason :
  exists message,
    WorldStateChecked.updateGlobalParameter now w parameter change reason
    = (w, Js.Throw (Js.AppError message 400)).
Proof.
  unfold WorldStateChecked.updateGlobalParameter.
  destruct (Js.blank parameter); [by eexists|].
  unfold WorldStateChecked.parameter_keys, Constants.WORLD_PARAMETERS.
  cbn [List.map fst List.find WorldStateChecked.toLowerCase].
  rewrite !lower_start_never_upper by reflexivity.
  by eexists.
Qed.


(** ** The entity classes: what a constructor makes of falsy data *)

Lemma truthy_or a b : Js.truthy b = true -> Js.truthy (Js.or a b) = true.
Proof. intros Hb. unfold Js.or. by destruct (Js.truthy a) eqn:E. Qed.

(** An NPC is built with the id it is given, the type 'npc' and the time
    of the call, whatever [data] says under those names; its name,
    display name, occupation, age, mood, importance, trust, fear, respect
    and health are never falsy (an age, a trust or a health of 0 in
    [data] is replaced by the default: 30, 50, 100); and it is not alive
    exactly when [data.alive] is [false]. *)
Theorem NPC_constructor_defaults now id data :
  Js.get (DataStructures.NPC now id data) "id" = id /\
  Js.get (DataStructures.NPC now id data) "type" = Js.VStr Constants.NPC /\
  Js.get (DataStructures.NPC now id data) "created" = Js.VStr now /\
  (forall k,
     k ∈ ["name"; "displayName"; "occupation"; "age"; "mood"; "importance";
          "trust"; "fear"; "respect"; "health"] ->
     Js.truthy (Js.get (DataStructures.NPC now id data) k) = true) /\
  (Js.get data "age" = Js.VNum 0 ->
   Js.get (DataStructures.NPC now id data) "age" = Js.VNum 30) /\
  (Js.get data "health" = Js.VNum 0 ->
   Js.get (DataStructures.NPC now id data) "health" = Js.VNum 100) /\
  Js.get (DataStructures.NPC now id data) "alive"
  = Js.VBool (negb (Js.strict_eq (Js.get data "alive") (Js.VBool false))).
Proof.
  split_and!; try reflexivity.
  - intros k Hk.
    repeat (apply elem_of_cons in Hk as [->|Hk];
            [cbn; repeat apply truthy_or; reflexivity|]).
    by apply elem_of_nil in Hk.
  - intros H. cbn. by rewrite H.
  - intros H. cbn. by rewrite H.
Qed.
